(** * MatlabSample: loading MRE wave images from MATLAB files

    A shallow embedding of [pinn/data/matlab.py].  The Python class
    [MatlabSample] is modelled as a record of its attributes, its methods
    as computations in a small state-and-exception monad, and the numpy /
    xarray values it manipulates as row-major arrays with labelled axes. *)

From stdpp Require Import gmap strings list fin_maps pretty.

Open Scope string_scope.

(** ** Row-major n-dimensional arrays (numpy.ndarray) *)

Record ndarray (A : Type) := NdArray { shape : list nat; data : list A }.
Arguments NdArray {A} _ _.
Arguments shape {A} _.
Arguments data {A} _.

Module nd.

(** Number of elements of an array of the given shape. *)
Definition size_of (sh : list nat) : nat := foldr Nat.mul 1 sh.

(** Offset of a multi-index in the C-ordered buffer. *)
Fixpoint ravel (sh idx : list nat) : nat :=
  match sh, idx with
  | _ :: sh', i :: idx' => i * size_of sh' + ravel sh' idx'
  | _, _ => 0
  end.

(** All multi-indices of a shape, in C order (numpy.ndindex). *)
Fixpoint ndindex (sh : list nat) : list (list nat) :=
  match sh with
  | [] => [[]]
  | n :: sh' => mjoin ((λ i, cons i <$> ndindex sh') <$> seq 0 n)
  end.

Definition in_bounds (sh idx : list nat) : Prop := Forall2 lt idx sh.

#[global] Instance in_bounds_dec sh idx : Decision (in_bounds sh idx).
Proof. unfold in_bounds. apply _. Defined.

(** A buffer that has exactly as many elements as its shape asks for;
    every array numpy hands out is of this kind. *)
Definition wf {A} (a : ndarray A) : Prop := length (data a) = size_of (shape a).

#[global] Instance wf_dec {A} (a : ndarray A) : Decision (wf a).
Proof. unfold wf. apply _. Defined.

(** [a[idx]] for a full multi-index, [None] standing for IndexError. *)
Definition item {A} (a : ndarray A) (idx : list nat) : option A :=
  if decide (in_bounds (shape a) idx) then data a !! ravel (shape a) idx else None.

(** Unchecked read, used by the array operations below on indices that
    are in bounds by construction. *)
Definition at_ {A} `{Inhabited A} (a : ndarray A) (idx : list nat) : A :=
  data a !!! ravel (shape a) idx.

(** The array of shape [sh] whose element at [idx] is [f idx]. *)
Definition tabulate {A} (sh : list nat) (f : list nat → A) : ndarray A :=
  NdArray sh (f <$> ndindex sh).

(** Elementwise application of a unary ufunc. *)
Definition map {A B} (f : A → B) (a : ndarray A) : ndarray B :=
  NdArray (shape a) (f <$> data a).

(** numpy broadcasting of two shapes, aligned at the trailing axis. *)
Fixpoint broadcast_rev (r1 r2 : list nat) : option (list nat) :=
  match r1, r2 with
  | [], r | r, [] => Some r
  | m :: r1', n :: r2' =>
      rest ← broadcast_rev r1' r2';
      if decide (m = n) then Some (m :: rest)
      else if decide (m = 1) then Some (n :: rest)
      else if decide (n = 1) then Some (m :: rest)
      else None
  end.

Definition broadcast_shapes (s1 s2 : list nat) : option (list nat) :=
  reverse <$> broadcast_rev (reverse s1) (reverse s2).

(** The index into an operand of shape [sh] that a result index reads:
    leading result axes the operand lacks are dropped and axes of length
    one are pinned to 0. *)
Definition broadcast_index (sh idx : list nat) : list nat :=
  zip_with (λ n i, if decide (n = 1) then 0 else i) sh
           (drop (length idx - length sh) idx).

(** Elementwise application of a binary ufunc; [None] when the operands
    cannot be broadcast together. *)
Definition map2 {A B D} `{Inhabited A, Inhabited B}
    (f : A → B → D) (a : ndarray A) (b : ndarray B) : option (ndarray D) :=
  sh ← broadcast_shapes (shape a) (shape b);
  Some (tabulate sh (λ idx, f (at_ a (broadcast_index (shape a) idx))
                              (at_ b (broadcast_index (shape b) idx)))).

(** Position of a label in a list of labels. *)
Definition index_of (x : string) (l : list string) : option nat :=
  fst <$> list_find (λ y, y = x) l.

(** Rearranges [xs], given in the order of the labels [from], into the
    order of the labels [to]. *)
Definition reorder {A} (from to : list string) (xs : list A) : option (list A) :=
  mapM (λ nm, i ← index_of nm from; xs !! i) to.

(** Axis permutation by labels: the axes of [a] are labelled [from] and
    the result has them in the order [to]. *)
Definition transpose {A} `{Inhabited A} (from to : list string) (a : ndarray A) : ndarray A :=
  tabulate (default [] (reorder from to (shape a)))
           (λ idx, at_ a (default [] (reorder to from idx))).

(** Splitting and merging a multi-index along a mask of kept axes. *)
Fixpoint select {A} (mask : list bool) (xs : list A) : list A :=
  match mask, xs with
  | b :: mask', x :: xs' => if b then x :: select mask' xs' else select mask' xs'
  | _, _ => []
  end.

Fixpoint merge (mask : list bool) (kept red : list nat) : list nat :=
  match mask with
  | [] => []
  | true :: mask' => hd 0 kept :: merge mask' (tl kept) red
  | false :: mask' => hd 0 red :: merge mask' kept (tl red)
  end.

(** Reduction over the axes whose mask entry is [false]; [op] receives the
    elements of one reduced block in C order. *)
Definition reduce {A B} `{Inhabited A}
    (op : list A → B) (mask : list bool) (a : ndarray A) : ndarray B :=
  tabulate (select mask (shape a))
    (λ k, op ((λ r, at_ a (merge mask k r))
                <$> ndindex (select (negb <$> mask) (shape a)))).

End nd.

(** ** Python exceptions and results

    [Unmodelled] is no Python exception: it marks the one library path the
    model leaves out (see [xr.setitem]). *)

Inductive exn :=
| NotImplementedError
| FileNotFoundError
| OSError
| ImportError
| KeyError (key : string)
| AttributeError (attr : string)
| IndexError
| ValueError
| TypeError
| Unmodelled.

#[global] Instance exn_eq_dec : EqDecision exn.
Proof. solve_decision. Defined.

Inductive result (A : Type) := Ok (a : A) | Raise (e : exn).
Arguments Ok {A} _.
Arguments Raise {A} _.

#[global] Instance result_ret : MRet result := λ A a, Ok a.
#[global] Instance result_bind : MBind result := λ A B f m,
  match m with Ok a => f a | Raise e => Raise e end.
#[global] Instance result_fmap : FMap result := λ A B f m,
  match m with Ok a => Ok (f a) | Raise e => Raise e end.

(** An absent value turned into the exception Python raises for it. *)
Definition or_raise {A} (e : exn) (o : option A) : result A :=
  match o with Some a => Ok a | None => Raise e end.

(** ** Scalars

    float64 and complex128 arithmetic is kept abstract: [R] stands for the
    real and [C] for the complex scalars, with the handful of operations
    the loader applies to them. *)

Class Scalars (R C : Type) := {
  real_eq_dec :: EqDecision R;
  complex_eq_dec :: EqDecision C;
  real_inhabited :: Inhabited R;
  complex_inhabited :: Inhabited C;
  (** int64 promoted to float64 *)
  float_of_int : Z → R;
  (** product of two reals *)
  float_mul : R → R → R;
  (** [1j * p] *)
  imag_mul : R → C;
  (** complex exponential *)
  complex_exp : C → C;
  (** [m * z], the real [m] promoted to complex *)
  scale : R → C → C;
  (** arithmetic means, as [numpy.mean] computes them *)
  real_mean : list R → R;
  complex_mean : list C → C;
}.

(** A numpy array together with its dtype. *)
Inductive array (R C : Type) :=
| Float64 (a : ndarray R)
| Complex128 (a : ndarray C)
| Int64 (a : ndarray Z)
| Unicode (a : ndarray string).
Arguments Float64 {R C} _.
Arguments Complex128 {R C} _.
Arguments Int64 {R C} _.
Arguments Unicode {R C} _.

#[global] Instance ndarray_eq_dec {A} `{EqDecision A} : EqDecision (ndarray A).
Proof. solve_decision. Defined.

#[global] Instance array_eq_dec {R C} `{Scalars R C} : EqDecision (array R C).
Proof. solve_decision. Defined.

Module np.
Section np.
Context {R C : Type} `{!Scalars R C}.

Definition shape_of (a : array R C) : list nat :=
  match a with
  | Float64 x => shape x | Complex128 x => shape x
  | Int64 x => shape x | Unicode x => shape x
  end.

(** [np.arange(n)] *)
Definition arange (n : nat) : ndarray Z := NdArray [n] (Z.of_nat <$> seq 0 n).

(** [a * r] for an int64 array and a Python float. *)
Definition times_float (a : ndarray Z) (r : R) : ndarray R :=
  nd.map (λ i, float_mul (float_of_int i) r) a.

(** [np.array([x])] *)
Definition array1 {A} (x : A) : ndarray A := NdArray [1] [x].

(** [1j * a] for a real array. *)
Definition times_1j (a : ndarray R) : ndarray C := nd.map imag_mul a.

(** [np.exp] on a complex array. *)
Definition exp (a : ndarray C) : ndarray C := nd.map complex_exp a.

(** [np.multiply] of a real and a complex array; the operands are
    broadcast, and shapes that cannot be broadcast raise ValueError. *)
Definition multiply (a : ndarray R) (b : ndarray C) : result (ndarray C) :=
  or_raise ValueError (nd.map2 scale a b).

(** [np.expand_dims(a, axis=0)] *)
Definition expand_dims0 {A} (a : ndarray A) : ndarray A := NdArray (1 :: shape a) (data a).

(** Applies a dtype-generic array operation under the dtype tag. *)
Definition lift (f : ∀ A, Inhabited A → ndarray A → ndarray A) (a : array R C) : array R C :=
  match a with
  | Float64 x => Float64 (f _ _ x)
  | Complex128 x => Complex128 (f _ _ x)
  | Int64 x => Int64 (f _ _ x)
  | Unicode x => Unicode (f _ _ x)
  end.

(** [a.mean(axis=...)] over the axes whose mask entry is [false]; an
    integer array averages to float64 and a string array cannot be
    averaged. *)
Definition mean (mask : list bool) (a : array R C) : result (array R C) :=
  match a with
  | Float64 x => Ok (Float64 (nd.reduce real_mean mask x))
  | Complex128 x => Ok (Complex128 (nd.reduce complex_mean mask x))
  | Int64 x => Ok (Float64 (nd.reduce (λ l, real_mean (float_of_int <$> l)) mask x))
  | Unicode _ => Raise TypeError
  end.

End np.
End np.

(** ** Labelled arrays (xarray) *)

(** [xarray.Variable]: an array whose axes carry dimension names. *)
Record Var (R C : Type) := MkVar { dims : list string; values : array R C }.
Arguments MkVar {R C} _ _.
Arguments dims {R C} _.
Arguments values {R C} _.

(** [xarray.DataArray]: a variable, the coordinate variables attached to
    it, and an optional name. *)
Record DataArray (R C : Type) := MkDataArray {
  variable : Var R C;
  coords : gmap string (Var R C);
  name : option string;
}.
Arguments MkDataArray {R C} _ _ _.
Arguments variable {R C} _.
Arguments coords {R C} _.
Arguments name {R C} _.

(** [xarray.Dataset]: named variables over shared dimensions; the names in
    [coord_names] are coordinates, the others data variables. *)
Record Dataset (R C : Type) := MkDataset {
  variables : gmap string (Var R C);
  coord_names : gset string;
}.
Arguments MkDataset {R C} _ _.
Arguments variables {R C} _.
Arguments coord_names {R C} _.

#[global] Instance Var_eq_dec {R C} `{Scalars R C} : EqDecision (Var R C).
Proof. solve_decision. Defined.

Module xr.
Section xr.
Context {R C : Type} `{!Scalars R C}.

Definition shape_of (da : DataArray R C) : list nat := np.shape_of (values (variable da)).

(** The length each dimension of a variable has. *)
Definition sizes (v : Var R C) : list (string * nat) := zip (dims v) (np.shape_of (values v)).

(** A one-dimensional coordinate array given for the dimension of its own
    name must be as long as that dimension. *)
Definition coord_fits (ds : list string) (sh : list nat) (kv : string * array R C) : bool :=
  match nd.index_of kv.1 ds ≫= (sh !!.) with
  | Some n => bool_decide (np.shape_of kv.2 = [n])
  | None => false
  end.

(** [xr.DataArray(a, dims=ds, coords=cs)] for one-dimensional coordinate
    arrays: ValueError unless there is one name per axis and every
    coordinate fits its dimension. *)
Definition DataArray_init (a : array R C) (ds : list string)
    (cs : list (string * array R C)) : result (DataArray R C) :=
  if bool_decide (length ds = length (np.shape_of a)) && forallb (coord_fits ds (np.shape_of a)) cs
  then Ok (MkDataArray (MkVar ds a)
             (list_to_map ((λ kv, (kv.1, MkVar [kv.1] kv.2)) <$> cs)) None)
  else Raise ValueError.

(** [da.transpose(names...)]: ValueError unless [names] is a permutation of
    the dimensions. *)
Definition transpose (da : DataArray R C) (names : list string) : result (DataArray R C) :=
  let v := variable da in
  if decide (names ≡ₚ dims v)
  then Ok (MkDataArray
             (MkVar names (np.lift (λ A _, nd.transpose (dims v) names) (values v)))
             (coords da) (name da))
  else Raise ValueError.

(** [da.mean(over)]: the listed dimensions are averaged away, together
    with every coordinate that runs along one of them. *)
Definition mean (da : DataArray R C) (over : list string) : result (DataArray R C) :=
  let v := variable da in
  if decide (over ⊆ dims v) then
    let mask := (λ d, bool_decide (d ∉ over)) <$> dims v in
    a ← np.mean mask (values v);
    Ok (MkDataArray (MkVar (nd.select mask (dims v)) a)
          (filter (λ kv, Forall (λ d, d ∉ over) (dims kv.2)) (coords da))
          (name da))
  else Raise ValueError.

(** [xr.Dataset({key: da})] *)
Definition Dataset_init (key : string) (da : DataArray R C) : Dataset R C :=
  MkDataset (<[key := variable da]> (coords da)) (dom (coords da)).

(** [ds[key]], also reached by attribute access [ds.key]: the variable with
    the coordinates of the dataset that run along its dimensions only. *)
Definition getitem (ds : Dataset R C) (key : string) : option (DataArray R C) :=
  v ← variables ds !! key;
  Some (MkDataArray v
          (filter (λ kv, kv.1 ∈ coord_names ds ∧ dims kv.2 ⊆ dims v) (variables ds))
          (Some key)).

(** The new variable must give every dimension the length the other
    variables of the dataset give it. *)
Definition sizes_agree (v : Var R C) (others : gmap string (Var R C)) : Prop :=
  map_Forall (λ _ v', Forall (λ dn, Forall (λ dn', dn'.1 = dn.1 → dn'.2 = dn.2) (sizes v')) (sizes v)) others.

#[global] Instance sizes_agree_dec v others : Decision (sizes_agree v others).
Proof. unfold sizes_agree. apply _. Defined.

(** Every coordinate the value brings is either new to the dataset or the
    very variable the dataset has under that name. *)
Definition coords_agree (cs : gmap string (Var R C)) (ds : Dataset R C) : Prop :=
  map_Forall (λ k cv, variables ds !! k = None ∨ variables ds !! k = Some cv) cs.

#[global] Instance coords_agree_dec cs ds : Decision (coords_agree cs ds).
Proof. unfold coords_agree. apply _. Defined.

(** [ds[key] = value].  Coordinates of the value that are not dimensions
    of it and clash with coordinates of the dataset are dropped; the value
    is then merged in under [key].  xarray re-indexes a value whose
    coordinates differ from the dataset's; the loader only ever assigns
    values that carry the dataset's own coordinates, and the re-indexing
    path is left out as [Unmodelled]. *)
Definition setitem (ds : Dataset R C) (key : string) (value : DataArray R C)
    : result (Dataset R C) :=
  let v := variable value in
  let cs := filter (λ kv, kv.1 ∈ dims v ∨ kv.1 ∉ coord_names ds) (coords value) in
  if decide (coords_agree cs ds) then
    if decide (sizes_agree v (delete key (variables ds)))
    then Ok (MkDataset (<[key := v]> (variables ds ∪ cs)) (coord_names ds ∪ dom cs))
    else Raise ValueError
  else Raise Unmodelled.

(** [ds.assign_coords(key=value)] *)
Definition assign_coords (ds : Dataset R C) (key : string) (value : DataArray R C)
    : result (Dataset R C) :=
  ds' ← setitem ds key value;
  Ok (MkDataset (variables ds') (coord_names ds' ∪ {[key]})).

End xr.
End xr.

(** ** The helper [utils.as_xarray] *)

Module utils.
Section utils.
Context {R C : Type} `{!Scalars R C}.

(** Modelled from the spec: [utils.as_xarray] is imported from the package's
    utils module, which is not among the sources.  The specification has
    auxiliary arrays aligned onto the primary array's coordinate system by
    shape-matching against a reference array: the array must have the
    shape of [like], and it receives the dimensions, coordinates and name
    of [like], whatever axis order its file meant. *)
Definition as_xarray (a : array R C) (like : DataArray R C) : result (DataArray R C) :=
  if decide (np.shape_of a = xr.shape_of like)
  then Ok (MkDataArray (MkVar (dims (variable like)) a) (coords like) (name like))
  else Raise ValueError.

End utils.
End utils.

(** ** The outside world and the interpreter state *)

(** What the I/O libraries answer for each path: [scipy.io.loadmat(path)],
    [h5py.File(path)] (with its import) and [nib.load(path).get_fdata()].
    A file holds named real-valued arrays. *)
Record World (R : Type) := MkWorld {
  scipy_io_loadmat : string → result (gmap string (ndarray R));
  h5py_File : string → result (gmap string (ndarray R));
  nib_load_get_fdata : string → result (ndarray R);
}.
Arguments MkWorld {R} _ _ _.
Arguments scipy_io_loadmat {R} _ _.
Arguments h5py_File {R} _ _.
Arguments nib_load_get_fdata {R} _ _.

(** Observable actions: the reader calls issued and the lines written to
    [sys.stderr].  Diagnostics on standard output ([print_if], [print],
    [_print_mat_info]) leave no trace here; they read the state and never
    change it. *)
Inductive event :=
| Call_loadmat (path : string)
| Call_h5py_File (path : string)
| Call_nib_load (path : string)
| Stderr (line : string).

#[global] Instance event_eq_dec : EqDecision event.
Proof. solve_decision. Defined.

(** The attributes of a [MatlabSample] object.  [mask_file] and
    [bin_mask_file] hold Python's [None] or a path; for the remaining
    optional fields [None] means that the attribute does not exist, so that
    reading it raises AttributeError. *)
Record MatlabSample (R C : Type) := MkSample {
  mat_file : string;
  mask_file : option string;
  bin_mask_file : option string;
  freq : Z;
  resolution : list R;
  arrays : option (Dataset R C);
  storage_mod_file : option string;
  loss_mod_file : option string;
  file_path_mask : option string;
  file_path_filled : option string;
}.
Arguments MkSample {R C} _ _ _ _ _ _ _ _ _ _.
Arguments mat_file {R C} _.
Arguments mask_file {R C} _.
Arguments bin_mask_file {R C} _.
Arguments freq {R C} _.
Arguments resolution {R C} _.
Arguments arrays {R C} _.
Arguments storage_mod_file {R C} _.
Arguments loss_mod_file {R C} _.
Arguments file_path_mask {R C} _.
Arguments file_path_filled {R C} _.

(** Attribute assignments on the object. *)
Definition with_arrays {R C} (ds : Dataset R C) (o : MatlabSample R C) : MatlabSample R C :=
  MkSample (mat_file o) (mask_file o) (bin_mask_file o) (freq o) (resolution o)
    (Some ds) (storage_mod_file o) (loss_mod_file o) (file_path_mask o) (file_path_filled o).

Definition with_storage_mod_file {R C} (path : string) (o : MatlabSample R C) : MatlabSample R C :=
  MkSample (mat_file o) (mask_file o) (bin_mask_file o) (freq o) (resolution o)
    (arrays o) (Some path) (loss_mod_file o) (file_path_mask o) (file_path_filled o).

Definition with_loss_mod_file {R C} (path : string) (o : MatlabSample R C) : MatlabSample R C :=
  MkSample (mat_file o) (mask_file o) (bin_mask_file o) (freq o) (resolution o)
    (arrays o) (storage_mod_file o) (Some path) (file_path_mask o) (file_path_filled o).

(** What a computation leaves behind: the value returned or the exception
    raised, the object as it then is, and the events it caused.  The object
    survives an exception, as in Python. *)
Record run (R C A : Type) := MkRun {
  value : result A;
  final : MatlabSample R C;
  events : list event;
}.
Arguments MkRun {R C A} _ _ _.
Arguments value {R C A} _.
Arguments final {R C A} _.
Arguments events {R C A} _.

(** Computations on the object. *)
Definition Py (R C A : Type) : Type := MatlabSample R C → run R C A.

#[global] Instance Py_ret {R C} : MRet (Py R C) := λ A a o, MkRun (Ok a) o [].
#[global] Instance Py_bind {R C} : MBind (Py R C) := λ A B f m o,
  match m o with
  | MkRun (Ok a) o' t =>
      match f a o' with MkRun r o'' t' => MkRun r o'' (t ++ t') end
  | MkRun (Raise e) o' t => MkRun (Raise e) o' t
  end.

Module py.
Section py.
Context {R C : Type}.

Definition raise {A} (e : exn) : Py R C A := λ o, MkRun (Raise e) o [].

(** A pure step that may raise. *)
Definition lift {A} (r : result A) : Py R C A := λ o, MkRun r o [].

Definition get_self : Py R C (MatlabSample R C) := λ o, MkRun (Ok o) o [].

Definition emit (e : event) : Py R C unit := λ o, MkRun (Ok ()) o [e].

(** [self.attr] for an attribute that may not exist. *)
Definition getattr {A} (attr : string) (field : MatlabSample R C → option A) : Py R C A :=
  λ o, MkRun (or_raise (AttributeError attr) (field o)) o [].

Definition modify (f : MatlabSample R C → MatlabSample R C) : Py R C unit :=
  λ o, MkRun (Ok ()) (f o) [].

(** [self.arrays = ds] *)
Definition set_arrays (ds : Dataset R C) : Py R C unit := modify (with_arrays ds).

(** [self.storage_mod_file = path] *)
Definition set_storage_mod_file (path : string) : Py R C unit :=
  modify (with_storage_mod_file path).

(** [self.loss_mod_file = path] *)
Definition set_loss_mod_file (path : string) : Py R C unit :=
  modify (with_loss_mod_file path).

(** [da.name = nm] *)
Definition set_name (nm : string) (da : DataArray R C) : DataArray R C :=
  MkDataArray (variable da) (coords da) (Some nm).

End py.
End py.

(** ** The class [MatlabSample] *)

Module MatlabSample.
Section MatlabSample.
Context {R C : Type} `{!Scalars R C}.
Variable w : World R.

(** [MatlabSample(filepath, frequency, resolution)] *)
Definition __init__ (filepath : string) (frequency : Z) (resolution : list R)
    : MatlabSample R C :=
  MkSample filepath None None frequency resolution None None None None None.

(** The default of the [resolution] parameter, [[1.0, 1.0, 1.0]]. *)
Definition default_resolution : list R :=
  [float_of_int 1; float_of_int 1; float_of_int 1].

Definition wave_var : string := "u_ft".

(** [_load_mat_file(mat_file, verbose)]: the loaded data and the flag for
    the MATLAB axes order. *)
Definition _load_mat_file (mat_file : string) (verbose : bool)
    : Py R C (gmap string (ndarray R) * bool) :=
  py.emit (Call_loadmat mat_file);;
  match scipy_io_loadmat w mat_file with
  | Ok data => mret (data, true)
  | Raise NotImplementedError =>
      py.emit (Call_h5py_File mat_file);;
      data ← py.lift (h5py_File w mat_file);
      mret (data, false)
  | Raise e =>
      py.emit (Stderr ("Failed to load " ++ mat_file));;
      py.raise e
  end.

(** [self.add_metadata(array)] *)
Definition add_metadata (array : ndarray C) : Py R C (DataArray R C) :=
  self ← py.get_self;
  let dims := ["x"; "y"; "z"; "timesteps"; "component"; "frequency"] in
  let frequency := Int64 (np.array1 (freq self)) in
  n0 ← py.lift (or_raise IndexError (shape array !! 0));
  r0 ← py.lift (or_raise IndexError (resolution self !! 0));
  n1 ← py.lift (or_raise IndexError (shape array !! 1));
  r1 ← py.lift (or_raise IndexError (resolution self !! 1));
  n2 ← py.lift (or_raise IndexError (shape array !! 2));
  r2 ← py.lift (or_raise IndexError (resolution self !! 2));
  n3 ← py.lift (or_raise IndexError (shape array !! 3));
  let coords :=
    [("frequency", frequency);
     ("x", Float64 (np.times_float (np.arange n0) r0));
     ("y", Float64 (np.times_float (np.arange n1) r1));
     ("z", Float64 (np.times_float (np.arange n2) r2));
     ("component", Unicode (NdArray [3] ["x"; "y"; "z"]));
     ("timesteps", Int64 (np.arange n3))] in
  array ← py.lift (xr.DataArray_init (Complex128 array) dims coords);
  py.lift (xr.transpose array ["timesteps"; "frequency"; "x"; "y"; "z"; "component"]).

(** [self.load_mat(verbose)] *)
Definition load_mat (verbose : bool) : Py R C unit :=
  self ← py.get_self;
  '(data, rev_axes) ← _load_mat_file (mat_file self) verbose;
  magnitude ← py.lift (or_raise (KeyError "magnitude") (data !! "magnitude"));
  phase ← py.lift (or_raise (KeyError "phase") (data !! "phase"));
  wave ← py.lift (np.multiply magnitude (np.exp (np.times_1j phase)));
  wave ← add_metadata wave;
  py.set_arrays (xr.Dataset_init "wave" wave).

(** [self.arrays.wave] *)
Definition arrays_wave : Py R C (DataArray R C) :=
  ds ← py.getattr "arrays" arrays;
  py.lift (or_raise (AttributeError "wave") (xr.getitem ds "wave")).

(** [self.arrays[key] = value] *)
Definition arrays_setitem (key : string) (value : DataArray R C) : Py R C unit :=
  ds ← py.getattr "arrays" arrays;
  ds ← py.lift (xr.setitem ds key value);
  py.set_arrays ds.

(** [self.arrays = self.arrays.assign_coords(spatial_region=self.arrays.spatial_region)] *)
Definition arrays_assign_spatial_region : Py R C unit :=
  ds ← py.getattr "arrays" arrays;
  region ← py.lift (or_raise (AttributeError "spatial_region") (xr.getitem ds "spatial_region"));
  ds ← py.lift (xr.assign_coords ds "spatial_region" region);
  py.set_arrays ds.

(** [self.segment_regions(verbose)] *)
Definition segment_regions (verbose : bool) : Py R C unit :=
  wave ← arrays_wave;
  u ← py.lift (xr.mean wave ["frequency"; "component"]);
  self ← py.get_self;
  (if mask_file self is Some _ then
     perc_mask ← py.getattr "file_path_mask" file_path_mask;
     py.emit (Call_loadmat perc_mask);;
     mask_mat ← py.lift (scipy_io_loadmat w perc_mask);
     mask_mat ← py.lift (or_raise (KeyError "img_seg") (mask_mat !! "img_seg"));
     mask_mat ← py.lift (utils.as_xarray (Float64 mask_mat) u);
     let mask_mat := py.set_name "spatial_region" mask_mat in
     arrays_setitem "spatial_region" mask_mat;;
     arrays_assign_spatial_region
   else mret ());;
  self ← py.get_self;
  (if bin_mask_file self is Some _ then
     perc_fill ← py.getattr "file_path_filled" file_path_filled;
     py.emit (Call_loadmat perc_fill);;
     mask_fill ← py.lift (scipy_io_loadmat w perc_fill);
     mask_fill ← py.lift (or_raise (KeyError "img_seg_filled") (mask_fill !! "img_seg_filled"));
     mask_fill ← py.lift (utils.as_xarray (Float64 mask_fill) u);
     let mask_fill := py.set_name "binary_region" mask_fill in
     arrays_setitem "binary_region" mask_fill;;
     arrays_assign_spatial_region
   else mret ()).

(** [self.create_elastogram(verbose)] *)
Definition create_elastogram (verbose : bool) : Py R C unit :=
  wave ← arrays_wave;
  u ← py.lift (xr.mean wave ["component"; "timesteps"]);
  storage_path ← py.getattr "storage_mod_file" storage_mod_file;
  py.emit (Call_nib_load storage_path);;
  storage ← py.lift (nib_load_get_fdata w storage_path);
  loss_path ← py.getattr "loss_mod_file" loss_mod_file;
  py.emit (Call_nib_load loss_path);;
  loss ← py.lift (nib_load_get_fdata w loss_path);
  complex_array ← py.lift (np.multiply storage (np.exp (np.times_1j loss)));
  let mu_mat := np.expand_dims0 complex_array in
  mu ← py.lift (utils.as_xarray (Complex128 mu_mat) u);
  let mu := py.set_name "elastogram" mu in
  arrays_setitem "mu" mu.

(** [self.preprocess(storage_mod_file, loss_mod_file, verbose)] *)
Definition preprocess (storage_mod_file loss_mod_file : string) (verbose : bool) : Py R C unit :=
  py.set_storage_mod_file storage_mod_file;;
  py.set_loss_mod_file loss_mod_file;;
  segment_regions verbose;;
  create_elastogram verbose.

End MatlabSample.
End MatlabSample.

(** ** Vocabulary of the statements *)

Section vocabulary.
Context {R C : Type} `{!Scalars R C}.
Variable w : World R.

(** The axis order of the arrays in the file, as [add_metadata] names it,
    and the order it returns. *)
Definition file_order : list string :=
  ["x"; "y"; "z"; "timesteps"; "component"; "frequency"].
Definition canonical : list string :=
  ["timesteps"; "frequency"; "x"; "y"; "z"; "component"].

(** The file at [path] yields [d], through the first reader or through
    the fallback. *)
Definition loads (path : string) (d : gmap string (ndarray R)) : Prop :=
  scipy_io_loadmat w path = Ok d ∨
  (scipy_io_loadmat w path = Raise NotImplementedError ∧ h5py_File w path = Ok d).

(** The coordinate variables [add_metadata] attaches to an array with [nx],
    [ny], [nz] voxels and [nt] time steps. *)
Definition wave_coords (frequency : Z) (nx ny nz nt : nat) (rx ry rz : R)
    : gmap string (Var R C) :=
  list_to_map
    [("frequency", MkVar ["frequency"] (Int64 (np.array1 frequency)));
     ("x", MkVar ["x"] (Float64 (np.times_float (np.arange nx) rx)));
     ("y", MkVar ["y"] (Float64 (np.times_float (np.arange ny) ry)));
     ("z", MkVar ["z"] (Float64 (np.times_float (np.arange nz) rz)));
     ("component", MkVar ["component"] (Unicode (NdArray [3] ["x"; "y"; "z"])));
     ("timesteps", MkVar ["timesteps"] (Int64 (np.arange nt)))].

(** The dataset [load_mat] stores for the wave field [wave]. *)
Definition loaded (frequency : Z) (wave : ndarray C) (nx ny nz nt : nat) (rx ry rz : R)
    : Dataset R C :=
  MkDataset
    (<["wave" := MkVar canonical (Complex128 wave)]>
       (wave_coords frequency nx ny nz nt rx ry rz))
    (dom (wave_coords frequency nx ny nz nt rx ry rz)).

(** The coordinate variables of the elastogram: those of the wave along
    frequency, x, y and z. *)
Definition elastogram_coords (frequency : Z) (nx ny nz : nat) (rx ry rz : R)
    : gmap string (Var R C) :=
  list_to_map
    [("frequency", MkVar ["frequency"] (Int64 (np.array1 frequency)));
     ("x", MkVar ["x"] (Float64 (np.times_float (np.arange nx) rx)));
     ("y", MkVar ["y"] (Float64 (np.times_float (np.arange ny) ry)));
     ("z", MkVar ["z"] (Float64 (np.times_float (np.arange nz) rz)))].

(** Which axes of the wave survive the mean over component and
    timesteps. *)
Definition kept : list bool := [false; true; true; true; true; false].

(** Which axes of the wave survive the mean over frequency and
    component. *)
Definition region_kept : list bool := [true; false; true; true; true; false].

(** The coordinate variables of a mask: those of the wave along timesteps,
    x, y and z. *)
Definition region_coords (nx ny nz nt : nat) (rx ry rz : R) : gmap string (Var R C) :=
  list_to_map
    [("x", MkVar ["x"] (Float64 (np.times_float (np.arange nx) rx)));
     ("y", MkVar ["y"] (Float64 (np.times_float (np.arange ny) ry)));
     ("z", MkVar ["z"] (Float64 (np.times_float (np.arange nz) rz)));
     ("timesteps", MkVar ["timesteps"] (Int64 (np.arange nt)))].

(** The dataset after the mask has been attached and made a coordinate. *)
Definition with_region (V : Var R C) (ds : Dataset R C) : Dataset R C :=
  MkDataset (<["spatial_region" := V]> (variables ds)) (coord_names ds ∪ {["spatial_region"]}).

(** A dataset with the variable ["mu"] set. *)
Definition with_mu (mu : Var R C) (ds : Dataset R C) : Dataset R C :=
  MkDataset (<["mu" := mu]> (variables ds)) (coord_names ds).

(** The datasets a sample can hold: the one [load_mat] stored, possibly
    with an elastogram over frequency, x, y and z added. *)
Definition well_loaded (ds : Dataset R C) : Prop :=
  ∃ frequency wave nx ny nz nt rx ry rz,
    shape wave = [nt; 1; nx; ny; nz; 3] ∧
    (ds = loaded frequency wave nx ny nz nt rx ry rz ∨
     ∃ mu, ds = with_mu mu (loaded frequency wave nx ny nz nt rx ry rz)).

(** What the methods keep true of the object: the mask attributes are
    never assigned and the dataset, once there, is well loaded. *)
Definition invariant (o : MatlabSample R C) : Prop :=
  mask_file o = None ∧ bin_mask_file o = None ∧
  file_path_mask o = None ∧ file_path_filled o = None ∧
  ∀ ds, arrays o = Some ds → well_loaded ds.

(** The public methods, with their arguments. *)
Inductive method :=
| Load_mat (verbose : bool)
| Add_metadata (array : ndarray C)
| Preprocess (storage_mod_file loss_mod_file : string) (verbose : bool)
| Segment_regions (verbose : bool)
| Create_elastogram (verbose : bool)
| Load_mat_file (mat_file : string) (verbose : bool).

(** One method call on the object; its return value or exception goes to
    the caller and the object is kept. *)
Definition call (m : method) (o : MatlabSample R C) : MatlabSample R C :=
  match m with
  | Load_mat v => final (MatlabSample.load_mat w v o)
  | Add_metadata a => final (MatlabSample.add_metadata a o)
  | Preprocess sp lp v => final (MatlabSample.preprocess w sp lp v o)
  | Segment_regions v => final (MatlabSample.segment_regions w v o)
  | Create_elastogram v => final (MatlabSample.create_elastogram w v o)
  | Load_mat_file p v => final (MatlabSample._load_mat_file w p v o)
  end.

(** The objects that are constructed and then used through the methods
    only. *)
Inductive reachable : MatlabSample R C → Prop :=
| reachable_init filepath frequency resolution :
    reachable (MatlabSample.__init__ filepath frequency resolution)
| reachable_call o m : reachable o → reachable (call m o).

End vocabulary.

(** ** A concrete instance for examples

    Reals are integers (millimetres, radians and moduli on an integer
    grid) and complex results are kept as the symbolic expressions the
    loader builds, so that examples show which operation reached which
    element. *)

Inductive cterm :=
| Czero
| Cimag (p : Z)
| Cexp (z : cterm)
| Cscale (m : Z) (z : cterm)
| Cadd (z1 z2 : cterm)
| Cdiv (z : cterm) (n : nat).

#[global] Instance cterm_eq_dec : EqDecision cterm.
Proof. solve_decision. Defined.

#[global] Instance cterm_inhabited : Inhabited cterm := populate Czero.

#[global] Instance symbolic : Scalars Z cterm := {|
  float_of_int := id;
  float_mul := Z.mul;
  imag_mul := Cimag;
  complex_exp := Cexp;
  scale := Cscale;
  real_mean := λ l, (foldr Z.add 0 l `div` Z.of_nat (length l))%Z;
  complex_mean := λ l, Cdiv (foldr Cadd Czero l) (length l);
|}.

Module example.

(** A wave file with two voxels along x, two time steps, three components
    and one frequency (shape (2, 1, 1, 2, 3, 1)). *)
Definition magnitude : ndarray Z :=
  NdArray [2; 1; 1; 2; 3; 1] [1; 2; 3; 4; 5; 6; 7; 8; 9; 10; 11; 12]%Z.
Definition phase : ndarray Z :=
  NdArray [2; 1; 1; 2; 3; 1] [10; 20; 30; 40; 50; 60; 70; 80; 90; 100; 110; 120]%Z.
Definition wave_file : gmap string (ndarray Z) :=
  <["magnitude" := magnitude]> (<["phase" := phase]> ∅).

(** Modulus images on the same grid, shape (2, 1, 1). *)
Definition storage : ndarray Z := NdArray [2; 1; 1] [7; 8]%Z.
Definition loss : ndarray Z := NdArray [2; 1; 1] [70; 80]%Z.

(** A mask in the order (timesteps, x, y, z) of the reference array, and
    the same mask in the order (x, y, z, timesteps) of the wave file. *)
Definition mask : ndarray Z := NdArray [2; 2; 1; 1] [0; 1; 1; 0]%Z.
Definition mask_file_order : ndarray Z := NdArray [2; 1; 1; 2] [0; 1; 1; 0]%Z.

(** A disk with the legacy file ["wave.mat"], the v7.3 file ["wave73.mat"]
    that h5py reads to the same arrays, the truncated v7.3 file
    ["broken73.mat"], two mask files and the two modulus images. *)
Definition disk : World Z :=
  MkWorld
    (λ path, if decide (path = "wave.mat") then Ok wave_file
             else if decide (path = "wave73.mat") then Raise NotImplementedError
             else if decide (path = "broken73.mat") then Raise NotImplementedError
             else if decide (path = "mask.mat") then Ok (<["img_seg" := mask]> ∅)
             else if decide (path = "mask_xyzt.mat")
                  then Ok (<["img_seg" := mask_file_order]> ∅)
             else Raise FileNotFoundError)
    (λ path, if decide (path = "wave73.mat") then Ok wave_file
             else Raise OSError)
    (λ path, if decide (path = "storage.nii") then Ok storage
             else if decide (path = "loss.nii") then Ok loss
             else Raise FileNotFoundError).

Definition fresh (path : string) : MatlabSample Z cterm :=
  MatlabSample.__init__ path 50 [2; 2; 3]%Z.

(** The sample after [load_mat], and after [load_mat] and [preprocess]. *)
Definition sample : MatlabSample Z cterm :=
  final (MatlabSample.load_mat disk true (fresh "wave.mat")).
Definition preprocessed : MatlabSample Z cterm :=
  final (MatlabSample.preprocess disk "storage.nii" "loss.nii" true sample).

(** The wave field of the sample: [magnitude * exp(i * phase)], with the
    axes in the order (timesteps, frequency, x, y, z, component). *)
Definition wave_data : ndarray cterm :=
  NdArray [2; 1; 2; 1; 1; 3]
    [Cscale 1 (Cexp (Cimag 10)); Cscale 2 (Cexp (Cimag 20)); Cscale 3 (Cexp (Cimag 30));
     Cscale 7 (Cexp (Cimag 70)); Cscale 8 (Cexp (Cimag 80)); Cscale 9 (Cexp (Cimag 90));
     Cscale 4 (Cexp (Cimag 40)); Cscale 5 (Cexp (Cimag 50)); Cscale 6 (Cexp (Cimag 60));
     Cscale 10 (Cexp (Cimag 100)); Cscale 11 (Cexp (Cimag 110));
     Cscale 12 (Cexp (Cimag 120))].

(** The sample with a mask file attached from outside the class: no
    method assigns these attributes. *)
Definition masked (path : string) : MatlabSample Z cterm :=
  MkSample (mat_file sample) (Some path) None (freq sample) (resolution sample)
    (arrays sample) None None (Some path) None.

(** A complex array as [add_metadata] expects it, and one with the
    component and frequency axes exchanged. *)
Definition field : ndarray cterm :=
  NdArray [2; 1; 1; 2; 3; 1] (Cimag <$> [1; 2; 3; 4; 5; 6; 7; 8; 9; 10; 11; 12]%Z).
Definition field_swapped : ndarray cterm :=
  NdArray [2; 1; 1; 2; 1; 3] (Cimag <$> [1; 2; 3; 4; 5; 6; 7; 8; 9; 10; 11; 12]%Z).

End example.

(** ** What the methods leave alone *)

Section frame.
Context {R C : Type}.

(** A computation that assigns no attribute of the object but
    [self.arrays]. *)
Definition only_arrays {A} (m : Py R C A) : Prop :=
  ∀ o, final (m o) = o ∨ ∃ ds, final (m o) = with_arrays ds o.

(** The object [o'] has the file, frequency, resolution and mask
    attributes of [o]. *)
Definition same_attributes (o o' : MatlabSample R C) : Prop :=
  mat_file o' = mat_file o ∧ freq o' = freq o ∧ resolution o' = resolution o ∧
  mask_file o' = mask_file o ∧ bin_mask_file o' = bin_mask_file o ∧
  file_path_mask o' = file_path_mask o ∧ file_path_filled o' = file_path_filled o.

(** A dataset with the variable ["binary_region"] set. *)
Definition with_binary (B : Var R C) (ds : Dataset R C) : Dataset R C :=
  MkDataset (<["binary_region" := B]> (variables ds)) (coord_names ds).

End frame.

(** ** Further files for examples *)

Module edge.
Import example.

(** One phase per component (shape (3, 1)), which broadcasts against the
    magnitude, and a phase of shape (2, 1), which does not. *)
Definition phase_per_component : ndarray Z := NdArray [3; 1] [10; 20; 30]%Z.
Definition phase_pair : ndarray Z := NdArray [2; 1] [10; 20]%Z.

(** A filled mask on the grid of the reference array. *)
Definition filled : ndarray Z := NdArray [2; 2; 1; 1] [1; 1; 1; 0]%Z.

(** A second pair of modulus images, and two images whose shapes (2) and
    (3) do not go together. *)
Definition storage2 : ndarray Z := NdArray [2; 1; 1] [5; 6]%Z.
Definition loss2 : ndarray Z := NdArray [2; 1; 1] [50; 60]%Z.
Definition flat : ndarray Z := NdArray [2] [7; 8]%Z.
Definition triple : ndarray Z := NdArray [3] [1; 2; 3]%Z.

(** The example disk with these files added; ["mask73.mat"] is a mask in
    a v7.3 file, which only h5py can read. *)
Definition files : World Z :=
  MkWorld
    (λ path, if decide (path = "bcast.mat")
             then Ok (<["magnitude" := magnitude]> (<["phase" := phase_per_component]> ∅))
             else if decide (path = "clash.mat")
             then Ok (<["magnitude" := magnitude]> (<["phase" := phase_pair]> ∅))
             else if decide (path = "filled.mat") then Ok (<["img_seg_filled" := filled]> ∅)
             else if decide (path = "mask73.mat") then Raise NotImplementedError
             else scipy_io_loadmat example.disk path)
    (λ path, if decide (path = "mask73.mat") then Ok (<["img_seg" := mask]> ∅)
             else h5py_File example.disk path)
    (λ path, if decide (path = "storage2.nii") then Ok storage2
             else if decide (path = "loss2.nii") then Ok loss2
             else if decide (path = "flat.nii") then Ok flat
             else if decide (path = "triple.nii") then Ok triple
             else nib_load_get_fdata example.disk path).

(** The loaded sample with mask attributes assigned from outside the
    class. *)
Definition attached (mask_file bin_mask_file file_path_mask file_path_filled : option string)
    : MatlabSample Z cterm :=
  MkSample (mat_file sample) mask_file bin_mask_file (freq sample) (resolution sample)
    (arrays sample) None None file_path_mask file_path_filled.

End edge.

(** ** Printing the contents of a file: [_print_mat_info]

    A value found in a dict-like data set, as far as [_print_mat_info]
    looks at it: the text of [type(v)], the attributes [shape] and [dtype]
    where the value has them, and its entries where it has [items]. *)

#[local] Unset Elimination Schemes.
Inductive pyobj :=
| PyObj (type_repr : string) (shape_attr : option (list nat)) (dtype_attr : option string)
        (items_attr : option (list (string * pyobj))).
#[local] Set Elimination Schemes.

(** [s * n] on a string *)
Fixpoint str_mul (s : string) (n : nat) : string :=
  match n with 0 => "" | S n => s ++ str_mul s n end.

(** The text of a tuple of integers: [()], [(2,)], [(2, 3)]. *)
Definition tuple_repr (t : list nat) : string :=
  match t with
  | [] => "()"
  | [n] => "(" ++ pretty n ++ ",)"
  | _ => "(" ++ String.concat ", " (pretty <$> t) ++ ")"
  end.

(** The line printed for the entry [k, v]; reading [v.dtype] of a value
    that has a shape and no dtype raises AttributeError. *)
Definition entry_line (tab : string) (level : nat) (k : string) (v : pyobj) : result string :=
  match v with
  | PyObj ty (Some sh) dt _ =>
      dt ← or_raise (AttributeError "dtype") dt;
      Ok (str_mul tab level ++ k ++ ": " ++ ty ++ " " ++ tuple_repr sh ++ " " ++ dt)
  | PyObj ty None _ _ => Ok (str_mul tab level ++ k ++ ": " ++ ty)
  end.

(** The loop [for k, v in data.items()]: the lines printed and how the
    loop ended. *)
Definition for_items (line : string → pyobj → result string)
    (nested : pyobj → list string * result unit)
    : list (string * pyobj) → list string * result unit :=
  fix loop entries :=
    match entries with
    | [] => ([], Ok ())
    | (k, v) :: rest =>
        match line k v with
        | Raise e => ([], Raise e)
        | Ok ln =>
            match nested v with
            | (out, Raise e) => (ln :: out, Raise e)
            | (out, Ok _) => let '(out', r) := loop rest in (ln :: out ++ out', r)
            end
        end
    end.

(** The default of the parameter [tab], [' '*4]. *)
Definition default_tab : string := str_mul " " 4.

(** [_print_mat_info(data, level, tab)]: the lines written to standard
    output and the outcome.  The recursive call passes [level+1] and no
    [tab]. *)
Fixpoint _print_mat_info (data : pyobj) (level : nat) (tab : string) {struct data}
    : list string * result unit :=
  match data with
  | PyObj _ _ _ None => ([], Raise (AttributeError "items"))
  | PyObj _ _ _ (Some entries) =>
      for_items (entry_line tab level)
        (λ v, match v with
              | PyObj _ _ _ (Some _) => _print_mat_info v (S level) default_tab
              | _ => ([], Ok ())
              end) entries
  end.

(** The number of entries of a data set, at all depths. *)
Fixpoint count_entries (data : pyobj) : nat :=
  match data with
  | PyObj _ _ _ None => 0
  | PyObj _ _ _ (Some entries) => sum_list ((λ kv, S (count_entries kv.2)) <$> entries)
  end.

(** Every value with a shape, at all depths, has a dtype. *)
Fixpoint arrays_typed (data : pyobj) : bool :=
  match data with
  | PyObj _ _ _ None => true
  | PyObj _ _ _ (Some entries) =>
      forallb (λ kv, match kv.2 with
                     | PyObj _ (Some _) None _ => false
                     | _ => arrays_typed kv.2
                     end) entries
  end.

Module h5.

(** An HDF5 file with two datasets, a group of two more, and an
    attribute-less header. *)
Definition dataset (sh : list nat) (dtype : string) : pyobj :=
  PyObj "<class 'h5py._hl.dataset.Dataset'>" (Some sh) (Some dtype) None.
Definition group (entries : list (string * pyobj)) : pyobj :=
  PyObj "<class 'h5py._hl.group.Group'>" None None (Some entries).
Definition file : pyobj :=
  PyObj "<class 'h5py._hl.files.File'>" None None
    (Some [("magnitude", dataset [2; 1; 1; 2; 3; 1] "float64");
           ("info", group [("voxel", dataset [3] "float64"); ("id", dataset [] "int64")]);
           ("phase", dataset [2; 1; 1; 2; 3; 1] "float64")]).

End h5.

(** * Properties *)

(** ** Indexing row-major buffers *)

Module nd_facts.
Import nd.

Lemma length_ndindex sh : length (ndindex sh) = size_of sh.
Proof.
  induction sh as [|n sh IH]; simpl; [done|].
  generalize 0. induction n as [|n IHn]; intros k; simpl; [done|].
  rewrite length_app, length_fmap, IH, IHn. done.
Qed.

Lemma lookup_join_uniform {A} (m : nat) (ls : list (list A)) (i r : nat) (l : list A) :
  Forall (λ c, length c = m) ls → ls !! i = Some l → r < m →
  mjoin ls !! (i * m + r) = l !! r.
Proof.
  intros Hall. revert i. induction Hall as [|c ls Hc Hall IH]; intros i Hi Hr; [done|].
  destruct i as [|i]; simpl in *.
  - simplify_eq. rewrite lookup_app_l by lia. done.
  - rewrite lookup_app_r by lia. rewrite <- (IH i Hi Hr). f_equal. lia.
Qed.

Lemma ravel_lt sh idx : in_bounds sh idx → ravel sh idx < size_of sh.
Proof.
  unfold in_bounds. intros H. induction H as [|i n idx sh Hi H IH]; simpl; [lia|].
  nia.
Qed.

Lemma lookup_ndindex sh idx : in_bounds sh idx → ndindex sh !! ravel sh idx = Some idx.
Proof.
  unfold in_bounds. intros H. induction H as [|i n idx sh Hi H IH]; simpl; [done|].
  rewrite (lookup_join_uniform (size_of sh) _ i _ (cons i <$> ndindex sh)).
  - rewrite list_lookup_fmap, IH. done.
  - apply Forall_fmap, Forall_forall. intros j _. simpl.
    rewrite length_fmap. apply length_ndindex.
  - rewrite list_lookup_fmap, lookup_seq_lt by done. done.
  - apply (ravel_lt sh idx H).
Qed.

Lemma tabulate_wf {A} sh (f : list nat → A) : wf (tabulate sh f).
Proof. unfold wf, tabulate. simpl. rewrite length_fmap. apply length_ndindex. Qed.

Lemma item_tabulate {A} sh (f : list nat → A) idx :
  in_bounds sh idx → item (tabulate sh f) idx = Some (f idx).
Proof.
  intros Hb. unfold item, tabulate. simpl. rewrite decide_True by done.
  rewrite list_lookup_fmap, lookup_ndindex by done. done.
Qed.

Lemma item_in_bounds {A} (a : ndarray A) idx x :
  item a idx = Some x → in_bounds (shape a) idx.
Proof. unfold item. case_decide; [done|]. discriminate. Qed.

Lemma item_is_Some {A} (a : ndarray A) idx :
  wf a → in_bounds (shape a) idx → is_Some (item a idx).
Proof.
  unfold wf, item. intros Hwf Hb. rewrite decide_True by done.
  apply lookup_lt_is_Some. rewrite Hwf. by apply ravel_lt.
Qed.

Lemma at_item {A} `{Inhabited A} (a : ndarray A) idx x :
  item a idx = Some x → at_ a idx = x.
Proof.
  unfold item, at_. case_decide; [|discriminate].
  intros Hx. by apply list_lookup_total_correct.
Qed.

Lemma item_map {A B} (f : A → B) (a : ndarray A) idx :
  item (nd.map f a) idx = f <$> item a idx.
Proof.
  unfold item, nd.map. simpl. case_decide; [|done]. apply list_lookup_fmap.
Qed.


Lemma broadcast_rev_same r : broadcast_rev r r = Some r.
Proof.
  induction r as [|n r IH]; [done|]. simpl. rewrite IH. simpl.
  by rewrite decide_True.
Qed.

Lemma broadcast_shapes_same sh : broadcast_shapes sh sh = Some sh.
Proof.
  unfold broadcast_shapes. rewrite broadcast_rev_same. simpl.
  by rewrite reverse_involutive.
Qed.

Lemma broadcast_index_same sh idx : in_bounds sh idx → broadcast_index sh idx = idx.
Proof.
  unfold in_bounds, broadcast_index. intros H.
  rewrite (Forall2_length _ _ _ H), Nat.sub_diag, drop_0.
  induction H as [|i n idx sh Hi H IH]; simpl; [done|].
  rewrite IH. case_decide; [|done]. f_equal. lia.
Qed.

(** Two arrays of one shape are combined element by element, and the
    result has that shape. *)
Lemma map2_same_shape {A B D} `{Inhabited A, Inhabited B}
    (f : A → B → D) (a : ndarray A) (b : ndarray B) :
  shape a = shape b →
  ∃ c, map2 f a b = Some c ∧ shape c = shape a ∧ wf c ∧
       ∀ idx x y, item a idx = Some x → item b idx = Some y →
                  item c idx = Some (f x y).
Proof.
  intros Hsh. unfold map2. rewrite <- Hsh, broadcast_shapes_same. simpl.
  eexists. split; [done|]. split; [done|]. split; [apply tabulate_wf|].
  intros idx x y Hx Hy. pose proof (item_in_bounds _ _ _ Hx) as Hb.
  rewrite item_tabulate by done. rewrite broadcast_index_same by done.
  by rewrite (at_item _ _ _ Hx), (at_item _ _ _ Hy).
Qed.

End nd_facts.

(** ** The loader *)

Section loader.
Context {R C : Type} `{!Scalars R C}.
Variable w : World R.

Ltac py_unfold :=
  unfold mbind, mret, Py_bind, Py_ret, py.lift, py.get_self, py.getattr, py.raise,
    py.emit, py.set_arrays, py.set_storage_mod_file, py.set_loss_mod_file, py.modify.

Ltac decide_by_computation := apply (bool_decide_unpack _); vm_compute; reflexivity.

Ltac in_bounds :=
  unfold nd.in_bounds;
  repeat (match goal with |- Forall2 _ _ _ => constructor end); lia.

Lemma canonical_perm : canonical ≡ₚ file_order.
Proof. apply (bool_decide_unpack _). vm_compute. reflexivity. Qed.

(** The array [add_metadata] returns for a six-axis input. *)
Lemma add_metadata_run nx ny nz nt nc nf rx ry rz rest (array : ndarray C)
    (o : MatlabSample R C) :
  shape array = [nx; ny; nz; nt; nc; nf] →
  resolution o = rx :: ry :: rz :: rest →
  MatlabSample.add_metadata array o =
    MkRun (if decide (nc = 3 ∧ nf = 1)
           then Ok (MkDataArray
                      (MkVar canonical (Complex128 (nd.transpose file_order canonical array)))
                      (wave_coords (freq o) nx ny nz nt rx ry rz) None)
           else Raise ValueError) o [].
Proof.
  intros Hsh Hres. unfold MatlabSample.add_metadata. py_unfold. simpl.
  rewrite Hsh, Hres. simpl.
  unfold xr.DataArray_init, xr.coord_fits. simpl. rewrite Hsh. simpl.
  destruct (decide (nc = 3 ∧ nf = 1)) as [[-> ->]|Hne].
  - rewrite !bool_decide_eq_true_2 by done. cbn [andb]. unfold xr.transpose.
    cbn [variable dims values coords name].
    rewrite decide_True by apply canonical_perm. done.
  - repeat case_bool_decide; simplify_eq; simpl; try done. by destruct Hne.
Qed.

(** [add_metadata] returns only for a six-axis input with three
    components and one frequency, and a resolution of three entries or
    more. *)
Lemma add_metadata_inv (array : ndarray C) (o : MatlabSample R C) da :
  value (MatlabSample.add_metadata array o) = Ok da →
  ∃ nx ny nz nt rx ry rz rest,
    shape array = [nx; ny; nz; nt; 3; 1] ∧ resolution o = rx :: ry :: rz :: rest.
Proof.
  destruct (shape array) as [|nx [|ny [|nz [|nt [|nc [|nf [|]]]]]]] eqn:Hsh;
  destruct (resolution o) as [|rx [|ry [|rz rest]]] eqn:Hres;
    try (unfold MatlabSample.add_metadata; py_unfold; simpl; rewrite Hsh, Hres; simpl;
         unfold xr.DataArray_init; simpl; rewrite ?Hsh; simpl; discriminate).
  rewrite (add_metadata_run _ _ _ _ _ _ _ _ _ _ _ _ Hsh Hres). simpl.
  case_decide as Hc; [|discriminate]. destruct Hc as [-> ->]. eauto 10.
Qed.

(** [add_metadata] neither changes the object nor causes events. *)
Lemma add_metadata_pure (array : ndarray C) (o : MatlabSample R C) :
  final (MatlabSample.add_metadata array o) = o ∧
  events (MatlabSample.add_metadata array o) = [].
Proof.
  unfold MatlabSample.add_metadata. py_unfold. simpl.
  repeat (match goal with |- context [or_raise ?e ?x] => destruct x; simpl end; try done).
  destruct (xr.DataArray_init _ _ _); done.
Qed.

Lemma transpose_shape {A} `{Inhabited A} (a : ndarray A) nx ny nz nt nc nf :
  shape a = [nx; ny; nz; nt; nc; nf] →
  shape (nd.transpose file_order canonical a) = [nt; nf; nx; ny; nz; nc].
Proof. intros Hsh. unfold nd.transpose. rewrite Hsh. reflexivity. Qed.


Lemma load_mat_file_self path verbose (o : MatlabSample R C) :
  final (MatlabSample._load_mat_file w path verbose o) = o.
Proof.
  unfold MatlabSample._load_mat_file. py_unfold. simpl.
  destruct (scipy_io_loadmat w path) as [d|[]]; simpl; try done.
  destruct (h5py_File w path); done.
Qed.

Lemma load_mat_file_loads path verbose (o : MatlabSample R C) d :
  loads w path d →
  ∃ rev tr, MatlabSample._load_mat_file w path verbose o = MkRun (Ok (d, rev)) o tr.
Proof.
  unfold loads, MatlabSample._load_mat_file. py_unfold. simpl.
  intros [-> | [-> ->]]; simpl; eauto.
Qed.

Lemma load_mat_file_inv path verbose (o : MatlabSample R C) d rev :
  value (MatlabSample._load_mat_file w path verbose o) = Ok (d, rev) →
  loads w path d.
Proof.
  unfold loads, MatlabSample._load_mat_file. py_unfold. simpl.
  destruct (scipy_io_loadmat w path) as [d'|[]]; simpl; try discriminate.
  - intros [= -> _]. by left.
  - destruct (h5py_File w path) as [d'|]; simpl; [|discriminate].
    intros [= -> _]. by right.
Qed.

(** Magnitude and phase of one shape give the elementwise product of the
    magnitude with the complex exponential of the phase. *)
Lemma polar_item (m p : ndarray R) :
  shape m = shape p →
  ∃ c, np.multiply m (np.exp (np.times_1j p)) = Ok c ∧ shape c = shape m ∧ nd.wf c ∧
    ∀ idx mv pv, nd.item m idx = Some mv → nd.item p idx = Some pv →
      nd.item c idx = Some (scale mv (complex_exp (imag_mul pv))).
Proof.
  intros Hsh. unfold np.multiply.
  destruct (nd_facts.map2_same_shape scale m (np.exp (np.times_1j p)))
    as (c & -> & Hc & Hwf & Hitem); [done|].
  exists c. repeat split; try done.
  intros idx mv pv Hm Hp. apply Hitem; [done|].
  unfold np.exp, np.times_1j. rewrite !nd_facts.item_map, Hp. done.
Qed.

(** The wave array of a well-loaded dataset, with or without elastogram. *)
Lemma getitem_wave_loaded T f nx ny nz nt (rx ry rz : R) :
  xr.getitem (loaded f T nx ny nz nt rx ry rz) "wave"
  = Some (MkDataArray (MkVar canonical (Complex128 T))
            (wave_coords f nx ny nz nt rx ry rz) (Some "wave")).
Proof. vm_compute. reflexivity. Qed.

Lemma getitem_wave_mu M T f nx ny nz nt (rx ry rz : R) :
  xr.getitem (with_mu M (loaded f T nx ny nz nt rx ry rz)) "wave"
  = Some (MkDataArray (MkVar canonical (Complex128 T))
            (wave_coords f nx ny nz nt rx ry rz) (Some "wave")).
Proof. vm_compute. reflexivity. Qed.

Lemma load_mat_run verbose (o : MatlabSample R C) d m p c nx ny nz nt rx ry rz rest :
  loads w (mat_file o) d →
  d !! "magnitude" = Some m → d !! "phase" = Some p →
  np.multiply m (np.exp (np.times_1j p)) = Ok c →
  shape c = [nx; ny; nz; nt; 3; 1] →
  resolution o = rx :: ry :: rz :: rest →
  ∃ tr, MatlabSample.load_mat w verbose o =
    MkRun (Ok ())
      (with_arrays (loaded (freq o) (nd.transpose file_order canonical c) nx ny nz nt rx ry rz) o)
      tr.
Proof.
  intros Hd Hm Hp Hc Hsh Hres.
  destruct (load_mat_file_loads _ verbose o d Hd) as (rev & tr & Hload).
  eexists. unfold MatlabSample.load_mat. py_unfold.
  rewrite Hload, Hm, Hp. simpl. rewrite Hc.
  rewrite (add_metadata_run nx ny nz nt 3 1 rx ry rz rest c o Hsh Hres).
  rewrite decide_True by done. reflexivity.
Qed.

(** [load_mat] either raises and leaves the object as it was, or stores
    the dataset of the wave built from the file's magnitude and phase. *)
Lemma load_mat_cases verbose (o : MatlabSample R C) :
  (∃ e, value (MatlabSample.load_mat w verbose o) = Raise e ∧
        final (MatlabSample.load_mat w verbose o) = o) ∨
  (∃ d m p c nx ny nz nt rx ry rz rest tr,
      loads w (mat_file o) d ∧
      d !! "magnitude" = Some m ∧ d !! "phase" = Some p ∧
      np.multiply m (np.exp (np.times_1j p)) = Ok c ∧
      shape c = [nx; ny; nz; nt; 3; 1] ∧
      resolution o = rx :: ry :: rz :: rest ∧
      MatlabSample.load_mat w verbose o =
        MkRun (Ok ())
          (with_arrays (loaded (freq o) (nd.transpose file_order canonical c) nx ny nz nt rx ry rz) o)
          tr).
Proof.
  pose proof (load_mat_file_self (mat_file o) verbose o) as Hself.
  pose proof (load_mat_file_inv (mat_file o) verbose o) as Hinv.
  destruct (MatlabSample._load_mat_file w (mat_file o) verbose o)
    as [[[d rev]|e] o1 t1] eqn:Hl; simpl in Hself; subst o1.
  2:{ left. exists e. unfold MatlabSample.load_mat. py_unfold. rewrite Hl. done. }
  specialize (Hinv d rev eq_refl).
  destruct (d !! "magnitude") as [m|] eqn:Hm.
  2:{ left. eexists. unfold MatlabSample.load_mat. py_unfold. rewrite Hl, Hm. done. }
  destruct (d !! "phase") as [p|] eqn:Hp.
  2:{ left. eexists. unfold MatlabSample.load_mat. py_unfold. rewrite Hl, Hm, Hp. done. }
  destruct (np.multiply m (np.exp (np.times_1j p))) as [c|e] eqn:Hc.
  2:{ left. eexists. unfold MatlabSample.load_mat. py_unfold. rewrite Hl, Hm, Hp. simpl.
      rewrite Hc. done. }
  destruct (add_metadata_pure c o) as [Hfin Hev].
  destruct (MatlabSample.add_metadata c o) as [[da|e] o2 t2] eqn:Ha; simpl in Hfin; subst o2.
  2:{ left. eexists. unfold MatlabSample.load_mat. py_unfold. rewrite Hl, Hm, Hp. simpl.
      rewrite Hc, Ha. done. }
  right.
  assert (value (MatlabSample.add_metadata c o) = Ok da) as Hda by (by rewrite Ha).
  destruct (add_metadata_inv _ _ _ Hda) as (nx & ny & nz & nt & rx & ry & rz & rest & Hsh & Hres).
  destruct (load_mat_run verbose o d m p c nx ny nz nt rx ry rz rest Hinv Hm Hp Hc Hsh Hres)
    as (tr & Hrun).
  exists d, m, p, c, nx, ny, nz, nt, rx, ry, rz, rest, tr. done.
Qed.

Lemma mean_wave (T : ndarray C) f nx ny nz nt (rx ry rz : R) nm :
  xr.mean (MkDataArray (MkVar canonical (Complex128 T)) (wave_coords f nx ny nz nt rx ry rz) nm)
          ["component"; "timesteps"]
  = Ok (MkDataArray (MkVar ["frequency"; "x"; "y"; "z"]
                       (Complex128 (nd.reduce complex_mean kept T)))
          (elastogram_coords f nx ny nz rx ry rz) nm).
Proof.
  unfold xr.mean. cbn [variable dims values coords name].
  rewrite decide_True by (apply (bool_decide_unpack _); vm_compute; reflexivity).
  replace ((λ d, bool_decide (d ∉ ["component"; "timesteps"])) <$> canonical)
    with kept by (vm_compute; reflexivity).
  cbn [np.mean mbind result_bind].
  replace (filter _ (wave_coords f nx ny nz nt rx ry rz))
    with (elastogram_coords (C:=C) f nx ny nz rx ry rz) by (vm_compute; reflexivity).
  reflexivity.
Qed.

Lemma reduce_shape {A B} `{Inhabited A} (op : list A → B) (T : ndarray A) nt nf nx ny nz nc :
  shape T = [nt; nf; nx; ny; nz; nc] →
  shape (nd.reduce op kept T) = [nf; nx; ny; nz].
Proof. intros Hsh. unfold nd.reduce. simpl. rewrite Hsh. reflexivity. Qed.

Lemma setitem_mu ds T f nx ny nz nt (rx ry rz : R) a nm :
  shape T = [nt; 1; nx; ny; nz; 3] →
  shape a = [1; nx; ny; nz] →
  (ds = loaded f T nx ny nz nt rx ry rz ∨
   ∃ M, ds = with_mu M (loaded f T nx ny nz nt rx ry rz)) →
  xr.setitem ds "mu"
    (MkDataArray (MkVar ["frequency"; "x"; "y"; "z"] (Complex128 a))
       (elastogram_coords f nx ny nz rx ry rz) nm)
  = Ok (with_mu (MkVar ["frequency"; "x"; "y"; "z"] (Complex128 a))
          (loaded f T nx ny nz nt rx ry rz)).
Proof.
  intros HT Ha Hds. unfold xr.setitem. cbn [variable dims values coords name].
  assert (coord_names ds = dom (wave_coords (C:=C) f nx ny nz nt rx ry rz)) as Hcn
    by (by destruct Hds as [->|[M ->]]).
  assert (delete "mu" (variables ds)
          = <["wave" := MkVar canonical (Complex128 T)]> (wave_coords f nx ny nz nt rx ry rz))
    as Hdel.
  { destruct Hds as [->|[M ->]]; unfold with_mu, loaded; cbn [variables].
    - apply delete_id. vm_compute. reflexivity.
    - rewrite delete_insert_eq. apply delete_id. vm_compute. reflexivity. }
  assert (∀ k v, elastogram_coords f nx ny nz rx ry rz !! k = Some v →
                 variables ds !! k = Some v) as Hsub.
  { intros k v. unfold elastogram_coords. cbn [list_to_map foldr uncurry fst snd].
    rewrite !lookup_insert. repeat case_decide; subst;
      try (intros [= <-]; destruct Hds as [->|[M ->]]; vm_compute; reflexivity). }
  rewrite Hcn, Hdel.
  replace (filter _ (elastogram_coords f nx ny nz rx ry rz))
    with (elastogram_coords (C:=C) f nx ny nz rx ry rz) by (vm_compute; reflexivity).
  rewrite decide_True.
  2:{ intros k v Hk. right. by apply Hsub. }
  rewrite decide_True.
  2:{ unfold xr.sizes_agree, xr.sizes. cbn [dims values np.shape_of]. rewrite Ha.
      unfold wave_coords. cbn [list_to_map foldr uncurry fst snd].
      repeat (apply map_Forall_insert_2; [|]); [..|apply map_Forall_empty];
        cbn [dims values np.shape_of]; try rewrite HT;
        repeat (constructor; simpl); try (intros [=]); done. }
  assert (variables ds ∪ elastogram_coords f nx ny nz rx ry rz = variables ds) as ->.
  { apply map_eq. intros k. rewrite lookup_union.
    destruct (elastogram_coords f nx ny nz rx ry rz !! k) as [v|] eqn:Hk.
    - apply Hsub in Hk. by rewrite Hk.
    - by destruct (variables ds !! k). }
  f_equal.
  destruct Hds as [->|[M ->]]; unfold with_mu, loaded; cbn [variables coord_names];
    rewrite ?insert_insert_eq; f_equal; vm_compute; reflexivity.
Qed.

(** [create_elastogram] on a well-loaded dataset, given two modulus images
    that multiply to an array on the grid of the wave. *)
Lemma create_elastogram_run verbose (o : MatlabSample R C) ds T f nx ny nz nt rx ry rz
    sp lp st lo c :
  arrays o = Some ds →
  shape T = [nt; 1; nx; ny; nz; 3] →
  (ds = loaded f T nx ny nz nt rx ry rz ∨ ∃ M, ds = with_mu M (loaded f T nx ny nz nt rx ry rz)) →
  storage_mod_file o = Some sp → loss_mod_file o = Some lp →
  nib_load_get_fdata w sp = Ok st → nib_load_get_fdata w lp = Ok lo →
  np.multiply st (np.exp (np.times_1j lo)) = Ok c →
  MatlabSample.create_elastogram w verbose o =
    MkRun (if decide (shape c = [nx; ny; nz]) then Ok () else Raise ValueError)
      (if decide (shape c = [nx; ny; nz])
       then with_arrays
              (with_mu (MkVar ["frequency"; "x"; "y"; "z"] (Complex128 (np.expand_dims0 c)))
                 (loaded f T nx ny nz nt rx ry rz)) o
       else o)
      [Call_nib_load sp; Call_nib_load lp].
Proof.
  intros Harr HT Hds Hsp Hlp Hst Hlo Hc.
  assert (xr.getitem ds "wave"
          = Some (MkDataArray (MkVar canonical (Complex128 T))
                    (wave_coords f nx ny nz nt rx ry rz) (Some "wave"))) as Hwave.
  { destruct Hds as [->|[M ->]]; [apply getitem_wave_loaded|apply getitem_wave_mu]. }
  unfold MatlabSample.create_elastogram, MatlabSample.arrays_wave, MatlabSample.arrays_setitem.
  py_unfold. rewrite Harr. cbn [or_raise]. rewrite Hwave. cbn [or_raise].
  rewrite mean_wave, Hsp. cbn [or_raise]. rewrite Hst, Hlp. cbn [or_raise]. rewrite Hlo, Hc.
  unfold utils.as_xarray, xr.shape_of. cbn [variable values np.shape_of np.expand_dims0 shape].
  rewrite (reduce_shape complex_mean T _ _ _ _ _ _ HT).
  destruct (decide (shape c = [nx; ny; nz])) as [Hshc|Hshc].
  - rewrite decide_True by (by rewrite Hshc). rewrite Harr. cbn [or_raise].
    unfold py.set_name. cbn [variable coords dims].
    rewrite (setitem_mu ds T f nx ny nz nt rx ry rz (np.expand_dims0 c) _ HT);
      [done| by simpl; rewrite Hshc | done].
  - rewrite decide_False by (intros [= ?]; done). done.
Qed.

(** Averaging never takes the path the model leaves out. *)
Lemma mean_modelled (da : DataArray R C) over e :
  xr.mean da over = Raise e → e ≠ Unmodelled.
Proof.
  unfold xr.mean. case_decide; [|by intros [= <-]].
  destruct (values (variable da)); simpl; try discriminate. by intros [= <-].
Qed.

(** With both mask attributes at [None], [segment_regions] changes
    nothing. *)
Lemma segment_regions_no_mask verbose (o : MatlabSample R C) :
  mask_file o = None → bin_mask_file o = None →
  ∃ r, MatlabSample.segment_regions w verbose o = MkRun r o [] ∧ r ≠ Raise Unmodelled.
Proof.
  intros Hm Hb. unfold MatlabSample.segment_regions, MatlabSample.arrays_wave. py_unfold.
  destruct (arrays o) as [ds|]; cbn [or_raise]; [|eauto].
  destruct (xr.getitem ds "wave") as [wave|]; cbn [or_raise]; [|eauto].
  destruct (xr.mean wave ["frequency"; "component"]) as [u|e] eqn:Hu.
  - rewrite Hm, Hb. eauto.
  - eexists. split; [done|]. intros [= ->]. by apply mean_modelled in Hu.
Qed.

Lemma segment_regions_loaded verbose (o : MatlabSample R C) ds T f nx ny nz nt rx ry rz :
  mask_file o = None → bin_mask_file o = None →
  arrays o = Some ds →
  (ds = loaded f T nx ny nz nt rx ry rz ∨ ∃ M, ds = with_mu M (loaded f T nx ny nz nt rx ry rz)) →
  MatlabSample.segment_regions w verbose o = MkRun (Ok ()) o [].
Proof.
  intros Hm Hb Harr Hds.
  assert (xr.getitem ds "wave"
          = Some (MkDataArray (MkVar canonical (Complex128 T))
                    (wave_coords f nx ny nz nt rx ry rz) (Some "wave"))) as Hwave.
  { destruct Hds as [->|[M ->]]; [apply getitem_wave_loaded|apply getitem_wave_mu]. }
  unfold MatlabSample.segment_regions, MatlabSample.arrays_wave. py_unfold.
  rewrite Harr. cbn [or_raise]. rewrite Hwave. cbn [or_raise].
  unfold xr.mean. cbn [variable dims values coords name].
  rewrite decide_True by (apply (bool_decide_unpack _); vm_compute; reflexivity).
  cbn [np.mean mbind result_bind]. rewrite Hm, Hb. done.
Qed.

Lemma preprocess_unfold sp lp verbose (o : MatlabSample R C) :
  MatlabSample.preprocess w sp lp verbose o =
  (MatlabSample.segment_regions w verbose;; MatlabSample.create_elastogram w verbose)
    (with_loss_mod_file lp (with_storage_mod_file sp o)).
Proof.
  unfold MatlabSample.preprocess. py_unfold.
  destruct (MatlabSample.segment_regions w verbose _) as [[[]|e] o1 t1]; [|done].
  destruct (MatlabSample.create_elastogram w verbose o1). done.
Qed.

(** [create_elastogram] on an object that satisfies the invariant: it
    raises and leaves the object alone, or it stores the elastogram. *)
Lemma create_elastogram_cases verbose (o : MatlabSample R C) :
  (∀ ds, arrays o = Some ds → well_loaded ds) →
  (∃ e t, MatlabSample.create_elastogram w verbose o = MkRun (Raise e) o t ∧
          ((∃ a, e = AttributeError a) ∨ e = ValueError ∨
           ∃ path, nib_load_get_fdata w path = Raise e)) ∨
  (∃ ds T f nx ny nz nt rx ry rz sp lp st lo c,
     arrays o = Some ds ∧ shape T = [nt; 1; nx; ny; nz; 3] ∧
     (ds = loaded f T nx ny nz nt rx ry rz ∨ ∃ M, ds = with_mu M (loaded f T nx ny nz nt rx ry rz)) ∧
     storage_mod_file o = Some sp ∧ loss_mod_file o = Some lp ∧
     nib_load_get_fdata w sp = Ok st ∧ nib_load_get_fdata w lp = Ok lo ∧
     np.multiply st (np.exp (np.times_1j lo)) = Ok c ∧ shape c = [nx; ny; nz]).
Proof.
  intros Hwl.
  destruct (arrays o) as [ds|] eqn:Harr.
  2:{ left. unfold MatlabSample.create_elastogram, MatlabSample.arrays_wave. py_unfold.
      rewrite Harr. eexists _, _. split; [done|]. left. eauto. }
  destruct (Hwl ds eq_refl) as (f & T & nx & ny & nz & nt & rx & ry & rz & HT & Hds).
  assert (xr.getitem ds "wave"
          = Some (MkDataArray (MkVar canonical (Complex128 T))
                    (wave_coords f nx ny nz nt rx ry rz) (Some "wave"))) as Hwave.
  { destruct Hds as [->|[M ->]]; [apply getitem_wave_loaded|apply getitem_wave_mu]. }
  destruct (storage_mod_file o) as [sp|] eqn:Hsp.
  2:{ left. unfold MatlabSample.create_elastogram, MatlabSample.arrays_wave. py_unfold.
      rewrite Harr. cbn [or_raise]. rewrite Hwave. cbn [or_raise]. rewrite mean_wave, Hsp.
      eexists _, _. split; [done|]. left. eauto. }
  destruct (nib_load_get_fdata w sp) as [st|e] eqn:Hst.
  2:{ left. unfold MatlabSample.create_elastogram, MatlabSample.arrays_wave. py_unfold.
      rewrite Harr. cbn [or_raise]. rewrite Hwave. cbn [or_raise]. rewrite mean_wave, Hsp.
      cbn [or_raise]. rewrite Hst. eexists _, _. split; [done|]. right. right. eauto. }
  destruct (loss_mod_file o) as [lp|] eqn:Hlp.
  2:{ left. unfold MatlabSample.create_elastogram, MatlabSample.arrays_wave. py_unfold.
      rewrite Harr. cbn [or_raise]. rewrite Hwave. cbn [or_raise]. rewrite mean_wave, Hsp.
      cbn [or_raise]. rewrite Hst, Hlp. eexists _, _. split; [done|]. left. eauto. }
  destruct (nib_load_get_fdata w lp) as [lo|e] eqn:Hlo.
  2:{ left. unfold MatlabSample.create_elastogram, MatlabSample.arrays_wave. py_unfold.
      rewrite Harr. cbn [or_raise]. rewrite Hwave. cbn [or_raise]. rewrite mean_wave, Hsp.
      cbn [or_raise]. rewrite Hst, Hlp. cbn [or_raise]. rewrite Hlo.
      eexists _, _. split; [done|]. right. right. eauto. }
  destruct (np.multiply st (np.exp (np.times_1j lo))) as [c|e] eqn:Hc.
  2:{ left. unfold MatlabSample.create_elastogram, MatlabSample.arrays_wave. py_unfold.
      rewrite Harr. cbn [or_raise]. rewrite Hwave. cbn [or_raise]. rewrite mean_wave, Hsp.
      cbn [or_raise]. rewrite Hst, Hlp. cbn [or_raise]. rewrite Hlo, Hc.
      eexists _, _. split; [done|]. right. left.
      unfold np.multiply in Hc. destruct (nd.map2 _ _ _); [discriminate|].
      by injection Hc. }
  destruct (decide (shape c = [nx; ny; nz])) as [Hshc|Hshc].
  - right. exists ds, T, f, nx, ny, nz, nt, rx, ry, rz, sp, lp, st, lo, c. done.
  - left. rewrite (create_elastogram_run verbose o ds T f nx ny nz nt rx ry rz sp lp st lo c)
      by done.
    rewrite !decide_False by done. eexists _, _. split; [done|]. right. by left.
Qed.

(** The one path the model leaves out is never taken: on an object that
    satisfies the invariant, the assignment of the elastogram finds the
    dataset's own coordinates, whatever the two files hold. *)
Lemma create_elastogram_modelled verbose (o : MatlabSample R C) :
  invariant o →
  (∀ path, nib_load_get_fdata w path ≠ Raise Unmodelled) →
  value (MatlabSample.create_elastogram w verbose o) ≠ Raise Unmodelled.
Proof.
  intros (_ & _ & _ & _ & Hwl) Hnib.
  destruct (create_elastogram_cases verbose o Hwl) as [(e & t & -> & He)|Hrun].
  - cbn [value]. intros [= ->]. destruct He as [[a [=]]|[[=]|[path Hp]]]. by apply (Hnib path).
  - destruct Hrun as (ds & T & f & nx & ny & nz & nt & rx & ry & rz & sp & lp & st & lo & c
                      & Harr & HT & Hds & Hsp & Hlp & Hst & Hlo & Hc & Hshc).
    rewrite (create_elastogram_run verbose o ds T f nx ny nz nt rx ry rz sp lp st lo c) by done.
    by rewrite !decide_True.
Qed.


(** ** The invariant of the reachable objects *)

Lemma invariant_keep (o o' : MatlabSample R C) :
  invariant o →
  mask_file o' = mask_file o → bin_mask_file o' = bin_mask_file o →
  file_path_mask o' = file_path_mask o → file_path_filled o' = file_path_filled o →
  (∀ ds, arrays o' = Some ds → well_loaded ds) →
  invariant o'.
Proof.
  intros (H1 & H2 & H3 & H4 & _) E1 E2 E3 E4 Hwl. unfold invariant.
  rewrite E1, E2, E3, E4. done.
Qed.

Lemma invariant_create_elastogram verbose (o : MatlabSample R C) :
  invariant o → invariant (final (MatlabSample.create_elastogram w verbose o)).
Proof.
  intros Hinv. pose proof Hinv as (_ & _ & _ & _ & Hwl).
  destruct (create_elastogram_cases verbose o Hwl) as [(e & t & -> & _)|Hrun]; [done|].
  destruct Hrun as (ds & T & f & nx & ny & nz & nt & rx & ry & rz & sp & lp & st & lo & c
                    & Harr & HT & Hds & Hsp & Hlp & Hst & Hlo & Hc & Hshc).
  rewrite (create_elastogram_run verbose o ds T f nx ny nz nt rx ry rz sp lp st lo c) by done.
  rewrite !decide_True by done. cbn [final].
  apply (invariant_keep o); try done.
  intros ds' [= <-]. exists f, T, nx, ny, nz, nt, rx, ry, rz. split; [done|]. right. eauto.
Qed.

Lemma invariant_load_mat verbose (o : MatlabSample R C) :
  invariant o → invariant (final (MatlabSample.load_mat w verbose o)).
Proof.
  intros Hinv. destruct (load_mat_cases verbose o) as [(e & _ & ->)|Hrun]; [done|].
  destruct Hrun as (d & m & p & c & nx & ny & nz & nt & rx & ry & rz & rest & tr
                    & _ & _ & _ & _ & Hsh & _ & ->).
  cbn [final]. apply (invariant_keep o); try done.
  intros ds' [= <-]. eexists _, _, nx, ny, nz, nt, rx, ry, rz.
  split; [by apply transpose_shape|]. by left.
Qed.

Lemma invariant_preprocess sp lp verbose (o : MatlabSample R C) :
  invariant o → invariant (final (MatlabSample.preprocess w sp lp verbose o)).
Proof.
  intros Hinv. rewrite preprocess_unfold.
  set (o' := with_loss_mod_file lp (with_storage_mod_file sp o)).
  assert (invariant o') as Hinv' by (apply (invariant_keep o); try done; apply Hinv).
  pose proof Hinv' as (Hm & Hb & _).
  destruct (segment_regions_no_mask verbose o' Hm Hb) as (r & Hseg & _).
  unfold mbind, Py_bind. rewrite Hseg. destruct r as [[]|e]; [|done].
  pose proof (invariant_create_elastogram verbose o' Hinv') as Hc.
  destruct (MatlabSample.create_elastogram w verbose o'). done.
Qed.

Lemma preprocess_modelled sp lp verbose (o : MatlabSample R C) :
  invariant o →
  (∀ path, nib_load_get_fdata w path ≠ Raise Unmodelled) →
  value (MatlabSample.preprocess w sp lp verbose o) ≠ Raise Unmodelled.
Proof.
  intros Hinv Hnib. rewrite preprocess_unfold.
  set (o' := with_loss_mod_file lp (with_storage_mod_file sp o)).
  assert (invariant o') as Hinv' by (apply (invariant_keep o); try done; apply Hinv).
  pose proof Hinv' as (Hm & Hb & _).
  destruct (segment_regions_no_mask verbose o' Hm Hb) as (r & Hseg & Hr).
  unfold mbind, Py_bind. rewrite Hseg. destruct r as [[]|e]; [|done].
  pose proof (create_elastogram_modelled verbose o' Hinv' Hnib) as Hc.
  by destruct (MatlabSample.create_elastogram w verbose o').
Qed.

(** Every object constructed by [__init__] and used through the methods
    satisfies the invariant. *)
Lemma reachable_invariant (o : MatlabSample R C) : reachable w o → invariant o.
Proof.
  induction 1 as [filepath frequency resolution|o m Hr IH].
  - unfold invariant. simpl. repeat split; try done.
  - destruct m as [v|a|sp lp v|v|v|pth v]; cbn [call].
    + by apply invariant_load_mat.
    + by rewrite (proj1 (add_metadata_pure a o)).
    + by apply invariant_preprocess.
    + pose proof IH as (Hm & Hb & _).
      destruct (segment_regions_no_mask v o Hm Hb) as (r & -> & _). done.
    + by apply invariant_create_elastogram.
    + by rewrite load_mat_file_self.
Qed.

(** C9 (as amended): on every object constructed by [__init__] and then
    used through the methods, [mask_file] and [bin_mask_file] are [None]
    and the attributes [file_path_mask] and [file_path_filled] do not
    exist; [segment_regions] therefore takes neither branch and leaves the
    object, and so [self.arrays], unchanged; it returns when a dataset has
    been stored and raises AttributeError when there is none. *)
Theorem segment_regions_takes_no_branch (o : MatlabSample R C) verbose :
  reachable w o →
  mask_file o = None ∧ bin_mask_file o = None ∧
  file_path_mask o = None ∧ file_path_filled o = None ∧
  final (MatlabSample.segment_regions w verbose o) = o ∧
  events (MatlabSample.segment_regions w verbose o) = [] ∧
  (is_Some (arrays o) → value (MatlabSample.segment_regions w verbose o) = Ok ()) ∧
  (arrays o = None →
     value (MatlabSample.segment_regions w verbose o) = Raise (AttributeError "arrays")).
Proof.
  intros Hr. destruct (reachable_invariant o Hr) as (Hm & Hb & Hpm & Hpf & Hwl).
  repeat (split; [done|]).
  destruct (segment_regions_no_mask verbose o Hm Hb) as (r & Hrun & _).
  split; [by rewrite Hrun|]. split; [by rewrite Hrun|]. split.
  - intros [ds Harr].
    destruct (Hwl ds Harr) as (f & T & nx & ny & nz & nt & rx & ry & rz & _ & Hds).
    by rewrite (segment_regions_loaded verbose o ds T f nx ny nz nt rx ry rz).
  - intros Harr. unfold MatlabSample.segment_regions, MatlabSample.arrays_wave. py_unfold.
    by rewrite Harr.
Qed.


(** [preprocess] on an object that satisfies the invariant: the two paths
    are recorded; then either an exception and nothing more, or the
    elastogram is stored. *)
Lemma preprocess_cases sp lp verbose (o : MatlabSample R C) :
  invariant o →
  let o' := with_loss_mod_file lp (with_storage_mod_file sp o) in
  (∃ e t, MatlabSample.preprocess w sp lp verbose o = MkRun (Raise e) o' t ∧
          ∀ v', MatlabSample.preprocess w sp lp v' o = MkRun (Raise e) o' t) ∨
  (∃ ds T f nx ny nz nt rx ry rz st lo c t,
     arrays o = Some ds ∧ shape T = [nt; 1; nx; ny; nz; 3] ∧
     (ds = loaded f T nx ny nz nt rx ry rz ∨ ∃ M, ds = with_mu M (loaded f T nx ny nz nt rx ry rz)) ∧
     nib_load_get_fdata w sp = Ok st ∧ nib_load_get_fdata w lp = Ok lo ∧
     np.multiply st (np.exp (np.times_1j lo)) = Ok c ∧ shape c = [nx; ny; nz] ∧
     ∀ v', MatlabSample.preprocess w sp lp v' o =
       MkRun (Ok ())
         (with_arrays
            (with_mu (MkVar ["frequency"; "x"; "y"; "z"] (Complex128 (np.expand_dims0 c)))
               (loaded f T nx ny nz nt rx ry rz)) o') t).
Proof.
  intros Hinv o'.
  assert (invariant o') as Hinv' by (apply (invariant_keep o); try done; apply Hinv).
  pose proof Hinv' as (Hm & Hb & _ & _ & Hwl).
  destruct (arrays o) as [ds|] eqn:Harr.
  2:{ left. exists (AttributeError "arrays"), [].
      assert (∀ v', MatlabSample.preprocess w sp lp v' o
                    = MkRun (Raise (AttributeError "arrays")) o' []) as Hall; [|by split].
      intros v'. rewrite preprocess_unfold. fold o'.
      unfold MatlabSample.segment_regions, MatlabSample.arrays_wave. py_unfold.
      replace (arrays o') with (@None (Dataset R C)) by (by rewrite <- Harr). done. }
  assert (arrays o' = Some ds) as Harr' by (by rewrite <- Harr).
  destruct (Hwl ds Harr') as (f & T & nx & ny & nz & nt & rx & ry & rz & HT & Hds).
  assert (∀ v', MatlabSample.preprocess w sp lp v' o = 
                MatlabSample.create_elastogram w v' o') as Hpre.
  { intros v'. rewrite preprocess_unfold. fold o'. unfold mbind, Py_bind.
    rewrite (segment_regions_loaded v' o' ds T f nx ny nz nt rx ry rz) by done.
    by destruct (MatlabSample.create_elastogram w v' o'). }
  destruct (nib_load_get_fdata w sp) as [st|e] eqn:Hst.
  2:{ left. exists e, [Call_nib_load sp].
      assert (∀ v', MatlabSample.preprocess w sp lp v' o
                    = MkRun (Raise e) o' [Call_nib_load sp]) as Hall; [|by split].
      intros v'. rewrite Hpre.
      assert (xr.getitem ds "wave"
              = Some (MkDataArray (MkVar canonical (Complex128 T))
                        (wave_coords f nx ny nz nt rx ry rz) (Some "wave"))) as Hwave.
      { destruct Hds as [->|[M ->]]; [apply getitem_wave_loaded|apply getitem_wave_mu]. }
      unfold MatlabSample.create_elastogram, MatlabSample.arrays_wave. py_unfold.
      rewrite Harr'. cbn [or_raise]. rewrite Hwave. cbn [or_raise]. rewrite mean_wave.
      cbn [storage_mod_file o' with_loss_mod_file with_storage_mod_file or_raise].
      rewrite Hst. done. }
  destruct (nib_load_get_fdata w lp) as [lo|e] eqn:Hlo.
  2:{ left. exists e, [Call_nib_load sp; Call_nib_load lp].
      assert (∀ v', MatlabSample.preprocess w sp lp v' o
                    = MkRun (Raise e) o' [Call_nib_load sp; Call_nib_load lp]) as Hall;
        [|by split].
      intros v'. rewrite Hpre.
      assert (xr.getitem ds "wave"
              = Some (MkDataArray (MkVar canonical (Complex128 T))
                        (wave_coords f nx ny nz nt rx ry rz) (Some "wave"))) as Hwave.
      { destruct Hds as [->|[M ->]]; [apply getitem_wave_loaded|apply getitem_wave_mu]. }
      unfold MatlabSample.create_elastogram, MatlabSample.arrays_wave. py_unfold.
      rewrite Harr'. cbn [or_raise]. rewrite Hwave. cbn [or_raise]. rewrite mean_wave.
      cbn [storage_mod_file loss_mod_file o' with_loss_mod_file with_storage_mod_file or_raise].
      rewrite Hst. cbn [or_raise]. rewrite Hlo. done. }
  destruct (np.multiply st (np.exp (np.times_1j lo))) as [c|e] eqn:Hc.
  2:{ left. exists e, [Call_nib_load sp; Call_nib_load lp].
      assert (∀ v', MatlabSample.preprocess w sp lp v' o
                    = MkRun (Raise e) o' [Call_nib_load sp; Call_nib_load lp]) as Hall;
        [|by split].
      intros v'. rewrite Hpre.
      assert (xr.getitem ds "wave"
              = Some (MkDataArray (MkVar canonical (Complex128 T))
                        (wave_coords f nx ny nz nt rx ry rz) (Some "wave"))) as Hwave.
      { destruct Hds as [->|[M ->]]; [apply getitem_wave_loaded|apply getitem_wave_mu]. }
      unfold MatlabSample.create_elastogram, MatlabSample.arrays_wave. py_unfold.
      rewrite Harr'. cbn [or_raise]. rewrite Hwave. cbn [or_raise]. rewrite mean_wave.
      cbn [storage_mod_file loss_mod_file o' with_loss_mod_file with_storage_mod_file or_raise].
      rewrite Hst. cbn [or_raise]. rewrite Hlo, Hc. done. }
  assert (∀ v', MatlabSample.create_elastogram w v' o' = _) as Hrun
    by (intros v'; by apply (create_elastogram_run v' o' ds T f nx ny nz nt rx ry rz sp lp st lo c)).
  destruct (decide (shape c = [nx; ny; nz])) as [Hshc|Hshc].
  - right.
    exists ds, T, f, nx, ny, nz, nt, rx, ry, rz, st, lo, c, [Call_nib_load sp; Call_nib_load lp].
    repeat (split; [done|]). intros v'. by rewrite Hpre, Hrun.
  - left. exists ValueError, [Call_nib_load sp; Call_nib_load lp].
    assert (∀ v', MatlabSample.preprocess w sp lp v' o
                  = MkRun (Raise ValueError) o' [Call_nib_load sp; Call_nib_load lp]) as Hall;
      [|by split].
    intros v'. by rewrite Hpre, Hrun.
Qed.



Lemma getitem_mu V T f nx ny nz nt (rx ry rz : R) :
  xr.getitem (with_mu (MkVar ["frequency"; "x"; "y"; "z"] V) (loaded f T nx ny nz nt rx ry rz)) "mu"
  = Some (MkDataArray (MkVar ["frequency"; "x"; "y"; "z"] V)
            (elastogram_coords f nx ny nz rx ry rz) (Some "mu")).
Proof. vm_compute. reflexivity. Qed.

Lemma item_expand_dims0 {A} (c : ndarray A) idx :
  nd.item (np.expand_dims0 c) (0 :: idx) = nd.item c idx.
Proof.
  unfold nd.item, np.expand_dims0. cbn [shape data nd.ravel].
  destruct (decide (nd.in_bounds (shape c) idx)) as [Hb|Hb].
  - rewrite decide_True by (unfold nd.in_bounds; constructor; [lia|done]). done.
  - rewrite decide_False; [done|]. unfold nd.in_bounds. intros Hb'.
    apply Forall2_cons in Hb' as [_ Hb']. done.
Qed.

(** C7: on an object constructed by [__init__] and used through the
    methods, with a wave of nx by ny by nz voxels stored and the two
    modulus images of that shape (nx, ny, nz), [create_elastogram] returns
    and stores under ["mu"] a complex array over (frequency, x, y, z)
    whose element at [0, x, y, z] is [storage * exp(i * loss)] taken at
    [x, y, z]; its coordinates along these four dimensions are those of
    the wave, and the wave array itself is as before. *)
Theorem create_elastogram_mu verbose (o : MatlabSample R C) ds wave
    nt nf nx ny nz nc sp lp st lo :
  reachable w o → arrays o = Some ds →
  xr.getitem ds "wave" = Some wave → xr.shape_of wave = [nt; nf; nx; ny; nz; nc] →
  storage_mod_file o = Some sp → loss_mod_file o = Some lp →
  nib_load_get_fdata w sp = Ok st → nib_load_get_fdata w lp = Ok lo →
  nd.wf st → nd.wf lo → shape st = [nx; ny; nz] → shape lo = [nx; ny; nz] →
  value (MatlabSample.create_elastogram w verbose o) = Ok () ∧
  ∃ ds' mu a,
    arrays (final (MatlabSample.create_elastogram w verbose o)) = Some ds' ∧
    xr.getitem ds' "mu" = Some mu ∧
    variable mu = MkVar ["frequency"; "x"; "y"; "z"] (Complex128 a) ∧
    shape a = [1; nx; ny; nz] ∧
    (∀ x y z, x < nx → y < ny → z < nz →
       ∃ sv lv,
         nd.item st [x; y; z] = Some sv ∧ nd.item lo [x; y; z] = Some lv ∧
         nd.item a [0; x; y; z] = Some (scale sv (complex_exp (imag_mul lv)))) ∧
    (∀ d, d ∈ ["frequency"; "x"; "y"; "z"] →
       is_Some (coords wave !! d) ∧ coords mu !! d = coords wave !! d) ∧
    xr.getitem ds' "wave" = Some wave.
Proof.
  intros Hr Harr Hwave Hshw Hsp Hlp Hst Hlo Hwst Hwlo Hshst Hshlo.
  destruct (reachable_invariant o Hr) as (_ & _ & _ & _ & Hwl).
  destruct (Hwl ds Harr) as (f & T & nx' & ny' & nz' & nt' & rx & ry & rz & HT & Hds).
  assert (xr.getitem ds "wave"
          = Some (MkDataArray (MkVar canonical (Complex128 T))
                    (wave_coords f nx' ny' nz' nt' rx ry rz) (Some "wave"))) as Hwave'.
  { destruct Hds as [->|[M ->]]; [apply getitem_wave_loaded|apply getitem_wave_mu]. }
  rewrite Hwave in Hwave'. injection Hwave' as ->.
  unfold xr.shape_of in Hshw. cbn [variable values np.shape_of] in Hshw.
  rewrite HT in Hshw. injection Hshw as -> _ -> -> -> _.
  destruct (polar_item st lo) as (c & Hc & Hshc & Hwc & Hitem); [congruence|].
  rewrite Hshst in Hshc.
  rewrite (create_elastogram_run verbose o ds T f nx ny nz nt rx ry rz sp lp st lo c) by done.
  rewrite !decide_True by done. cbn [value final arrays with_arrays].
  split; [done|]. eexists _, _, _. split; [done|].
  split; [apply getitem_mu|]. split; [done|].
  split; [by cbn [np.expand_dims0 shape]; rewrite Hshc|].
  split; [|split; [|apply getitem_wave_mu]].
  - intros x y z Hx Hy Hz.
    assert (nd.in_bounds [nx; ny; nz] [x; y; z]) as Hb by in_bounds.
    destruct (nd_facts.item_is_Some st [x; y; z] Hwst) as [sv Hsv]; [by rewrite Hshst|].
    destruct (nd_facts.item_is_Some lo [x; y; z] Hwlo) as [lv Hlv]; [by rewrite Hshlo|].
    exists sv, lv. split; [done|]. split; [done|].
    rewrite item_expand_dims0. by apply Hitem.
  - intros d Hd. cbn [coords].
    repeat (apply elem_of_cons in Hd as [->|Hd]); [..|by apply elem_of_nil in Hd];
      (split; [eexists|]; vm_compute; reflexivity).
Qed.

(** ** The mask branch of [segment_regions] *)

(** Assigning a value that carries coordinates of the dataset itself, all
    along its own dimensions, sets the variable and nothing else. *)
Lemma setitem_own_coords (ds : Dataset R C) key (value : DataArray R C) :
  (∀ k v, coords value !! k = Some v →
          k ∈ dims (variable value) ∧ variables ds !! k = Some v ∧ k ∈ coord_names ds) →
  xr.sizes_agree (variable value) (delete key (variables ds)) →
  xr.setitem ds key value
  = Ok (MkDataset (<[key := variable value]> (variables ds)) (coord_names ds)).
Proof.
  intros Hown Hsz. unfold xr.setitem.
  rewrite map_filter_id by (intros k v Hk; left; by destruct (Hown k v Hk)).
  rewrite decide_True by (intros k v Hk; right; by destruct (Hown k v Hk) as (_ & ? & _)).
  rewrite decide_True by done. f_equal. f_equal.
  - f_equal. apply map_eq. intros k. rewrite lookup_union.
    destruct (coords value !! k) as [v|] eqn:Hk.
    + destruct (Hown k v Hk) as (_ & -> & _). done.
    + by destruct (variables ds !! k).
  - apply set_eq. intros k. rewrite elem_of_union, elem_of_dom. split; [|by left].
    intros [Hk|[v Hk]]; [done|]. by destruct (Hown k v Hk) as (_ & _ & ?).
Qed.

Lemma mean_wave_region (T : ndarray C) f nx ny nz nt (rx ry rz : R) nm :
  xr.mean (MkDataArray (MkVar canonical (Complex128 T)) (wave_coords f nx ny nz nt rx ry rz) nm)
          ["frequency"; "component"]
  = Ok (MkDataArray (MkVar ["timesteps"; "x"; "y"; "z"]
                       (Complex128 (nd.reduce complex_mean region_kept T)))
          (region_coords nx ny nz nt rx ry rz) nm).
Proof.
  unfold xr.mean. cbn [variable dims values coords name].
  rewrite decide_True by (apply (bool_decide_unpack _); vm_compute; reflexivity).
  replace ((λ d, bool_decide (d ∉ ["frequency"; "component"])) <$> canonical)
    with region_kept by (vm_compute; reflexivity).
  cbn [np.mean mbind result_bind].
  replace (filter _ (wave_coords f nx ny nz nt rx ry rz))
    with (region_coords (C:=C) nx ny nz nt rx ry rz) by (vm_compute; reflexivity).
  reflexivity.
Qed.

Lemma reduce_region_shape {A B} `{Inhabited A} (op : list A → B) (T : ndarray A) nt nf nx ny nz nc :
  shape T = [nt; nf; nx; ny; nz; nc] →
  shape (nd.reduce op region_kept T) = [nt; nx; ny; nz].
Proof. intros Hsh. unfold nd.reduce. simpl. rewrite Hsh. reflexivity. Qed.

Lemma region_sizes_agree T f nx ny nz nt (rx ry rz : R) (m : ndarray R) :
  shape T = [nt; 1; nx; ny; nz; 3] → shape m = [nt; nx; ny; nz] →
  xr.sizes_agree (MkVar ["timesteps"; "x"; "y"; "z"] (Float64 m))
    (<["wave" := MkVar canonical (Complex128 T)]> (wave_coords (C:=C) f nx ny nz nt rx ry rz)).
Proof.
  intros HT Hm. unfold xr.sizes_agree, xr.sizes. cbn [dims values np.shape_of]. rewrite Hm.
  unfold wave_coords. cbn [list_to_map foldr uncurry fst snd].
  repeat (apply map_Forall_insert_2; [|]); [..|apply map_Forall_empty];
    cbn [dims values np.shape_of]; try rewrite HT;
    repeat (constructor; simpl); try (intros [=]); done.
Qed.

Lemma region_coords_own T V f nx ny nz nt (rx ry rz : R) (ds : Dataset R C) k v :
  ds = loaded f T nx ny nz nt rx ry rz ∨
  ds = MkDataset (<["spatial_region" := V]> (variables (loaded f T nx ny nz nt rx ry rz)))
         (coord_names (loaded f T nx ny nz nt rx ry rz)) →
  region_coords nx ny nz nt rx ry rz !! k = Some v →
  k ∈ ["timesteps"; "x"; "y"; "z"] ∧ variables ds !! k = Some v ∧ k ∈ coord_names ds.
Proof.
  intros Hds. unfold region_coords. cbn [list_to_map foldr uncurry fst snd].
  rewrite !lookup_insert. repeat case_decide; subst;
    try (intros [= <-]; destruct Hds as [->| ->];
         (split; [decide_by_computation|]; split; [vm_compute; reflexivity|decide_by_computation])).
Qed.

Lemma getitem_region X T f nx ny nz nt (rx ry rz : R) :
  xr.getitem
    (MkDataset (<["spatial_region" := MkVar ["timesteps"; "x"; "y"; "z"] X]>
                  (variables (loaded f T nx ny nz nt rx ry rz)))
       (coord_names (loaded f T nx ny nz nt rx ry rz))) "spatial_region"
  = Some (MkDataArray (MkVar ["timesteps"; "x"; "y"; "z"] X)
            (region_coords nx ny nz nt rx ry rz) (Some "spatial_region")).
Proof. vm_compute. reflexivity. Qed.

Lemma segment_regions_mask_run verbose (o : MatlabSample R C) T f nx ny nz nt rx ry rz mf p d m :
  arrays o = Some (loaded f T nx ny nz nt rx ry rz) →
  shape T = [nt; 1; nx; ny; nz; 3] →
  mask_file o = Some mf → file_path_mask o = Some p → bin_mask_file o = None →
  scipy_io_loadmat w p = Ok d → d !! "img_seg" = Some m →
  MatlabSample.segment_regions w verbose o =
    MkRun (if decide (shape m = [nt; nx; ny; nz]) then Ok () else Raise ValueError)
      (if decide (shape m = [nt; nx; ny; nz])
       then with_arrays
              (with_region (MkVar ["timesteps"; "x"; "y"; "z"] (Float64 m))
                 (loaded f T nx ny nz nt rx ry rz)) o
       else o)
      [Call_loadmat p].
Proof.
  intros Harr HT Hmf Hp Hbin Hd Hm.
  unfold MatlabSample.segment_regions, MatlabSample.arrays_wave, MatlabSample.arrays_setitem,
    MatlabSample.arrays_assign_spatial_region.
  py_unfold. rewrite Harr. cbn [or_raise]. rewrite getitem_wave_loaded. cbn [or_raise].
  rewrite mean_wave_region, Hmf, Hp. cbn [or_raise]. rewrite Hd, Hm. cbn [or_raise].
  unfold utils.as_xarray, xr.shape_of. cbn [variable values np.shape_of shape].
  rewrite (reduce_region_shape complex_mean T _ _ _ _ _ _ HT).
  destruct (decide (shape m = [nt; nx; ny; nz])) as [Hshm|Hshm]; [|done].
  rewrite Harr. cbn [or_raise]. unfold py.set_name. cbn [variable coords dims].
  rewrite setitem_own_coords.
  2:{ intros k v. cbn [coords variable dims]. apply (region_coords_own T (MkVar [] (Float64 m)) f).
      by left. }
  2:{ cbn [variable]. rewrite delete_id by (vm_compute; reflexivity).
      by apply region_sizes_agree. }
  cbn [arrays with_arrays or_raise variable]. rewrite getitem_region. cbn [or_raise].
  unfold xr.assign_coords. rewrite setitem_own_coords.
  2:{ intros k v. cbn [coords variable dims].
      apply (region_coords_own T (MkVar ["timesteps"; "x"; "y"; "z"] (Float64 m)) f).
      by right. }
  2:{ cbn [variable variables]. rewrite delete_insert_eq, delete_id by (vm_compute; reflexivity).
      by apply region_sizes_agree. }
  cbn [mbind result_bind variables coord_names variable]. rewrite insert_insert_eq.
  cbn [bin_mask_file with_arrays]. rewrite Hbin. reflexivity.
Qed.

Lemma getitem_with_region X T f nx ny nz nt (rx ry rz : R) :
  xr.getitem (with_region (MkVar ["timesteps"; "x"; "y"; "z"] X)
                (loaded f T nx ny nz nt rx ry rz)) "spatial_region"
  = Some (MkDataArray (MkVar ["timesteps"; "x"; "y"; "z"] X)
            (<["spatial_region" := MkVar ["timesteps"; "x"; "y"; "z"] X]>
               (region_coords nx ny nz nt rx ry rz))
            (Some "spatial_region")).
Proof. vm_compute. reflexivity. Qed.

(** C5: when a mask file is attached to an object that holds the dataset
    [load_mat] stored, the mask array read from it is matched against the
    mean [u] of the wave over frequency and component: a mask of another
    shape than [u] is refused with ValueError and the object stays as it
    was, and a mask of the shape of [u] is stored under ["spatial_region"]
    with its values as they are in the file, the dimensions of [u], and
    along each of them the coordinate of the wave. *)
Theorem segment_regions_aligns_mask verbose (o : MatlabSample R C)
    T f nx ny nz nt rx ry rz mf p d m :
  arrays o = Some (loaded f T nx ny nz nt rx ry rz) →
  shape T = [nt; 1; nx; ny; nz; 3] →
  mask_file o = Some mf → file_path_mask o = Some p → bin_mask_file o = None →
  scipy_io_loadmat w p = Ok d → d !! "img_seg" = Some m →
  ∃ wave u,
    xr.getitem (loaded f T nx ny nz nt rx ry rz) "wave" = Some wave ∧
    xr.mean wave ["frequency"; "component"] = Ok u ∧
    let r := MatlabSample.segment_regions w verbose o in
    (shape m ≠ xr.shape_of u → value r = Raise ValueError ∧ final r = o) ∧
    (shape m = xr.shape_of u →
       value r = Ok () ∧
       ∃ ds' region,
         arrays (final r) = Some ds' ∧
         xr.getitem ds' "spatial_region" = Some region ∧
         variable region = MkVar (dims (variable u)) (Float64 m) ∧
         ∀ d, d ∈ dims (variable u) →
              is_Some (coords wave !! d) ∧ coords region !! d = coords wave !! d).
Proof.
  intros Harr HT Hmf Hp Hbin Hd Hm.
  eexists _, _. split; [apply getitem_wave_loaded|]. split; [apply mean_wave_region|].
  cbv zeta.
  rewrite (segment_regions_mask_run verbose o T f nx ny nz nt rx ry rz mf p d m) by done.
  unfold xr.shape_of. cbn [variable values np.shape_of dims coords].
  rewrite (reduce_region_shape complex_mean T _ _ _ _ _ _ HT).
  split.
  - intros Hne. by rewrite !decide_False.
  - intros Heq. rewrite !decide_True by done. cbn [value final arrays with_arrays].
    split; [done|]. eexists _, _. split; [done|]. split; [apply getitem_with_region|].
    split; [done|]. intros k Hk. cbn [coords].
    repeat (apply elem_of_cons in Hk as [->|Hk]); [..|by apply elem_of_nil in Hk];
      (split; [eexists|]; vm_compute; reflexivity).
Qed.

Lemma item_grid n (r : R) i :
  i < n →
  nd.item (np.times_float (np.arange n) r) [i] = Some (float_mul (float_of_int (Z.of_nat i)) r).
Proof.
  intros Hi. unfold np.times_float. rewrite nd_facts.item_map.
  unfold nd.item, np.arange. simpl.
  rewrite decide_True by in_bounds.
  replace (i * 1 + 0) with i by lia.
  rewrite list_lookup_fmap, lookup_seq_lt by done. done.
Qed.

(** C10: [add_metadata] returns only when the input has six axes of which
    the fifth (component) has length 3 and the sixth (frequency) length 1,
    and a six-axis input with other lengths there is refused with
    ValueError; in the array returned, the frequency coordinate is the one
    frequency given to the constructor and the component coordinate is
    ['x', 'y', 'z']. *)
Theorem add_metadata_component_and_frequency (array : ndarray C) (o : MatlabSample R C) :
  (∀ da, value (MatlabSample.add_metadata array o) = Ok da →
     length (shape array) = 6 ∧ shape array !! 4 = Some 3 ∧ shape array !! 5 = Some 1 ∧
     coords da !! "frequency"
       = Some (MkVar ["frequency"] (Int64 (NdArray [1] [freq o]))) ∧
     coords da !! "component"
       = Some (MkVar ["component"] (Unicode (NdArray [3] ["x"; "y"; "z"])))) ∧
  (length (shape array) = 6 → (3 ≤ length (resolution o))%nat →
     shape array !! 4 ≠ Some 3 ∨ shape array !! 5 ≠ Some 1 →
     value (MatlabSample.add_metadata array o) = Raise ValueError).
Proof.
  split.
  - intros da Hda.
    destruct (add_metadata_inv _ _ _ Hda) as (nx & ny & nz & nt & rx & ry & rz & rest & Hsh & Hres).
    rewrite (add_metadata_run _ _ _ _ _ _ _ _ _ _ _ _ Hsh Hres) in Hda.
    rewrite decide_True in Hda by done. simpl in Hda. injection Hda as <-.
    rewrite Hsh. repeat split; reflexivity.
  - intros Hlen Hres Hne.
    destruct (shape array) as [|nx [|ny [|nz [|nt [|nc [|nf [|]]]]]]] eqn:Hsh; try discriminate.
    destruct (resolution o) as [|rx [|ry [|rz rest]]] eqn:Hr; simpl in Hres; try lia.
    rewrite (add_metadata_run _ _ _ _ _ _ _ _ _ _ _ _ Hsh Hr). simpl.
    rewrite decide_False; [done|]. intros [-> ->]. by destruct Hne.
Qed.

(** C6: in the wave array that [load_mat] stores, the coordinate of each
    spatial axis x, y, z holds [index * resolution[axis]] for every index
    from 0 up to the length of that axis of the wave array, with the
    resolution vector the object was constructed with. *)
Theorem wave_spatial_coordinates verbose (o : MatlabSample R C) :
  value (MatlabSample.load_mat w verbose o) = Ok () →
  ∃ ds wave,
    arrays (final (MatlabSample.load_mat w verbose o)) = Some ds ∧
    xr.getitem ds "wave" = Some wave ∧
    ∀ axis label, (axis, label) ∈ [(0, "x"); (1, "y"); (2, "z")] →
      ∃ k n r c,
        nd.index_of label (dims (variable wave)) = Some k ∧
        xr.shape_of wave !! k = Some n ∧
        resolution o !! axis = Some r ∧
        coords wave !! label = Some (MkVar [label] (Float64 c)) ∧
        shape c = [n] ∧
        ∀ i, i < n → nd.item c [i] = Some (float_mul (float_of_int (Z.of_nat i)) r).
Proof.
  intros Hok. destruct (load_mat_cases verbose o) as [(e & He & _)|Hrun].
  { rewrite Hok in He. discriminate. }
  destruct Hrun as (d & m & p & c & nx & ny & nz & nt & rx & ry & rz & rest & tr
                    & _ & _ & _ & _ & Hsh & Hres & ->).
  eexists _, _. split; [reflexivity|]. split; [apply getitem_wave_loaded|].
  intros axis label Hin. unfold xr.shape_of. cbn [variable values dims np.shape_of coords].
  rewrite (transpose_shape c _ _ _ _ _ _ Hsh), Hres.
  repeat (apply elem_of_cons in Hin as [[= -> ->]|Hin]);
    [..|by apply elem_of_nil in Hin].
  - exists 2, nx, rx, (np.times_float (np.arange nx) rx).
    repeat split; try reflexivity. intros i Hi. by apply item_grid.
  - exists 3, ny, ry, (np.times_float (np.arange ny) ry).
    repeat split; try reflexivity. intros i Hi. by apply item_grid.
  - exists 4, nz, rz, (np.times_float (np.arange nz) rz).
    repeat split; try reflexivity. intros i Hi. by apply item_grid.
Qed.

(** Whatever file [load_mat] has read, through either reader, the wave it
    stores carries the dimensions (timesteps, frequency, x, y, z,
    component), and the array is the file's product with its axes taken
    by position: the flag of [_load_mat_file] plays no part. *)
Lemma load_mat_dims_canonical verbose (o : MatlabSample R C) :
  value (MatlabSample.load_mat w verbose o) = Ok () →
  ∃ ds wave d m p c,
    arrays (final (MatlabSample.load_mat w verbose o)) = Some ds ∧
    xr.getitem ds "wave" = Some wave ∧
    dims (variable wave) = canonical ∧
    loads w (mat_file o) d ∧ d !! "magnitude" = Some m ∧ d !! "phase" = Some p ∧
    np.multiply m (np.exp (np.times_1j p)) = Ok c ∧
    values (variable wave) = Complex128 (nd.transpose file_order canonical c).
Proof.
  intros Hok. destruct (load_mat_cases verbose o) as [(e & He & _)|Hrun].
  { rewrite Hok in He. discriminate. }
  destruct Hrun as (d & m & p & c & nx & ny & nz & nt & rx & ry & rz & rest & tr
                    & Hd & Hm & Hp & Hc & Hsh & Hres & ->).
  eexists _, _, d, m, p, c. split; [reflexivity|]. split; [apply getitem_wave_loaded|].
  done.
Qed.


(** C4 (as amended): [_load_mat_file] asks scipy first; what scipy reads is
    returned with the flag set and nothing else is tried; on
    NotImplementedError the h5py reader is asked once and its data (flag
    cleared) or its exception is the outcome, with nothing written to
    stderr; any other exception of scipy is reported on stderr as
    "Failed to load <path>" and raised again.  The object is never
    touched and no reader is asked twice. *)
Theorem load_mat_file_outcomes path verbose (o : MatlabSample R C) :
  let r := MatlabSample._load_mat_file w path verbose o in
  final r = o ∧
  (∀ d, scipy_io_loadmat w path = Ok d →
     value r = Ok (d, true) ∧ events r = [Call_loadmat path]) ∧
  (scipy_io_loadmat w path = Raise NotImplementedError →
     value r = (λ d, (d, false)) <$> h5py_File w path ∧
     events r = [Call_loadmat path; Call_h5py_File path]) ∧
  (∀ e, scipy_io_loadmat w path = Raise e → e ≠ NotImplementedError →
     value r = Raise e ∧
     events r = [Call_loadmat path; Stderr ("Failed to load " ++ path)]).
Proof.
  cbv zeta. split; [apply load_mat_file_self|].
  unfold MatlabSample._load_mat_file. py_unfold. simpl.
  split; [|split].
  - intros d ->. done.
  - intros ->. simpl. destruct (h5py_File w path); done.
  - intros e -> He. destruct e; done.
Qed.

End loader.

(** ** The loader at work on the example disk *)

Import example.

Lemma sample_reachable : reachable disk sample.
Proof. apply (reachable_call disk _ (Load_mat true)), reachable_init. Qed.

Lemma preprocessed_reachable : reachable disk preprocessed.
Proof.
  apply (reachable_call disk _ (Preprocess "storage.nii" "loss.nii" true)), sample_reachable.
Qed.

Lemma sample_arrays : arrays sample = Some (loaded 50 wave_data 2 1 1 2 2%Z 2%Z 3%Z).
Proof. vm_compute. reflexivity. Qed.




(** The claim C4 as the specification words it fails: scipy signals a
    v7.3 file, the h5py reader then fails on it, and that failure reaches
    the caller with nothing written to stderr. *)
Lemma fallback_failure_counterexample :
  let r := MatlabSample._load_mat_file disk "broken73.mat" true (fresh "broken73.mat") in
  scipy_io_loadmat disk "broken73.mat" = Raise NotImplementedError ∧
  h5py_File disk "broken73.mat" = Raise OSError ∧
  value r = Raise OSError ∧
  ∀ line, Stderr line ∉ events r.
Proof.
  cbv zeta. repeat (split; [vm_compute; reflexivity|]).
  intros line Hin.
  change (events (MatlabSample._load_mat_file disk "broken73.mat" true (fresh "broken73.mat")))
    with [Call_loadmat "broken73.mat"; Call_h5py_File "broken73.mat"] in Hin.
  repeat (apply elem_of_cons in Hin as [Hin|Hin]; [discriminate|]).
  by apply elem_of_nil in Hin.
Qed.

Lemma load_mat_file_outcomes_witness :
  scipy_io_loadmat disk "nothing.mat" = Raise FileNotFoundError ∧
  FileNotFoundError ≠ NotImplementedError ∧
  value (MatlabSample._load_mat_file disk "nothing.mat" true (fresh "nothing.mat"))
    = Raise FileNotFoundError ∧
  events (MatlabSample._load_mat_file disk "nothing.mat" true (fresh "nothing.mat"))
    = [Call_loadmat "nothing.mat"; Stderr "Failed to load nothing.mat"].
Proof.
  split; [vm_compute; reflexivity|]. split; [discriminate|].
  apply (proj2 (proj2 (proj2
           (load_mat_file_outcomes disk "nothing.mat" true (fresh "nothing.mat"))))
           FileNotFoundError);
    [vm_compute; reflexivity | discriminate].
Defined.

Lemma wave_spatial_coordinates_witness :
  value (MatlabSample.load_mat disk true (fresh "wave.mat")) = Ok () ∧
  ∃ ds wave c n r,
    arrays (final (MatlabSample.load_mat disk true (fresh "wave.mat"))) = Some ds ∧
    xr.getitem ds "wave" = Some wave ∧
    resolution (fresh "wave.mat") !! 0 = Some r ∧
    coords wave !! "x" = Some (MkVar ["x"] (Float64 c)) ∧
    shape c = [n] ∧
    ∀ i, i < n → nd.item c [i] = Some (float_mul (float_of_int (Z.of_nat i)) r).
Proof.
  split; [vm_compute; reflexivity|].
  destruct (wave_spatial_coordinates disk true (fresh "wave.mat"))
    as (ds & wave & Harr & Hwave & Haxes); [vm_compute; reflexivity|].
  destruct (Haxes 0 "x") as (k & n & r & c & Hk & Hn & Hr & Hc & Hsh & Hitem);
    [by left|].
  exists ds, wave, c, n, r. done.
Defined.

Example sample_x_coordinate :
  (arrays sample ≫= λ ds, xr.getitem ds "wave" ≫= λ wave, coords wave !! "x")
  = Some (MkVar ["x"] (Float64 (NdArray [2] [0; 2]%Z))).
Proof. vm_compute. reflexivity. Qed.


Example preprocess_adds_mu :
  (arrays preprocessed ≫= λ ds, xr.getitem ds "mu" ≫= λ mu, Some (variable mu))
  = Some (MkVar ["frequency"; "x"; "y"; "z"]
            (Complex128 (NdArray [1; 2; 1; 1]
                           [Cscale 7 (Cexp (Cimag 70)); Cscale 8 (Cexp (Cimag 80))]))).
Proof. vm_compute. reflexivity. Qed.


Lemma create_elastogram_mu_witness :
  reachable disk preprocessed ∧ nd.wf storage ∧ nd.wf loss ∧
  value (MatlabSample.create_elastogram disk true preprocessed) = Ok () ∧
  ∃ ds' mu a,
    arrays (final (MatlabSample.create_elastogram disk true preprocessed)) = Some ds' ∧
    xr.getitem ds' "mu" = Some mu ∧
    variable mu = MkVar ["frequency"; "x"; "y"; "z"] (Complex128 a) ∧
    nd.item a [0; 1; 0; 0] = Some (Cscale 8 (Cexp (Cimag 80))).
Proof.
  split; [apply preprocessed_reachable|]. split; [reflexivity|]. split; [reflexivity|].
  destruct (create_elastogram_mu disk true preprocessed
              (with_mu (MkVar ["frequency"; "x"; "y"; "z"]
                          (Complex128 (NdArray [1; 2; 1; 1]
                             [Cscale 7 (Cexp (Cimag 70)); Cscale 8 (Cexp (Cimag 80))])))
                 (loaded 50 wave_data 2 1 1 2 2%Z 2%Z 3%Z))
              (MkDataArray (MkVar canonical (Complex128 wave_data))
                 (wave_coords 50 2 1 1 2 2%Z 2%Z 3%Z) (Some "wave"))
              2 1 2 1 1 3 "storage.nii" "loss.nii" storage loss)
    as (Hok & ds' & mu & a & Harr & Hmu & Hvar & Hsh & Hitem & _);
    try (vm_compute; reflexivity); [apply preprocessed_reachable|].
  split; [exact Hok|]. exists ds', mu, a. repeat (split; [assumption|]).
  destruct (Hitem 1 0 0) as (sv & lv & Hsv & Hlv & Ha); [lia..|].
  vm_compute in Hsv. injection Hsv as <-. vm_compute in Hlv. injection Hlv as <-.
  exact Ha.
Defined.

(** The claim C9 as the specification words it fails: on a sample that was
    constructed and on which [load_mat] has not run, [segment_regions]
    does not return; reading [self.arrays] raises AttributeError. *)
Lemma segment_regions_counterexample :
  reachable disk (fresh "wave.mat") ∧
  value (MatlabSample.segment_regions disk true (fresh "wave.mat"))
    = Raise (AttributeError "arrays") ∧
  value (MatlabSample.segment_regions disk true (fresh "wave.mat")) ≠ Ok ().
Proof.
  split; [apply reachable_init|]. split; [vm_compute; reflexivity|]. vm_compute. discriminate.
Qed.

Lemma segment_regions_takes_no_branch_witness :
  reachable disk sample ∧
  final (MatlabSample.segment_regions disk true sample) = sample ∧
  value (MatlabSample.segment_regions disk true sample) = Ok ().
Proof.
  split; [apply sample_reachable|].
  destruct (segment_regions_takes_no_branch disk sample true sample_reachable)
    as (_ & _ & _ & _ & Hfinal & _ & Hvalue & _).
  split; [exact Hfinal|]. apply Hvalue. rewrite sample_arrays. eexists. reflexivity.
Defined.

Lemma segment_regions_aligns_mask_witness :
  arrays (masked "mask.mat") = Some (loaded 50 wave_data 2 1 1 2 2%Z 2%Z 3%Z) ∧
  scipy_io_loadmat disk "mask.mat" = Ok (<["img_seg" := mask]> ∅) ∧
  value (MatlabSample.segment_regions disk true (masked "mask.mat")) = Ok () ∧
  ∃ ds' region,
    arrays (final (MatlabSample.segment_regions disk true (masked "mask.mat"))) = Some ds' ∧
    xr.getitem ds' "spatial_region" = Some region ∧
    variable region = MkVar ["timesteps"; "x"; "y"; "z"] (Float64 mask).
Proof.
  split; [vm_compute; reflexivity|]. split; [vm_compute; reflexivity|].
  destruct (segment_regions_aligns_mask disk true (masked "mask.mat")
              wave_data 50 2 1 1 2 2%Z 2%Z 3%Z "mask.mat" "mask.mat"
              (<["img_seg" := mask]> ∅) mask)
    as (wave & u & Hwave & Hu & _ & Hsame); try (vm_compute; reflexivity).
  rewrite getitem_wave_loaded in Hwave. injection Hwave as <-.
  rewrite mean_wave_region in Hu. injection Hu as <-.
  destruct Hsame as (Hok & ds' & region & Harr & Hregion & Hvar & _);
    [vm_compute; reflexivity|].
  split; [exact Hok|]. exists ds', region. repeat (split; [assumption|]). exact Hvar.
Defined.

(** A mask stored in the axis order of the wave file, (x, y, z, timesteps),
    is refused, not transposed. *)
Example mask_in_file_order_refused :
  value (MatlabSample.segment_regions disk true (masked "mask_xyzt.mat")) = Raise ValueError ∧
  final (MatlabSample.segment_regions disk true (masked "mask_xyzt.mat")) = masked "mask_xyzt.mat".
Proof. split; vm_compute; reflexivity. Qed.

Lemma add_metadata_component_and_frequency_witness :
  (∃ da, value (MatlabSample.add_metadata field (fresh "wave.mat")) = Ok da ∧
         coords da !! "frequency" = Some (MkVar ["frequency"] (Int64 (NdArray [1] [50%Z]))) ∧
         coords da !! "component"
           = Some (MkVar ["component"] (Unicode (NdArray [3] ["x"; "y"; "z"])))) ∧
  value (MatlabSample.add_metadata field_swapped (fresh "wave.mat")) = Raise ValueError.
Proof.
  split.
  - destruct (value (MatlabSample.add_metadata field (fresh "wave.mat"))) as [da|e] eqn:Hda;
      [|vm_compute in Hda; discriminate].
    exists da. split; [reflexivity|].
    destruct (proj1 (add_metadata_component_and_frequency field (fresh "wave.mat")) da Hda)
      as (_ & _ & _ & Hf & Hc).
    split; [exact Hf | exact Hc].
  - apply (proj2 (add_metadata_component_and_frequency field_swapped (fresh "wave.mat")));
      [reflexivity | vm_compute; lia | left; vm_compute; discriminate].
Defined.

(** * Further properties of the loader *)

Section frame_facts.
Context {R C : Type} `{!Scalars R C}.
Variable w : World R.

Ltac py_unfold :=
  unfold mbind, mret, Py_bind, Py_ret, py.lift, py.get_self, py.getattr, py.raise,
    py.emit, py.set_arrays, py.set_storage_mod_file, py.set_loss_mod_file, py.modify.

Lemma only_arrays_bind {A B} (m : Py R C A) (f : A → Py R C B) :
  only_arrays m → (∀ a, only_arrays (f a)) → only_arrays (m ≫= f).
Proof.
  intros Hm Hf o. unfold mbind, Py_bind. specialize (Hm o).
  destruct (m o) as [[a|e] o1 t1]; cbn [final] in *; [|done].
  specialize (Hf a o1). destruct (f a o1) as [r o2 t2]; cbn [final] in *.
  destruct Hm as [->|[ds ->]]; [done|].
  destruct Hf as [->|[ds' ->]]; [eauto|]. right. exists ds'. by destruct o.
Qed.

Lemma only_arrays_still {A} (m : Py R C A) : (∀ o, final (m o) = o) → only_arrays m.
Proof. intros H o. left. apply H. Qed.

Lemma only_arrays_set_arrays (ds : Dataset R C) : only_arrays (py.set_arrays ds).
Proof. intros o. right. by exists ds. Qed.

Ltac frame :=
  repeat first
    [ apply only_arrays_set_arrays
    | apply only_arrays_still; intros ?; reflexivity
    | apply only_arrays_bind; [|intros ?]
    | match goal with
      | |- only_arrays (match ?x with _ => _ end) => destruct x
      | |- only_arrays (let '(_, _) := ?x in _) => destruct x
      end ].

Lemma only_arrays_load_mat_file path verbose :
  only_arrays (C:=C) (MatlabSample._load_mat_file w path verbose).
Proof. unfold MatlabSample._load_mat_file. frame. Qed.

Lemma only_arrays_add_metadata (a : ndarray C) : only_arrays (MatlabSample.add_metadata a).
Proof. unfold MatlabSample.add_metadata. frame. Qed.

Lemma only_arrays_load_mat verbose : only_arrays (C:=C) (MatlabSample.load_mat w verbose).
Proof.
  unfold MatlabSample.load_mat. frame.
Qed.

Lemma only_arrays_segment_regions verbose : only_arrays (C:=C) (MatlabSample.segment_regions w verbose).
Proof.
  unfold MatlabSample.segment_regions, MatlabSample.arrays_wave, MatlabSample.arrays_setitem,
    MatlabSample.arrays_assign_spatial_region. frame.
Qed.

Lemma only_arrays_create_elastogram verbose :
  only_arrays (C:=C) (MatlabSample.create_elastogram w verbose).
Proof.
  unfold MatlabSample.create_elastogram, MatlabSample.arrays_wave, MatlabSample.arrays_setitem.
  frame.
Qed.


Lemma only_arrays_same_attributes {A} (m : Py R C A) o :
  only_arrays m → same_attributes o (final (m o)) ∧
                  storage_mod_file (final (m o)) = storage_mod_file o ∧
                  loss_mod_file (final (m o)) = loss_mod_file o.
Proof. intros Hm. destruct (Hm o) as [->|[ds ->]]; by destruct o. Qed.

(** X1: no method assigns the file path, the frequency, the resolution or
    any of the four mask attributes, on any object whatever; the only
    attributes a method assigns are [arrays] and, in [preprocess], the two
    modulus paths, which [preprocess] records before anything can fail. *)
Theorem methods_assign_only_arrays_and_paths (m : method) (o : MatlabSample R C) :
  same_attributes o (call w m o) ∧
  match m with
  | Preprocess sp lp _ =>
      storage_mod_file (call w m o) = Some sp ∧ loss_mod_file (call w m o) = Some lp
  | _ =>
      storage_mod_file (call w m o) = storage_mod_file o ∧
      loss_mod_file (call w m o) = loss_mod_file o
  end.
Proof.
  destruct m as [v|a|sp lp v|v|v|pth v]; cbn [call].
  - by apply only_arrays_same_attributes, only_arrays_load_mat.
  - by apply only_arrays_same_attributes, only_arrays_add_metadata.
  - rewrite preprocess_unfold.
    set (o' := with_loss_mod_file lp (with_storage_mod_file sp o)).
    assert (only_arrays (C:=C) (MatlabSample.segment_regions w v;;
                                MatlabSample.create_elastogram w v)) as Hboth.
    { apply only_arrays_bind; [apply only_arrays_segment_regions|].
      intros ?. apply only_arrays_create_elastogram. }
    destruct (only_arrays_same_attributes _ o' Hboth) as (Hsame & Hsp & Hlp).
    split; [|by rewrite Hsp, Hlp].
    unfold same_attributes in *. by destruct o.
  - by apply only_arrays_same_attributes, only_arrays_segment_regions.
  - by apply only_arrays_same_attributes, only_arrays_create_elastogram.
  - by apply only_arrays_same_attributes, only_arrays_load_mat_file.
Qed.

End frame_facts.

(** ** [load_mat]: what it reads and what it leaves behind *)

Section load_mat_facts.
Context {R C : Type} `{!Scalars R C}.
Variable w : World R.

Ltac py_unfold :=
  unfold mbind, mret, Py_bind, Py_ret, py.lift, py.get_self, py.getattr, py.raise,
    py.emit, py.set_arrays, py.set_storage_mod_file, py.set_loss_mod_file, py.modify.

Ltac in_bounds :=
  unfold nd.in_bounds;
  repeat (match goal with |- Forall2 _ _ _ => constructor end); lia.

(** The reader's answer does not depend on the object it is called on. *)
Lemma load_mat_file_any path (verbose verbose' : bool) (o o' : MatlabSample R C) :
  MatlabSample._load_mat_file w path verbose' o' =
  MkRun (value (MatlabSample._load_mat_file w path verbose o)) o'
        (events (MatlabSample._load_mat_file w path verbose o)).
Proof.
  unfold MatlabSample._load_mat_file. py_unfold. simpl.
  destruct (scipy_io_loadmat w path) as [d|[]]; simpl; try done.
  destruct (h5py_File w path); done.
Qed.

(** [add_metadata] reads the frequency and the resolution of the object and
    nothing else. *)
Lemma add_metadata_any (a : ndarray C) (o o' : MatlabSample R C) :
  freq o' = freq o → resolution o' = resolution o →
  MatlabSample.add_metadata a o' = MkRun (value (MatlabSample.add_metadata a o)) o' [].
Proof.
  intros Hf Hr. unfold MatlabSample.add_metadata. py_unfold. simpl. rewrite Hf, Hr.
  repeat (match goal with |- context [or_raise ?e ?x] => destruct x; simpl end; try done).
  destruct (xr.DataArray_init _ _ _); done.
Qed.

(** The outcome of [load_mat] is a function of the file path, the frequency
    and the resolution: the dataset it stores, or the exception, and the
    events are the same on every object that agrees on these three. *)
Lemma load_mat_any (verbose : bool) (o : MatlabSample R C) :
  ∃ (r : result (Dataset R C)) t,
    ∀ (verbose' : bool) o',
      mat_file o' = mat_file o → freq o' = freq o → resolution o' = resolution o →
      MatlabSample.load_mat w verbose' o' =
        MkRun ((λ _, ()) <$> r)
              (match r with Ok ds => with_arrays ds o' | Raise _ => o' end) t.
Proof.
  destruct (value (MatlabSample._load_mat_file w (mat_file o) verbose o))
    as [[d rev]|e] eqn:Hl.
  2:{ exists (Raise e), (events (MatlabSample._load_mat_file w (mat_file o) verbose o)).
      intros v' o' Hm _ _. unfold MatlabSample.load_mat. py_unfold.
      rewrite Hm, (load_mat_file_any _ verbose v' o o'), Hl. done. }
  destruct (d !! "magnitude") as [m|] eqn:Hm.
  2:{ exists (Raise (KeyError "magnitude")),
             (events (MatlabSample._load_mat_file w (mat_file o) verbose o)).
      intros v' o' Hmf _ _. unfold MatlabSample.load_mat. py_unfold.
      rewrite Hmf, (load_mat_file_any _ verbose v' o o'), Hl, Hm. cbn [or_raise].
      by rewrite app_nil_r. }
  destruct (d !! "phase") as [p|] eqn:Hp.
  2:{ exists (Raise (KeyError "phase")),
             (events (MatlabSample._load_mat_file w (mat_file o) verbose o)).
      intros v' o' Hmf _ _. unfold MatlabSample.load_mat. py_unfold.
      rewrite Hmf, (load_mat_file_any _ verbose v' o o'), Hl, Hm, Hp. cbn [or_raise].
      by rewrite !app_nil_r. }
  destruct (np.multiply m (np.exp (np.times_1j p))) as [c|e] eqn:Hc.
  2:{ exists (Raise e), (events (MatlabSample._load_mat_file w (mat_file o) verbose o)).
      intros v' o' Hmf _ _. unfold MatlabSample.load_mat. py_unfold.
      rewrite Hmf, (load_mat_file_any _ verbose v' o o'), Hl, Hm, Hp. cbn [or_raise].
      rewrite Hc. by rewrite !app_nil_r. }
  exists (xr.Dataset_init "wave" <$> value (MatlabSample.add_metadata c o)),
         (events (MatlabSample._load_mat_file w (mat_file o) verbose o)).
  intros v' o' Hmf Hf Hr. unfold MatlabSample.load_mat. py_unfold.
  rewrite Hmf, (load_mat_file_any _ verbose v' o o'), Hl, Hm, Hp. cbn [or_raise].
  rewrite Hc, (add_metadata_any c o o' Hf Hr).
  destruct (value (MatlabSample.add_metadata c o)) as [da|e]; cbn [fmap result_fmap];
    by rewrite !app_nil_r.
Qed.

(** X2: a file without the key ['magnitude'] makes [load_mat] raise
    KeyError('magnitude'), whether or not it has a phase; a file with a
    magnitude and without ['phase'] makes it raise KeyError('phase').  In
    both cases the object is as before and nothing is written to stderr. *)
Theorem load_mat_missing_key (verbose : bool) (o : MatlabSample R C) d :
  loads w (mat_file o) d →
  let r := MatlabSample.load_mat w verbose o in
  (d !! "magnitude" = None →
     value r = Raise (KeyError "magnitude") ∧ final r = o ∧ ∀ line, Stderr line ∉ events r) ∧
  (is_Some (d !! "magnitude") → d !! "phase" = None →
     value r = Raise (KeyError "phase") ∧ final r = o ∧ ∀ line, Stderr line ∉ events r).
Proof.
  intros Hd. cbv zeta.
  assert (∃ rev t, MatlabSample._load_mat_file w (mat_file o) verbose o = MkRun (Ok (d, rev)) o t ∧
                   ∀ line, Stderr line ∉ t) as (rev & t & Hl & Ht).
  { unfold MatlabSample._load_mat_file. py_unfold. simpl.
    destruct Hd as [-> | [-> ->]]; simpl; eexists _, _; (split; [done|]);
      intros line Hin;
      repeat (apply elem_of_cons in Hin as [Hin|Hin]; [discriminate|]);
      by apply elem_of_nil in Hin. }
  split.
  - intros Hm. unfold MatlabSample.load_mat. py_unfold. rewrite Hl, Hm.
    cbn [or_raise value final events app]. by rewrite ?app_nil_r.
  - intros [m Hm] Hp. unfold MatlabSample.load_mat. py_unfold. rewrite Hl, Hm, Hp.
    cbn [or_raise value final events app]. by rewrite ?app_nil_r.
Qed.

(** X3: when [load_mat] returns, the dataset it stores has exactly the
    variables wave, x, y, z, timesteps, component and frequency, the last
    six as coordinates, and it is the same whatever dataset the object held
    before: an elastogram or a mask stored earlier is gone after a
    reload. *)
Theorem load_mat_replaces_dataset (verbose : bool) (o : MatlabSample R C) :
  value (MatlabSample.load_mat w verbose o) = Ok () →
  ∃ ds,
    arrays (final (MatlabSample.load_mat w verbose o)) = Some ds ∧
    dom (variables ds)
      = list_to_set ["wave"; "x"; "y"; "z"; "timesteps"; "component"; "frequency"] ∧
    coord_names ds = list_to_set ["x"; "y"; "z"; "timesteps"; "component"; "frequency"] ∧
    ∀ old, arrays (final (MatlabSample.load_mat w verbose (with_arrays old o))) = Some ds.
Proof.
  intros Hok. destruct (load_mat_cases w verbose o) as [(e & He & _)|Hrun].
  { rewrite Hok in He. discriminate. }
  destruct Hrun as (d & m & p & c & nx & ny & nz & nt & rx & ry & rz & rest & tr
                    & _ & _ & _ & _ & _ & _ & Hrun).
  destruct (load_mat_any verbose o) as (r & t & Hany).
  rewrite (Hany verbose o) in Hrun by done.
  destruct r as [ds|e]; [|discriminate]. cbn [fmap result_fmap] in Hrun.
  injection Hrun as -> _.
  eexists. rewrite (Hany verbose o) by done. split; [reflexivity|].
  split; [vm_compute; reflexivity|]. split; [vm_compute; reflexivity|].
  intros old. by rewrite (Hany verbose (with_arrays old o)).
Qed.

(** X4: when [load_mat] raises, for whatever reason, the object is left
    exactly as it was; a dataset stored by an earlier call is still
    there. *)
Theorem load_mat_failure_keeps_object (verbose : bool) (o : MatlabSample R C) e :
  value (MatlabSample.load_mat w verbose o) = Raise e →
  final (MatlabSample.load_mat w verbose o) = o.
Proof.
  intros He. destruct (load_mat_any verbose o) as (r & t & Hany).
  rewrite (Hany verbose o) in * by done. destruct r; [discriminate|done].
Qed.

(** X5: calling [load_mat] a second time returns or raises as the first
    call did, causes the same reader calls and leaves the object as the
    first call left it. *)
Theorem load_mat_idempotent (verbose verbose' : bool) (o : MatlabSample R C) :
  let once := MatlabSample.load_mat w verbose o in
  let twice := MatlabSample.load_mat w verbose' (final once) in
  final twice = final once ∧ value twice = value once ∧ events twice = events once.
Proof.
  cbv zeta. destruct (load_mat_any verbose o) as (r & t & Hany).
  rewrite (Hany verbose o) by done. cbn [final value events].
  rewrite Hany by (by destruct r). cbn [final value events].
  split; [|done]. destruct r; [|done]. by destruct o.
Qed.

(** X6: in the wave array that [load_mat] stores, timesteps is the first
    dimension and its coordinate holds the integers 0, 1, ... up to the
    number of time steps, unscaled. *)
Theorem wave_timesteps_coordinate (verbose : bool) (o : MatlabSample R C) :
  value (MatlabSample.load_mat w verbose o) = Ok () →
  ∃ ds wave n c,
    arrays (final (MatlabSample.load_mat w verbose o)) = Some ds ∧
    xr.getitem ds "wave" = Some wave ∧
    nd.index_of "timesteps" (dims (variable wave)) = Some 0 ∧
    xr.shape_of wave !! 0 = Some n ∧
    coords wave !! "timesteps" = Some (MkVar ["timesteps"] (Int64 c)) ∧
    shape c = [n] ∧
    ∀ i, i < n → nd.item c [i] = Some (Z.of_nat i).
Proof.
  intros Hok. destruct (load_mat_cases w verbose o) as [(e & He & _)|Hrun].
  { rewrite Hok in He. discriminate. }
  destruct Hrun as (d & m & p & c & nx & ny & nz & nt & rx & ry & rz & rest & tr
                    & _ & _ & _ & _ & Hsh & Hres & ->).
  eexists _, _, nt, (np.arange nt). split; [reflexivity|].
  split; [apply getitem_wave_loaded|].
  unfold xr.shape_of. cbn [variable values dims np.shape_of coords].
  rewrite (transpose_shape c _ _ _ _ _ _ Hsh).
  repeat (split; [reflexivity|]).
  intros i Hi. unfold nd.item, np.arange. simpl.
  rewrite decide_True by in_bounds.
  replace (i * 1 + 0) with i by lia.
  rewrite list_lookup_fmap, lookup_seq_lt by done. done.
Qed.

End load_mat_facts.

(** ** Broadcasting of magnitude and phase *)

Module broadcast_facts.
Import nd.

(** An operand axis either has the length of the result axis or length
    one. *)
Local Abbreviation fits := (λ n k : nat, n = k ∨ n = 1).







End broadcast_facts.

Section load_mat_shapes.
Context {R C : Type} `{!Scalars R C}.
Variable w : World R.

Ltac py_unfold :=
  unfold mbind, mret, Py_bind, Py_ret, py.lift, py.get_self, py.getattr, py.raise,
    py.emit, py.set_arrays, py.set_storage_mod_file, py.set_loss_mod_file, py.modify.

Ltac in_bounds :=
  unfold nd.in_bounds;
  repeat (match goal with |- Forall2 _ _ _ => constructor end); lia.



End load_mat_shapes.

(** ** [add_metadata] on arrays it cannot label *)

Section add_metadata_facts.
Context {R C : Type} `{!Scalars R C}.

Ltac py_unfold :=
  unfold mbind, mret, Py_bind, Py_ret, py.lift, py.get_self, py.getattr, py.raise,
    py.emit, py.set_arrays, py.set_storage_mod_file, py.set_loss_mod_file, py.modify.

(** X9: [add_metadata] raises IndexError when the array has fewer than four
    axes or the resolution fewer than three entries; with four axes or
    more and three resolution entries or more, an array that does not have
    exactly six axes is refused with ValueError.  The object is never
    changed. *)
Theorem add_metadata_bounds (array : ndarray C) (o : MatlabSample R C) :
  ((length (shape array) < 4 ∨ length (resolution o) < 3)%nat →
     value (MatlabSample.add_metadata array o) = Raise IndexError) ∧
  ((4 ≤ length (shape array))%nat → (3 ≤ length (resolution o))%nat →
   length (shape array) ≠ 6 →
     value (MatlabSample.add_metadata array o) = Raise ValueError) ∧
  final (MatlabSample.add_metadata array o) = o.
Proof.
  split; [|split; [|apply add_metadata_pure]].
  - intros Hlen.
    destruct (shape array) as [|nx [|ny [|nz [|nt rest]]]] eqn:Hsh;
    destruct (resolution o) as [|rx [|ry [|rz rest']]] eqn:Hres;
      simpl in Hlen; try lia;
      unfold MatlabSample.add_metadata; py_unfold; simpl; rewrite Hsh, Hres; done.
  - intros Hlen Hres Hne.
    destruct (shape array) as [|nx [|ny [|nz [|nt [|nc [|nf [|ng rest]]]]]]] eqn:Hsh;
      simpl in Hlen, Hne; try lia;
    destruct (resolution o) as [|rx [|ry [|rz rest']]] eqn:Hr; simpl in Hres; try lia;
      unfold MatlabSample.add_metadata; py_unfold; simpl; rewrite Hsh, Hr; simpl;
      unfold xr.DataArray_init; simpl; rewrite Hsh; done.
Qed.

End add_metadata_facts.

(** ** [segment_regions] with mask attributes set *)

Section mask_facts.
Context {R C : Type} `{!Scalars R C}.
Variable w : World R.

Ltac py_unfold :=
  unfold mbind, mret, Py_bind, Py_ret, py.lift, py.get_self, py.getattr, py.raise,
    py.emit, py.set_arrays, py.set_storage_mod_file, py.set_loss_mod_file, py.modify.

Ltac decide_by_computation := apply (bool_decide_unpack _); vm_compute; reflexivity.

(** Assigning a value all of whose coordinates that are kept are the
    dataset's own sets the variable and nothing else. *)
Lemma setitem_kept_coords (ds : Dataset R C) key (value : DataArray R C) :
  (∀ k v, coords value !! k = Some v →
          k ∈ dims (variable value) ∨ k ∉ coord_names ds →
          variables ds !! k = Some v ∧ k ∈ coord_names ds) →
  xr.sizes_agree (variable value) (delete key (variables ds)) →
  xr.setitem ds key value
  = Ok (MkDataset (<[key := variable value]> (variables ds)) (coord_names ds)).
Proof.
  intros Hown Hsz. unfold xr.setitem.
  set (cs := filter _ (coords value)).
  assert (∀ k v, cs !! k = Some v → variables ds !! k = Some v ∧ k ∈ coord_names ds) as Hcs.
  { intros k v Hk. apply map_lookup_filter_Some in Hk as [Hk HP]. by apply Hown. }
  rewrite decide_True by (intros k v Hk; right; by apply Hcs).
  rewrite decide_True by done. f_equal. f_equal.
  - f_equal. apply map_eq. intros k. rewrite lookup_union.
    destruct (cs !! k) as [v|] eqn:Hk.
    + destruct (Hcs k v Hk) as [-> _]. done.
    + by destruct (variables ds !! k).
  - apply set_eq. intros k. rewrite elem_of_union, elem_of_dom. split; [|by left].
    intros [Hk|[v Hk]]; [done|]. by destruct (Hcs k v Hk).
Qed.

Lemma region_own T V f nx ny nz nt (rx ry rz : R) k v :
  region_coords nx ny nz nt rx ry rz !! k = Some v →
  k ∈ ["timesteps"; "x"; "y"; "z"] ∧
  variables (with_region V (loaded f T nx ny nz nt rx ry rz)) !! k = Some v ∧
  k ∈ coord_names (with_region V (loaded f T nx ny nz nt rx ry rz)).
Proof.
  unfold region_coords. cbn [list_to_map foldr uncurry fst snd].
  rewrite !lookup_insert. repeat case_decide; subst;
    try (intros [= <-];
         (split; [decide_by_computation|]; split; [vm_compute; reflexivity|decide_by_computation])).
Qed.

Lemma region_sizes_agree_more T f nx ny nz nt (rx ry rz : R) (m m1 : ndarray R) key :
  shape T = [nt; 1; nx; ny; nz; 3] →
  shape m = [nt; nx; ny; nz] → shape m1 = [nt; nx; ny; nz] →
  xr.sizes_agree (MkVar ["timesteps"; "x"; "y"; "z"] (Float64 m))
    (<[key := MkVar ["timesteps"; "x"; "y"; "z"] (Float64 m1)]>
       (<["wave" := MkVar canonical (Complex128 T)]>
          (wave_coords (C:=C) f nx ny nz nt rx ry rz))).
Proof.
  intros HT Hm Hm1. apply map_Forall_insert_2; [|by apply region_sizes_agree].
  unfold xr.sizes. cbn [dims values np.shape_of]. rewrite Hm, Hm1.
  repeat (constructor; simpl); try (intros [=]); done.
Qed.

Lemma getitem_region_both X Y T f nx ny nz nt (rx ry rz : R) :
  xr.getitem
    (with_binary (MkVar ["timesteps"; "x"; "y"; "z"] Y)
       (with_region (MkVar ["timesteps"; "x"; "y"; "z"] X) (loaded f T nx ny nz nt rx ry rz)))
    "spatial_region"
  = Some (MkDataArray (MkVar ["timesteps"; "x"; "y"; "z"] X)
            (<["spatial_region" := MkVar ["timesteps"; "x"; "y"; "z"] X]>
               (region_coords nx ny nz nt rx ry rz))
            (Some "spatial_region")).
Proof. vm_compute. reflexivity. Qed.

Lemma getitem_region_missing Y T f nx ny nz nt (rx ry rz : R) :
  xr.getitem (with_binary Y (loaded f T nx ny nz nt rx ry rz)) "spatial_region" = None.
Proof. vm_compute. reflexivity. Qed.

(** [segment_regions] with the filled mask only: the variable is stored
    and the coordinate assignment that follows fails. *)
Lemma segment_regions_binary_run (verbose : bool) (o : MatlabSample R C)
    T f nx ny nz nt rx ry rz bf q d m :
  arrays o = Some (loaded f T nx ny nz nt rx ry rz) →
  shape T = [nt; 1; nx; ny; nz; 3] →
  mask_file o = None → bin_mask_file o = Some bf → file_path_filled o = Some q →
  scipy_io_loadmat w q = Ok d → d !! "img_seg_filled" = Some m →
  shape m = [nt; nx; ny; nz] →
  MatlabSample.segment_regions w verbose o =
    MkRun (Raise (AttributeError "spatial_region"))
      (with_arrays
         (with_binary (MkVar ["timesteps"; "x"; "y"; "z"] (Float64 m))
            (loaded f T nx ny nz nt rx ry rz)) o)
      [Call_loadmat q].
Proof.
  intros Harr HT Hmf Hbin Hq Hd Hm Hshm.
  unfold MatlabSample.segment_regions, MatlabSample.arrays_wave, MatlabSample.arrays_setitem,
    MatlabSample.arrays_assign_spatial_region.
  py_unfold. rewrite Harr. cbn [or_raise]. rewrite getitem_wave_loaded. cbn [or_raise].
  rewrite mean_wave_region, Hmf, Hbin, Hq. cbn [or_raise]. rewrite Hd, Hm. cbn [or_raise].
  unfold utils.as_xarray, xr.shape_of. cbn [variable values np.shape_of shape].
  rewrite (reduce_region_shape complex_mean T _ _ _ _ _ _ HT).
  rewrite decide_True by done.
  rewrite Harr. cbn [or_raise]. unfold py.set_name. cbn [variable coords dims].
  rewrite setitem_own_coords.
  2:{ intros k v. cbn [coords variable dims]. apply (region_coords_own T (MkVar [] (Float64 m)) f).
      by left. }
  2:{ cbn [variable]. rewrite delete_id by (vm_compute; reflexivity).
      by apply region_sizes_agree. }
  cbn [arrays with_arrays or_raise variable].
  change (MkDataset _ _) with
    (with_binary (MkVar ["timesteps"; "x"; "y"; "z"] (Float64 m)) (loaded f T nx ny nz nt rx ry rz)).
  rewrite getitem_region_missing. reflexivity.
Qed.

(** [segment_regions] with both masks attached. *)
Lemma segment_regions_both_run (verbose : bool) (o : MatlabSample R C)
    T f nx ny nz nt rx ry rz mf p d m bf q d' m' :
  arrays o = Some (loaded f T nx ny nz nt rx ry rz) →
  shape T = [nt; 1; nx; ny; nz; 3] →
  mask_file o = Some mf → file_path_mask o = Some p →
  bin_mask_file o = Some bf → file_path_filled o = Some q →
  scipy_io_loadmat w p = Ok d → d !! "img_seg" = Some m → shape m = [nt; nx; ny; nz] →
  scipy_io_loadmat w q = Ok d' → d' !! "img_seg_filled" = Some m' →
  shape m' = [nt; nx; ny; nz] →
  MatlabSample.segment_regions w verbose o =
    MkRun (Ok ())
      (with_arrays
         (with_binary (MkVar ["timesteps"; "x"; "y"; "z"] (Float64 m'))
            (with_region (MkVar ["timesteps"; "x"; "y"; "z"] (Float64 m))
               (loaded f T nx ny nz nt rx ry rz))) o)
      [Call_loadmat p; Call_loadmat q].
Proof.
  intros Harr HT Hmf Hp Hbin Hq Hd Hm Hshm Hd' Hm' Hshm'.
  unfold MatlabSample.segment_regions, MatlabSample.arrays_wave, MatlabSample.arrays_setitem,
    MatlabSample.arrays_assign_spatial_region.
  py_unfold. rewrite Harr. cbn [or_raise]. rewrite getitem_wave_loaded. cbn [or_raise].
  rewrite mean_wave_region, Hmf, Hp. cbn [or_raise]. rewrite Hd, Hm. cbn [or_raise].
  unfold utils.as_xarray, xr.shape_of. cbn [variable values np.shape_of shape].
  rewrite (reduce_region_shape complex_mean T _ _ _ _ _ _ HT).
  rewrite !decide_True by done.
  rewrite Harr. cbn [or_raise]. unfold py.set_name. cbn [variable coords dims].
  rewrite setitem_own_coords.
  2:{ intros k v. cbn [coords variable dims]. apply (region_coords_own T (MkVar [] (Float64 m)) f).
      by left. }
  2:{ cbn [variable]. rewrite delete_id by (vm_compute; reflexivity).
      by apply region_sizes_agree. }
  cbn [arrays with_arrays or_raise variable]. rewrite getitem_region. cbn [or_raise].
  unfold xr.assign_coords. rewrite setitem_own_coords.
  2:{ intros k v. cbn [coords variable dims].
      apply (region_coords_own T (MkVar ["timesteps"; "x"; "y"; "z"] (Float64 m)) f).
      by right. }
  2:{ cbn [variable variables]. rewrite delete_insert_eq, delete_id by (vm_compute; reflexivity).
      by apply region_sizes_agree. }
  cbn [mbind result_bind variables coord_names variable]. rewrite insert_insert_eq.
  cbn [bin_mask_file with_arrays]. rewrite Hbin. cbn beta iota.
  cbn [file_path_filled arrays with_arrays]. rewrite Hq. cbn [or_raise].
  rewrite Hd', Hm'. cbn [or_raise variable values np.shape_of shape].
  rewrite ?(reduce_region_shape complex_mean T _ _ _ _ _ _ HT).
  rewrite decide_True by done. cbn [or_raise arrays with_arrays variable coords dims].
  change (MkDataset (<["spatial_region" := ?V]> (variables ?ds)) (coord_names ?ds ∪ {["spatial_region"]}))
    with (with_region V ds).
  set (V := MkVar ["timesteps"; "x"; "y"; "z"] (Float64 m)).
  set (B := MkVar ["timesteps"; "x"; "y"; "z"] (Float64 m')).
  set (base := loaded f T nx ny nz nt rx ry rz).
  rewrite (setitem_kept_coords (with_region V base) "binary_region").
  2:{ intros k v Hk _. cbn [coords variable dims] in Hk.
      by destruct (region_own T V f nx ny nz nt rx ry rz k v Hk) as (_ & ? & ?). }
  2:{ cbn [variable]. rewrite delete_id by (vm_compute; reflexivity).
      unfold with_region, base, loaded. cbn [variables].
      by apply region_sizes_agree_more. }
  cbn [arrays with_arrays or_raise variable].
  change (MkDataset (<["binary_region" := B]> (variables (with_region V base)))
            (coord_names (with_region V base))) with (with_binary B (with_region V base)).
  unfold V at 1, B at 1, base at 1. rewrite getitem_region_both. cbn [or_raise].
  fold V B base.
  rewrite (setitem_kept_coords (with_binary B (with_region V base)) "spatial_region").
  2:{ intros k v Hk _. cbn [coords variable dims] in Hk.
      apply lookup_insert_Some in Hk as [[<- <-]|[Hne Hk]].
      - split; [vm_compute; reflexivity|decide_by_computation].
      - destruct (region_own T V f nx ny nz nt rx ry rz k v Hk) as (Hin & Hv & Hc).
        split; [|done]. unfold with_binary. cbn [variables].
        rewrite lookup_insert_ne; [done|]. intros <-.
        revert Hin. apply (bool_decide_unpack _). vm_compute. reflexivity. }
  2:{ cbn [variable]. unfold with_binary, with_region, base, loaded. cbn [variables].
      rewrite delete_insert_ne by done. rewrite delete_insert_eq.
      rewrite delete_id by (vm_compute; reflexivity).
      by apply region_sizes_agree_more. }
  cbn [mbind result_bind variables coord_names variable with_arrays].
  do 2 f_equal.
Qed.

Lemma getitem_wave_well_loaded (ds : Dataset R C) :
  well_loaded ds →
  ∃ T f nx ny nz nt rx ry rz,
    xr.getitem ds "wave"
    = Some (MkDataArray (MkVar canonical (Complex128 T))
              (wave_coords f nx ny nz nt rx ry rz) (Some "wave")).
Proof.
  intros (f & T & nx & ny & nz & nt & rx & ry & rz & _ & Hds).
  exists T, f, nx, ny, nz, nt, rx, ry, rz.
  destruct Hds as [->|[M ->]]; [apply getitem_wave_loaded|apply getitem_wave_mu].
Qed.

(** X10: setting [mask_file] or [bin_mask_file] alone is not enough.  The
    two attributes only switch the branches on; the paths are read from
    [file_path_mask] and [file_path_filled], which no method creates, and
    when the one needed is missing [segment_regions] raises AttributeError
    for it before any file is opened, and leaves the object as it was. *)
Theorem segment_regions_needs_file_path (verbose : bool) (o : MatlabSample R C) ds :
  arrays o = Some ds → well_loaded ds →
  let r := MatlabSample.segment_regions w verbose o in
  (is_Some (mask_file o) → file_path_mask o = None →
     value r = Raise (AttributeError "file_path_mask") ∧ final r = o ∧ events r = []) ∧
  (mask_file o = None → is_Some (bin_mask_file o) → file_path_filled o = None →
     value r = Raise (AttributeError "file_path_filled") ∧ final r = o ∧ events r = []).
Proof.
  intros Harr Hwl. cbv zeta.
  destruct (getitem_wave_well_loaded ds Hwl)
    as (T & f & nx & ny & nz & nt & rx & ry & rz & Hwave).
  split.
  - intros [mf Hmf] Hp.
    unfold MatlabSample.segment_regions, MatlabSample.arrays_wave. py_unfold.
    rewrite Harr. cbn [or_raise]. rewrite Hwave. cbn [or_raise].
    rewrite mean_wave_region, Hmf, Hp. done.
  - intros Hmf [bf Hbf] Hq.
    unfold MatlabSample.segment_regions, MatlabSample.arrays_wave. py_unfold.
    rewrite Harr. cbn [or_raise]. rewrite Hwave. cbn [or_raise].
    rewrite mean_wave_region, Hmf, Hbf, Hq. done.
Qed.

(** X11: the mask file is read with scipy alone, in one call on
    [file_path_mask].  Whatever scipy raises for it, NotImplementedError
    for a v7.3 file included, reaches the caller as it is: h5py is not
    tried and nothing is written to stderr.  A file without the key
    ['img_seg'] gives KeyError('img_seg').  In both cases the object is as
    before. *)
Theorem segment_regions_mask_file_failure (verbose : bool) (o : MatlabSample R C) ds mf p :
  arrays o = Some ds → well_loaded ds →
  mask_file o = Some mf → file_path_mask o = Some p →
  let r := MatlabSample.segment_regions w verbose o in
  (∀ e, scipy_io_loadmat w p = Raise e →
     value r = Raise e ∧ final r = o ∧ events r = [Call_loadmat p]) ∧
  (∀ d, scipy_io_loadmat w p = Ok d → d !! "img_seg" = None →
     value r = Raise (KeyError "img_seg") ∧ final r = o ∧ events r = [Call_loadmat p]).
Proof.
  intros Harr Hwl Hmf Hp. cbv zeta.
  destruct (getitem_wave_well_loaded ds Hwl)
    as (T & f & nx & ny & nz & nt & rx & ry & rz & Hwave).
  split.
  - intros e He.
    unfold MatlabSample.segment_regions, MatlabSample.arrays_wave. py_unfold.
    rewrite Harr. cbn [or_raise]. rewrite Hwave. cbn [or_raise].
    rewrite mean_wave_region, Hmf, Hp. cbn [or_raise]. rewrite He. done.
  - intros d Hd Hm.
    unfold MatlabSample.segment_regions, MatlabSample.arrays_wave. py_unfold.
    rewrite Harr. cbn [or_raise]. rewrite Hwave. cbn [or_raise].
    rewrite mean_wave_region, Hmf, Hp. cbn [or_raise]. rewrite Hd, Hm. done.
Qed.

(** X12: with the filled mask alone attached (no [mask_file]) and a file
    that holds a mask of the shape of the reference array,
    [segment_regions] stores the mask under ['binary_region'] and then
    raises AttributeError: the statement that follows reads
    [self.arrays.spatial_region], which does not exist.  The object is left
    with the new variable in its dataset. *)
Theorem segment_regions_binary_mask_alone (verbose : bool) (o : MatlabSample R C)
    T f nx ny nz nt rx ry rz bf q d m :
  arrays o = Some (loaded f T nx ny nz nt rx ry rz) →
  shape T = [nt; 1; nx; ny; nz; 3] →
  mask_file o = None → bin_mask_file o = Some bf → file_path_filled o = Some q →
  scipy_io_loadmat w q = Ok d → d !! "img_seg_filled" = Some m →
  shape m = [nt; nx; ny; nz] →
  let r := MatlabSample.segment_regions w verbose o in
  value r = Raise (AttributeError "spatial_region") ∧
  final r ≠ o ∧
  ∃ ds',
    arrays (final r) = Some ds' ∧
    variables ds' !! "binary_region"
      = Some (MkVar ["timesteps"; "x"; "y"; "z"] (Float64 m)) ∧
    variables ds' !! "spatial_region" = None ∧
    ∀ k, k ≠ "binary_region" →
         variables ds' !! k = variables (loaded f T nx ny nz nt rx ry rz) !! k.
Proof.
  intros Harr HT Hmf Hbin Hq Hd Hm Hshm. cbv zeta.
  rewrite (segment_regions_binary_run verbose o T f nx ny nz nt rx ry rz bf q d m) by done.
  cbn [value final arrays with_arrays]. split; [done|]. split.
  - intros Heq.
    pose proof (f_equal (λ x, arrays x ≫= λ ds, variables ds !! "binary_region") Heq) as Hbr.
    cbn beta in Hbr. rewrite Harr in Hbr. vm_compute in Hbr. discriminate.
  - eexists. split; [done|]. split; [vm_compute; reflexivity|].
    split; [vm_compute; reflexivity|].
    intros k Hk. unfold with_binary. cbn [variables]. by rewrite lookup_insert_ne.
Qed.

(** X13: with both masks attached and both files holding a mask of the
    shape of the reference array, [segment_regions] returns after reading
    the mask file and then the filled-mask file; the dataset then holds
    the two masks under ['spatial_region'] and ['binary_region'], the
    first of them as a coordinate, and every other variable as before. *)
Theorem segment_regions_both_masks (verbose : bool) (o : MatlabSample R C)
    T f nx ny nz nt rx ry rz mf p d m bf q d' m' :
  arrays o = Some (loaded f T nx ny nz nt rx ry rz) →
  shape T = [nt; 1; nx; ny; nz; 3] →
  mask_file o = Some mf → file_path_mask o = Some p →
  bin_mask_file o = Some bf → file_path_filled o = Some q →
  scipy_io_loadmat w p = Ok d → d !! "img_seg" = Some m → shape m = [nt; nx; ny; nz] →
  scipy_io_loadmat w q = Ok d' → d' !! "img_seg_filled" = Some m' →
  shape m' = [nt; nx; ny; nz] →
  let r := MatlabSample.segment_regions w verbose o in
  value r = Ok () ∧ events r = [Call_loadmat p; Call_loadmat q] ∧
  ∃ ds',
    arrays (final r) = Some ds' ∧
    variables ds' !! "spatial_region"
      = Some (MkVar ["timesteps"; "x"; "y"; "z"] (Float64 m)) ∧
    variables ds' !! "binary_region"
      = Some (MkVar ["timesteps"; "x"; "y"; "z"] (Float64 m')) ∧
    coord_names ds'
      = coord_names (loaded f T nx ny nz nt rx ry rz) ∪ {["spatial_region"]} ∧
    ∀ k, k ≠ "spatial_region" → k ≠ "binary_region" →
         variables ds' !! k = variables (loaded f T nx ny nz nt rx ry rz) !! k.
Proof.
  intros Harr HT Hmf Hp Hbin Hq Hd Hm Hshm Hd' Hm' Hshm'. cbv zeta.
  rewrite (segment_regions_both_run verbose o T f nx ny nz nt rx ry rz mf p d m bf q d' m')
    by done.
  cbn [value final events arrays with_arrays]. split; [done|]. split; [done|].
  eexists. split; [done|]. split; [vm_compute; reflexivity|].
  split; [vm_compute; reflexivity|]. split; [done|].
  intros k Hk1 Hk2. unfold with_binary, with_region. cbn [variables].
  by rewrite !lookup_insert_ne.
Qed.

(** X14: attaching a mask leaves the values and the dimensions of the
    wave array alone, and gives the wave array one more coordinate,
    ['spatial_region'], beside the six it had. *)
Theorem segment_regions_mask_on_wave (verbose : bool) (o : MatlabSample R C)
    T f nx ny nz nt rx ry rz mf p d m :
  arrays o = Some (loaded f T nx ny nz nt rx ry rz) →
  shape T = [nt; 1; nx; ny; nz; 3] →
  mask_file o = Some mf → file_path_mask o = Some p → bin_mask_file o = None →
  scipy_io_loadmat w p = Ok d → d !! "img_seg" = Some m →
  shape m = [nt; nx; ny; nz] →
  ∃ wave ds' wave',
    xr.getitem (loaded f T nx ny nz nt rx ry rz) "wave" = Some wave ∧
    arrays (final (MatlabSample.segment_regions w verbose o)) = Some ds' ∧
    xr.getitem ds' "wave" = Some wave' ∧
    variable wave' = variable wave ∧
    coords wave' = <["spatial_region" := MkVar ["timesteps"; "x"; "y"; "z"] (Float64 m)]>
                     (coords wave) ∧
    coords wave !! "spatial_region" = None.
Proof.
  intros Harr HT Hmf Hp Hbin Hd Hm Hshm.
  rewrite (segment_regions_mask_run w verbose o T f nx ny nz nt rx ry rz mf p d m) by done.
  rewrite !decide_True by done. cbn [final arrays with_arrays].
  eexists _, _, _. split; [apply getitem_wave_loaded|]. split; [done|].
  split; [vm_compute; reflexivity|]. split; [done|]. split; vm_compute; reflexivity.
Qed.

End mask_facts.

(** ** [create_elastogram] and [preprocess]: order of calls and of reads *)

Section elastogram_facts.
Context {R C : Type} `{!Scalars R C}.
Variable w : World R.

Ltac py_unfold :=
  unfold mbind, mret, Py_bind, Py_ret, py.lift, py.get_self, py.getattr, py.raise,
    py.emit, py.set_arrays, py.set_storage_mod_file, py.set_loss_mod_file, py.modify.

(** The steps of [create_elastogram] up to the product of the two images,
    on a dataset that holds a wave. *)
Ltac to_product Harr Hwave :=
  unfold MatlabSample.create_elastogram, MatlabSample.arrays_wave; py_unfold;
  rewrite Harr; cbn [or_raise]; rewrite Hwave; cbn [or_raise]; rewrite mean_wave.

(** [create_elastogram] on a dataset of known grid: what is read, and what
    is left behind. *)
Lemma create_elastogram_at (verbose : bool) (o : MatlabSample R C)
    ds T f nx ny nz nt rx ry rz sp lp :
  arrays o = Some ds →
  shape T = [nt; 1; nx; ny; nz; 3] →
  (ds = loaded f T nx ny nz nt rx ry rz ∨ ∃ M, ds = with_mu M (loaded f T nx ny nz nt rx ry rz)) →
  storage_mod_file o = Some sp → loss_mod_file o = Some lp →
  let r := MatlabSample.create_elastogram w verbose o in
  (∃ e, nib_load_get_fdata w sp = Raise e ∧ r = MkRun (Raise e) o [Call_nib_load sp]) ∨
  (∃ st e, nib_load_get_fdata w sp = Ok st ∧ nib_load_get_fdata w lp = Raise e ∧
           r = MkRun (Raise e) o [Call_nib_load sp; Call_nib_load lp]) ∨
  (∃ st lo, nib_load_get_fdata w sp = Ok st ∧ nib_load_get_fdata w lp = Ok lo ∧
            (nd.broadcast_shapes (shape st) (shape lo) = None ∨
             ∃ c, np.multiply st (np.exp (np.times_1j lo)) = Ok c ∧ shape c ≠ [nx; ny; nz]) ∧
            r = MkRun (Raise ValueError) o [Call_nib_load sp; Call_nib_load lp]) ∨
  (∃ st lo c, nib_load_get_fdata w sp = Ok st ∧ nib_load_get_fdata w lp = Ok lo ∧
              np.multiply st (np.exp (np.times_1j lo)) = Ok c ∧ shape c = [nx; ny; nz] ∧
              r = MkRun (Ok ())
                    (with_arrays
                       (with_mu (MkVar ["frequency"; "x"; "y"; "z"]
                                   (Complex128 (np.expand_dims0 c)))
                          (loaded f T nx ny nz nt rx ry rz)) o)
                    [Call_nib_load sp; Call_nib_load lp]).
Proof.
  intros Harr HT Hds Hsp Hlp. cbv zeta.
  assert (xr.getitem ds "wave"
          = Some (MkDataArray (MkVar canonical (Complex128 T))
                    (wave_coords f nx ny nz nt rx ry rz) (Some "wave"))) as Hwave.
  { destruct Hds as [->|[M ->]]; [apply getitem_wave_loaded|apply getitem_wave_mu]. }
  destruct (nib_load_get_fdata w sp) as [st|e] eqn:Hst.
  2:{ left. exists e. split; [done|]. to_product Harr Hwave. rewrite Hsp. cbn [or_raise].
      rewrite Hst. done. }
  destruct (nib_load_get_fdata w lp) as [lo|e] eqn:Hlo.
  2:{ right. left. exists st, e. split; [done|]. split; [done|].
      to_product Harr Hwave. rewrite Hsp. cbn [or_raise]. rewrite Hst, Hlp. cbn [or_raise].
      rewrite Hlo. done. }
  destruct (np.multiply st (np.exp (np.times_1j lo))) as [c|e] eqn:Hc.
  2:{ right. right. left. exists st, lo. split; [done|]. split; [done|].
      unfold np.multiply, nd.map2 in Hc. cbn [np.exp np.times_1j nd.map shape] in Hc.
      destruct (nd.broadcast_shapes (shape st) (shape lo)) eqn:Hb; [discriminate|].
      injection Hc as <-. split; [by left|].
      to_product Harr Hwave. rewrite Hsp. cbn [or_raise]. rewrite Hst, Hlp. cbn [or_raise].
      rewrite Hlo. unfold np.multiply, nd.map2. cbn [np.exp np.times_1j nd.map shape].
      rewrite Hb. done. }
  rewrite (create_elastogram_run w verbose o ds T f nx ny nz nt rx ry rz sp lp st lo c) by done.
  destruct (decide (shape c = [nx; ny; nz])) as [Hshc|Hshc].
  - right. right. right. exists st, lo, c. done.
  - right. right. left. exists st, lo. split; [done|]. split; [done|]. split; [|done].
    right. by exists c.
Qed.

(** On an object whose mask attributes are unset, [preprocess] is
    [create_elastogram] on the object with the two paths recorded. *)
Lemma preprocess_is_create_elastogram (verbose : bool) sp lp (o : MatlabSample R C)
    ds T f nx ny nz nt rx ry rz :
  mask_file o = None → bin_mask_file o = None →
  arrays o = Some ds →
  (ds = loaded f T nx ny nz nt rx ry rz ∨ ∃ M, ds = with_mu M (loaded f T nx ny nz nt rx ry rz)) →
  MatlabSample.preprocess w sp lp verbose o =
  MatlabSample.create_elastogram w verbose (with_loss_mod_file lp (with_storage_mod_file sp o)).
Proof.
  intros Hm Hb Harr Hds. rewrite preprocess_unfold.
  set (o' := with_loss_mod_file lp (with_storage_mod_file sp o)).
  unfold mbind, Py_bind.
  rewrite (segment_regions_loaded w verbose o' ds T f nx ny nz nt rx ry rz) by done.
  by destruct (MatlabSample.create_elastogram w verbose o').
Qed.

(** X15: on an object without a dataset ([load_mat] has not run, or has
    failed), [segment_regions], [create_elastogram] and [preprocess] raise
    AttributeError for [arrays] without opening a file; the first two leave
    the object untouched and [preprocess] leaves the two paths recorded. *)
Theorem methods_before_load_mat (verbose : bool) sp lp (o : MatlabSample R C) :
  arrays o = None →
  MatlabSample.segment_regions w verbose o = MkRun (Raise (AttributeError "arrays")) o [] ∧
  MatlabSample.create_elastogram w verbose o = MkRun (Raise (AttributeError "arrays")) o [] ∧
  MatlabSample.preprocess w sp lp verbose o
    = MkRun (Raise (AttributeError "arrays"))
        (with_loss_mod_file lp (with_storage_mod_file sp o)) [].
Proof.
  intros Harr.
  assert (∀ o' : MatlabSample R C, arrays o' = None →
            MatlabSample.segment_regions w verbose o'
            = MkRun (Raise (AttributeError "arrays")) o' []) as Hseg.
  { intros o' Ho'. unfold MatlabSample.segment_regions, MatlabSample.arrays_wave. py_unfold.
    by rewrite Ho'. }
  split; [by apply Hseg|]. split.
  - unfold MatlabSample.create_elastogram, MatlabSample.arrays_wave. py_unfold.
    by rewrite Harr.
  - rewrite preprocess_unfold. unfold mbind, Py_bind. by rewrite Hseg.
Qed.

(** X16: [create_elastogram] called on a loaded sample before [preprocess]
    has recorded the two paths raises AttributeError for
    [storage_mod_file]; no file is opened and the object is as before. *)
Theorem create_elastogram_before_preprocess (verbose : bool) (o : MatlabSample R C) ds :
  arrays o = Some ds → well_loaded ds → storage_mod_file o = None →
  MatlabSample.create_elastogram w verbose o
  = MkRun (Raise (AttributeError "storage_mod_file")) o [].
Proof.
  intros Harr (f & T & nx & ny & nz & nt & rx & ry & rz & HT & Hds) Hsp.
  assert (xr.getitem ds "wave"
          = Some (MkDataArray (MkVar canonical (Complex128 T))
                    (wave_coords f nx ny nz nt rx ry rz) (Some "wave"))) as Hwave.
  { destruct Hds as [->|[M ->]]; [apply getitem_wave_loaded|apply getitem_wave_mu]. }
  to_product Harr Hwave. by rewrite Hsp.
Qed.

(** What [preprocess] does on a reachable object that holds a dataset. *)
Lemma preprocess_at (verbose : bool) (sp lp : string) (o : MatlabSample R C) ds :
  reachable w o → arrays o = Some ds →
  ∃ T f nx ny nz nt rx ry rz,
    shape T = [nt; 1; nx; ny; nz; 3] ∧
    (ds = loaded f T nx ny nz nt rx ry rz ∨
     ∃ M, ds = with_mu M (loaded f T nx ny nz nt rx ry rz)) ∧
    mask_file o = None ∧ bin_mask_file o = None ∧
    ∀ (v : bool) (sp lp : string),
      MatlabSample.preprocess w sp lp v o =
      MatlabSample.create_elastogram w v (with_loss_mod_file lp (with_storage_mod_file sp o)).
Proof.
  intros Hr Harr. destruct (reachable_invariant w o Hr) as (Hm & Hb & _ & _ & Hwl).
  destruct (Hwl ds Harr) as (f & T & nx & ny & nz & nt & rx & ry & rz & HT & Hds).
  exists T, f, nx, ny, nz, nt, rx, ry, rz. repeat (split; [done|]).
  intros v sp' lp'. by apply (preprocess_is_create_elastogram v sp' lp' o ds T f nx ny nz nt rx ry rz).
Qed.

(** X17: on a reachable object that holds a dataset, [preprocess] opens
    the storage image first.  If that read fails its exception is raised
    and the loss image is never opened; otherwise the loss image is opened
    next, and these two reads, once each and in this order, are all the
    I/O of the call, whether it then returns or raises. *)
Theorem preprocess_reads_storage_then_loss (verbose : bool) sp lp (o : MatlabSample R C) ds :
  reachable w o → arrays o = Some ds →
  let r := MatlabSample.preprocess w sp lp verbose o in
  (∀ e, nib_load_get_fdata w sp = Raise e →
     value r = Raise e ∧ events r = [Call_nib_load sp]) ∧
  (∀ st, nib_load_get_fdata w sp = Ok st →
     events r = [Call_nib_load sp; Call_nib_load lp] ∧
     ∀ e, nib_load_get_fdata w lp = Raise e → value r = Raise e).
Proof.
  intros Hr Harr. cbv zeta.
  destruct (preprocess_at verbose sp lp o ds Hr Harr)
    as (T & f & nx & ny & nz & nt & rx & ry & rz & HT & Hds & _ & _ & ->).
  set (o' := with_loss_mod_file lp (with_storage_mod_file sp o)).
  destruct (create_elastogram_at verbose o' ds T f nx ny nz nt rx ry rz sp lp)
    as [(e & Hst & ->)|[(st & e & Hst & Hlo & ->)|[(st & lo & Hst & Hlo & _ & ->)
        |(st & lo & c & Hst & Hlo & _ & _ & ->)]]]; try done;
    (split; [intros e' He'|intros st' Hst']); rewrite ?Hst in *; simplify_eq; try done;
    (split; [done|]); intros e' He'; rewrite ?Hlo in *; simplify_eq; done.
Qed.

(** X18: two modulus images whose shapes cannot be broadcast together
    make [preprocess] raise ValueError after both have been read; the
    dataset is as before and the two paths are recorded. *)
Theorem preprocess_incompatible_images (verbose : bool) sp lp (o : MatlabSample R C) ds st lo :
  reachable w o → arrays o = Some ds →
  nib_load_get_fdata w sp = Ok st → nib_load_get_fdata w lp = Ok lo →
  nd.broadcast_shapes (shape st) (shape lo) = None →
  MatlabSample.preprocess w sp lp verbose o
  = MkRun (Raise ValueError) (with_loss_mod_file lp (with_storage_mod_file sp o))
      [Call_nib_load sp; Call_nib_load lp].
Proof.
  intros Hr Harr Hst Hlo Hb.
  destruct (preprocess_at verbose sp lp o ds Hr Harr)
    as (T & f & nx & ny & nz & nt & rx & ry & rz & HT & Hds & _ & _ & ->).
  set (o' := with_loss_mod_file lp (with_storage_mod_file sp o)).
  destruct (create_elastogram_at verbose o' ds T f nx ny nz nt rx ry rz sp lp)
    as [(e & Hst' & _)|[(st' & e & _ & Hlo' & _)|[(st' & lo' & _ & _ & _ & ->)
        |(st' & lo' & c & Hst' & Hlo' & Hc & _ & _)]]]; try done; try congruence.
  assert (st' = st) as -> by congruence. assert (lo' = lo) as -> by congruence.
  unfold np.multiply, nd.map2 in Hc. cbn [np.exp np.times_1j nd.map shape] in Hc.
  rewrite Hb in Hc. discriminate.
Qed.

(** X19: when [preprocess] raises on a reachable object, all it has
    changed are the two recorded paths: the dataset, with the elastogram of
    an earlier call if there is one, is as before. *)
Theorem preprocess_failure_keeps_dataset (verbose : bool) sp lp (o : MatlabSample R C) e :
  reachable w o →
  value (MatlabSample.preprocess w sp lp verbose o) = Raise e →
  final (MatlabSample.preprocess w sp lp verbose o)
    = with_loss_mod_file lp (with_storage_mod_file sp o) ∧
  arrays (final (MatlabSample.preprocess w sp lp verbose o)) = arrays o.
Proof.
  intros Hr He.
  destruct (preprocess_cases w sp lp verbose o (reachable_invariant w o Hr))
    as [(e' & t & Hp & _)|Hrun].
  - rewrite Hp. done.
  - destruct Hrun as (ds & T & f & nx & ny & nz & nt & rx & ry & rz & st & lo & c & t
                      & _ & _ & _ & _ & _ & _ & _ & Hp).
    rewrite (Hp verbose) in He. discriminate.
Qed.

(** X20: the last successful [preprocess] wins.  If [preprocess] with the
    files [sp2], [lp2] returns on a reachable object, then calling it
    after an earlier [preprocess] with other files, whether that one
    returned or raised, leaves the object exactly as calling it alone
    does. *)
Theorem preprocess_last_call_wins (v1 v2 v2' : bool) sp1 lp1 sp2 lp2 (o : MatlabSample R C) :
  reachable w o →
  value (MatlabSample.preprocess w sp2 lp2 v2 o) = Ok () →
  let first := MatlabSample.preprocess w sp1 lp1 v1 o in
  let second := MatlabSample.preprocess w sp2 lp2 v2' (final first) in
  value second = Ok () ∧
  final second = final (MatlabSample.preprocess w sp2 lp2 v2 o).
Proof.
  intros Hr Hok. cbv zeta.
  destruct (arrays o) as [ds|] eqn:Harr.
  2:{ revert Hok. rewrite preprocess_unfold.
      unfold MatlabSample.segment_regions, MatlabSample.arrays_wave. py_unfold.
      cbn [arrays with_loss_mod_file with_storage_mod_file]. rewrite Harr. discriminate. }
  destruct (preprocess_at v2 sp2 lp2 o ds Hr Harr)
    as (T & f & nx & ny & nz & nt & rx & ry & rz & HT & Hds & Hm & Hb & Hpre).
  rewrite Hpre in Hok. rewrite !Hpre.
  set (o2 := with_loss_mod_file lp2 (with_storage_mod_file sp2 o)) in *.
  set (o1 := with_loss_mod_file lp1 (with_storage_mod_file sp1 o)).
  (* the call alone *)
  destruct (create_elastogram_at v2 o2 ds T f nx ny nz nt rx ry rz sp2 lp2)
    as [(e & _ & Hrun)|[(st & e & _ & _ & Hrun)|[(st & lo & _ & _ & _ & Hrun)
        |(st & lo & c & Hst & Hlo & Hc & Hshc & Hrun)]]]; try done;
    try (rewrite Hrun in Hok; discriminate).
  rewrite Hrun. cbn [final].
  (* the earlier call leaves the dataset, with or without an elastogram *)
  assert (∃ ds1, arrays (final (MatlabSample.create_elastogram w v1 o1)) = Some ds1 ∧
                 (ds1 = loaded f T nx ny nz nt rx ry rz ∨
                  ∃ M, ds1 = with_mu M (loaded f T nx ny nz nt rx ry rz)) ∧
                 (final (MatlabSample.create_elastogram w v1 o1) = o1 ∨
                  final (MatlabSample.create_elastogram w v1 o1) = with_arrays ds1 o1))
    as (ds1 & Harr1 & Hds1 & Hfin1).
  { destruct (create_elastogram_at v1 o1 ds T f nx ny nz nt rx ry rz sp1 lp1)
      as [(e & _ & ->)|[(st1 & e & _ & _ & ->)|[(st1 & lo1 & _ & _ & _ & ->)
          |(st1 & lo1 & c1 & _ & _ & _ & _ & ->)]]]; try done; cbn [final];
      try (exists ds; split; [done|]; split; [done|]; by left).
    eexists. split; [done|]. split; [right; eauto|]. by right. }
  set (o1' := final (MatlabSample.create_elastogram w v1 o1)) in *.
  assert (mask_file o1' = None ∧ bin_mask_file o1' = None) as [Hm1 Hb1]
    by (destruct Hfin1 as [-> | ->]; done).
  rewrite (preprocess_is_create_elastogram v2' sp2 lp2 o1' ds1 T f nx ny nz nt rx ry rz)
    by done.
  rewrite (create_elastogram_run w v2' (with_loss_mod_file lp2 (with_storage_mod_file sp2 o1'))
             ds1 T f nx ny nz nt rx ry rz sp2 lp2 st lo c) by done.
  rewrite !decide_True by done. cbn [value final]. split; [done|].
  destruct Hfin1 as [-> | ->]; by destruct o.
Qed.

End elastogram_facts.

(** ** [_print_mat_info] *)

Section print_facts.

Lemma pyobj_nested_ind (P : pyobj → Prop) :
  (∀ ty sh dt, P (PyObj ty sh dt None)) →
  (∀ ty sh dt entries, Forall (λ kv, P kv.2) entries → P (PyObj ty sh dt (Some entries))) →
  ∀ v, P v.
Proof.
  intros Hleaf Hnode. fix IH 1. intros [ty sh dt [entries|]]; [|apply Hleaf].
  apply Hnode. induction entries as [|[k v] entries IHentries]; constructor;
    [apply IH|apply IHentries].
Qed.

(** The printout of the contents of a value, as the loop asks for it. *)
Local Abbreviation nested level :=
  (λ v, match v with
        | PyObj _ _ _ (Some _) => _print_mat_info v (S level) default_tab
        | _ => ([], Ok ())
        end).

Lemma entry_line_typed tab level k v :
  match v with PyObj _ (Some _) None _ => False | _ => True end →
  ∃ ln, entry_line tab level k v = Ok ln.
Proof. destruct v as [ty [sh|] [dt|] its]; simpl; intros Hv; try done; eauto. Qed.

(** X21: on a data set in which every value that has a shape has a dtype,
    [_print_mat_info] ends without an exception and prints one line for
    each entry, at all depths. *)
Theorem print_mat_info_line_count (data : pyobj) (level : nat) (tab : string) :
  (∃ ty sh dt entries, data = PyObj ty sh dt (Some entries)) →
  arrays_typed data = true →
  (_print_mat_info data level tab).2 = Ok () ∧
  length (_print_mat_info data level tab).1 = count_entries data.
Proof.
  intros Hitems. revert level tab.
  induction data as [ty sh dt|ty sh dt entries IH] using pyobj_nested_ind;
    intros level tab Htyped.
  { destruct Hitems as (? & ? & ? & ? & [=]). }
  clear Hitems. cbn [_print_mat_info count_entries arrays_typed] in *.
  induction entries as [|[k v] entries IHentries]; [done|].
  apply Forall_cons in IH as [IHv IH]. cbn [forallb] in Htyped.
  apply andb_prop in Htyped as [Hv Hrest]. cbn [snd] in Hv, IHv.
  destruct (IHentries IH Hrest) as [Hok Hlen]. clear IHentries.
  cbn [for_items fmap list_fmap sum_list snd].
  destruct (entry_line_typed tab level k v) as [ln ->].
  { by destruct v as [ty' [sh'|] [dt'|] its']. }
  destruct v as [ty' sh' dt' [its'|]].
  - destruct (IHv (ltac:(eauto)) (S level) default_tab) as [Hvok Hvlen].
    { by destruct sh', dt'. }
    destruct (_print_mat_info (PyObj ty' sh' dt' (Some its')) (S level) default_tab)
      as [out r] eqn:Hnested. cbn [fst snd] in Hvok, Hvlen. subst r.
    fold (for_items (entry_line tab level) (nested level)) in *.
    destruct (for_items (entry_line tab level) (nested level) entries) as [out' r'].
    cbn [fst snd] in *. split; [done|]. rewrite length_cons, length_app. unfold id in *. lia.
  - fold (for_items (entry_line tab level) (nested level)) in *.
    destruct (for_items (entry_line tab level) (nested level) entries) as [out' r'].
    cbn [fst snd count_entries app] in *. split; [done|]. rewrite length_cons. unfold id in *. lia.
Qed.

Lemma for_items_tab (N : pyobj → list string * result unit) level tab tab' entries :
  (for_items (entry_line tab level) N entries).2
    = (for_items (entry_line tab' level) N entries).2 ∧
  Forall2 (λ l l', l = l' ∨ ∃ rest, l = str_mul tab level ++ rest ∧
                                   l' = str_mul tab' level ++ rest)
    (for_items (entry_line tab level) N entries).1
    (for_items (entry_line tab' level) N entries).1.
Proof.
  assert (∀ out : list string,
            Forall2 (λ l l', l = l' ∨ ∃ rest, l = str_mul tab level ++ rest ∧
                                             l' = str_mul tab' level ++ rest) out out)
    as Hrefl by (intros out; apply Forall_Forall2_diag, Forall_forall; auto).
  induction entries as [|[k v] entries [IH1 IH2]]; [by split; [|constructor]|].
  cbn [for_items].
  fold (for_items (entry_line tab level) N) in *.
  fold (for_items (entry_line tab' level) N) in *.
  destruct (for_items (entry_line tab level) N entries) as [o1 r1].
  destruct (for_items (entry_line tab' level) N entries) as [o2 r2].
  cbn [fst snd] in IH1, IH2. subst r2.
  destruct v as [ty' [sh'|] [dt'|] its']; cbn [entry_line or_raise mbind result_bind];
    try (by split; [|constructor]);
    destruct (N _) as [out [[]|e]]; cbn [fst snd];
    (split; [done|]);
    (constructor; [right; eexists; split; reflexivity|]);
    first [by apply Forall2_app | apply Hrefl].
Qed.

(** X22: the parameter [tab] reaches the lines of the top-level entries
    only, since the recursive call does not pass it on.  With another
    [tab] the outcome is the same and every line is either the same or
    differs in its leading [tab * level] alone; at the default level 0
    [tab] has no effect at all. *)
Theorem print_mat_info_tab (data : pyobj) (level : nat) (tab tab' : string) :
  (_print_mat_info data level tab).2 = (_print_mat_info data level tab').2 ∧
  Forall2 (λ l l', l = l' ∨ ∃ rest, l = str_mul tab level ++ rest ∧
                                   l' = str_mul tab' level ++ rest)
    (_print_mat_info data level tab).1 (_print_mat_info data level tab').1 ∧
  (level = 0 → _print_mat_info data level tab = _print_mat_info data level tab').
Proof.
  destruct data as [ty sh dt [entries|]].
  - cbn [_print_mat_info]. destruct (for_items_tab (nested level) level tab tab' entries).
    split; [done|]. split; [done|]. intros ->. reflexivity.
  - repeat split; constructor.
Qed.

End print_facts.

(** ** [preprocess] on a sample with a mask attached *)

Section pipeline_facts.
Context {R C : Type} `{!Scalars R C}.
Variable w : World R.

Ltac py_unfold :=
  unfold mbind, mret, Py_bind, Py_ret, py.lift, py.get_self, py.getattr, py.raise,
    py.emit, py.set_arrays, py.set_storage_mod_file, py.set_loss_mod_file, py.modify.

Lemma getitem_wave_region X T f nx ny nz nt (rx ry rz : R) :
  xr.getitem (with_region (MkVar ["timesteps"; "x"; "y"; "z"] X)
                (loaded f T nx ny nz nt rx ry rz)) "wave"
  = Some (MkDataArray (MkVar canonical (Complex128 T))
            (<["spatial_region" := MkVar ["timesteps"; "x"; "y"; "z"] X]>
               (wave_coords f nx ny nz nt rx ry rz))
            (Some "wave")).
Proof. vm_compute. reflexivity. Qed.

(** The mean over component and timesteps drops the mask coordinate,
    which runs along timesteps. *)
Lemma mean_wave_masked X (T : ndarray C) f nx ny nz nt (rx ry rz : R) nm :
  xr.mean (MkDataArray (MkVar canonical (Complex128 T))
             (<["spatial_region" := MkVar ["timesteps"; "x"; "y"; "z"] X]>
                (wave_coords f nx ny nz nt rx ry rz)) nm)
          ["component"; "timesteps"]
  = Ok (MkDataArray (MkVar ["frequency"; "x"; "y"; "z"]
                       (Complex128 (nd.reduce complex_mean kept T)))
          (elastogram_coords f nx ny nz rx ry rz) nm).
Proof.
  unfold xr.mean. cbn [variable dims values coords name].
  rewrite decide_True by (apply (bool_decide_unpack _); vm_compute; reflexivity).
  replace ((λ d, bool_decide (d ∉ ["component"; "timesteps"])) <$> canonical)
    with kept by (vm_compute; reflexivity).
  cbn [np.mean mbind result_bind].
  replace (filter _ (<["spatial_region" := _]> (wave_coords f nx ny nz nt rx ry rz)))
    with (elastogram_coords (C:=C) f nx ny nz rx ry rz) by (vm_compute; reflexivity).
  reflexivity.
Qed.

Lemma setitem_mu_masked (T : ndarray C) f nx ny nz nt (rx ry rz : R) (m : ndarray R) a nm :
  shape T = [nt; 1; nx; ny; nz; 3] →
  shape m = [nt; nx; ny; nz] →
  shape a = [1; nx; ny; nz] →
  xr.setitem (with_region (MkVar ["timesteps"; "x"; "y"; "z"] (Float64 m))
                (loaded f T nx ny nz nt rx ry rz)) "mu"
    (MkDataArray (MkVar ["frequency"; "x"; "y"; "z"] (Complex128 a))
       (elastogram_coords f nx ny nz rx ry rz) nm)
  = Ok (with_mu (MkVar ["frequency"; "x"; "y"; "z"] (Complex128 a))
          (with_region (MkVar ["timesteps"; "x"; "y"; "z"] (Float64 m))
             (loaded f T nx ny nz nt rx ry rz))).
Proof.
  intros HT Hm Ha. rewrite setitem_kept_coords; [done|..].
  - intros k v Hk _. cbn [coords] in Hk. revert Hk.
    unfold elastogram_coords. cbn [list_to_map foldr uncurry fst snd].
    rewrite !lookup_insert. repeat case_decide; subst;
      try (intros [= <-]; split; [vm_compute; reflexivity|]; apply (bool_decide_unpack _);
           vm_compute; reflexivity).
    done.
  - cbn [variable]. rewrite delete_id by (vm_compute; reflexivity).
    unfold with_region, loaded, xr.sizes_agree, xr.sizes. cbn [variables dims values np.shape_of].
    rewrite Ha. unfold wave_coords. cbn [list_to_map foldr uncurry fst snd].
    repeat (apply map_Forall_insert_2; [|]); [..|apply map_Forall_empty];
      cbn [dims values np.shape_of]; try rewrite HT; try rewrite Hm;
      repeat (constructor; simpl); try (intros [=]); done.
Qed.

(** X23: on a loaded sample with a mask file attached, [preprocess] with
    a mask of the shape of the reference array and two modulus images on
    the grid of the wave returns after reading the mask file, the storage
    image and the loss image, in this order; the dataset then holds the
    mask under ['spatial_region'], as a coordinate, and the elastogram
    under ['mu'], and every other variable is as before. *)
Theorem preprocess_with_mask (verbose : bool) (o : MatlabSample R C)
    T f nx ny nz nt rx ry rz mf p d m sp lp st lo :
  arrays o = Some (loaded f T nx ny nz nt rx ry rz) →
  shape T = [nt; 1; nx; ny; nz; 3] →
  mask_file o = Some mf → file_path_mask o = Some p → bin_mask_file o = None →
  scipy_io_loadmat w p = Ok d → d !! "img_seg" = Some m → shape m = [nt; nx; ny; nz] →
  nib_load_get_fdata w sp = Ok st → nib_load_get_fdata w lp = Ok lo →
  shape st = [nx; ny; nz] → shape lo = [nx; ny; nz] →
  let r := MatlabSample.preprocess w sp lp verbose o in
  value r = Ok () ∧
  events r = [Call_loadmat p; Call_nib_load sp; Call_nib_load lp] ∧
  ∃ ds' c,
    arrays (final r) = Some ds' ∧
    np.multiply st (np.exp (np.times_1j lo)) = Ok c ∧
    variables ds' !! "spatial_region"
      = Some (MkVar ["timesteps"; "x"; "y"; "z"] (Float64 m)) ∧
    variables ds' !! "mu"
      = Some (MkVar ["frequency"; "x"; "y"; "z"] (Complex128 (np.expand_dims0 c))) ∧
    coord_names ds'
      = coord_names (loaded f T nx ny nz nt rx ry rz) ∪ {["spatial_region"]} ∧
    ∀ k, k ≠ "spatial_region" → k ≠ "mu" →
         variables ds' !! k = variables (loaded f T nx ny nz nt rx ry rz) !! k.
Proof.
  intros Harr HT Hmf Hp Hbin Hd Hm Hshm Hst Hlo Hshst Hshlo. cbv zeta.
  destruct (polar_item st lo) as (c & Hc & Hshc & _ & _); [congruence|].
  rewrite Hshst in Hshc.
  set (o' := with_loss_mod_file lp (with_storage_mod_file sp o)).
  set (V := MkVar ["timesteps"; "x"; "y"; "z"] (Float64 m)).
  assert (MatlabSample.preprocess w sp lp verbose o =
          MkRun (Ok ())
            (with_arrays
               (with_mu (MkVar ["frequency"; "x"; "y"; "z"] (Complex128 (np.expand_dims0 c)))
                  (with_region V (loaded f T nx ny nz nt rx ry rz))) o')
            [Call_loadmat p; Call_nib_load sp; Call_nib_load lp]) as ->.
  { rewrite preprocess_unfold. fold o'. unfold mbind at 1, Py_bind at 1.
    rewrite (segment_regions_mask_run w verbose o' T f nx ny nz nt rx ry rz mf p d m) by done.
    rewrite !decide_True by done. fold V.
    unfold MatlabSample.create_elastogram, MatlabSample.arrays_wave, MatlabSample.arrays_setitem.
    py_unfold. cbn [arrays with_arrays or_raise].
    unfold V at 1. rewrite getitem_wave_region. cbn [or_raise].
    rewrite mean_wave_masked.
    cbn [storage_mod_file loss_mod_file o' with_arrays with_loss_mod_file with_storage_mod_file
         or_raise].
    rewrite Hst. cbn [or_raise]. rewrite Hlo, Hc.
    unfold utils.as_xarray, xr.shape_of. cbn [variable values np.shape_of np.expand_dims0 shape].
    rewrite (reduce_shape complex_mean T _ _ _ _ _ _ HT).
    rewrite decide_True by (by rewrite Hshc).
    cbn [arrays with_arrays or_raise]. unfold py.set_name. cbn [variable coords dims].
    unfold V at 1.
    rewrite (setitem_mu_masked T f nx ny nz nt rx ry rz m (np.expand_dims0 c) _ HT Hshm)
      by (by simpl; rewrite Hshc).
    fold V. by destruct o. }
  cbn [value final events arrays with_arrays]. split; [done|]. split; [done|].
  eexists _, c. split; [done|]. split; [done|].
  split; [vm_compute; reflexivity|]. split; [vm_compute; reflexivity|]. split; [done|].
  intros k Hk1 Hk2. unfold with_mu, with_region. cbn [variables].
  by rewrite !lookup_insert_ne.
Qed.

End pipeline_facts.

(** ** The further properties at work on example files *)

Lemma sample_well_loaded : well_loaded (loaded 50 wave_data 2 1 1 2 2%Z 2%Z 3%Z).
Proof.
  exists 50%Z, wave_data, 2, 1, 1, 2, 2%Z, 2%Z, 3%Z. split; [reflexivity|]. by left.
Qed.

Lemma sample_reachable_more : reachable edge.files sample.
Proof.
  assert (sample = call edge.files (Load_mat true) (fresh "wave.mat")) as ->
    by (vm_compute; reflexivity).
  apply reachable_call, reachable_init.
Qed.

Lemma attached_arrays mf bf pm pf :
  arrays (edge.attached mf bf pm pf) = Some (loaded 50 wave_data 2 1 1 2 2%Z 2%Z 3%Z).
Proof. apply sample_arrays. Qed.

Lemma load_mat_missing_key_witness :
  loads disk "mask.mat" (<["img_seg" := mask]> ∅) ∧
  value (MatlabSample.load_mat disk true (fresh "mask.mat")) = Raise (KeyError "magnitude") ∧
  final (MatlabSample.load_mat disk true (fresh "mask.mat")) = fresh "mask.mat".
Proof.
  assert (loads disk "mask.mat" (<["img_seg" := mask]> ∅)) as Hl
    by (left; vm_compute; reflexivity).
  split; [exact Hl|].
  destruct (proj1 (load_mat_missing_key disk true (fresh "mask.mat") _ Hl))
    as (Hv & Hf & _); [vm_compute; reflexivity|].
  split; [exact Hv | exact Hf].
Defined.

Lemma load_mat_replaces_dataset_witness :
  value (MatlabSample.load_mat disk true preprocessed) = Ok () ∧
  (arrays preprocessed ≫= λ ds, variables ds !! "mu") ≠ None ∧
  ∃ ds,
    arrays (final (MatlabSample.load_mat disk true preprocessed)) = Some ds ∧
    dom (variables ds)
      = list_to_set ["wave"; "x"; "y"; "z"; "timesteps"; "component"; "frequency"] ∧
    coord_names ds = list_to_set ["x"; "y"; "z"; "timesteps"; "component"; "frequency"] ∧
    ∀ old, arrays (final (MatlabSample.load_mat disk true (with_arrays old preprocessed)))
           = Some ds.
Proof.
  split; [vm_compute; reflexivity|]. split; [vm_compute; discriminate|].
  apply (load_mat_replaces_dataset disk true preprocessed). vm_compute. reflexivity.
Defined.

Lemma load_mat_failure_keeps_object_witness :
  value (MatlabSample.load_mat disk true (fresh "nothing.mat")) = Raise FileNotFoundError ∧
  final (MatlabSample.load_mat disk true (fresh "nothing.mat")) = fresh "nothing.mat".
Proof.
  split; [vm_compute; reflexivity|].
  apply (load_mat_failure_keeps_object disk true (fresh "nothing.mat") FileNotFoundError).
  vm_compute. reflexivity.
Defined.

Lemma wave_timesteps_coordinate_witness :
  value (MatlabSample.load_mat disk true (fresh "wave.mat")) = Ok () ∧
  ∃ ds wave n c,
    arrays (final (MatlabSample.load_mat disk true (fresh "wave.mat"))) = Some ds ∧
    xr.getitem ds "wave" = Some wave ∧
    nd.index_of "timesteps" (dims (variable wave)) = Some 0 ∧
    xr.shape_of wave !! 0 = Some n ∧
    coords wave !! "timesteps" = Some (MkVar ["timesteps"] (Int64 c)) ∧
    shape c = [n] ∧
    ∀ i, i < n → nd.item c [i] = Some (Z.of_nat i).
Proof.
  split; [vm_compute; reflexivity|].
  apply (wave_timesteps_coordinate disk true (fresh "wave.mat")). vm_compute. reflexivity.
Defined.



Lemma add_metadata_bounds_witness :
  value (MatlabSample.add_metadata (NdArray [2; 3; 1] (Cimag <$> [1; 2; 3; 4; 5; 6]%Z))
           (fresh "wave.mat")) = Raise IndexError ∧
  value (MatlabSample.add_metadata field
           (MatlabSample.__init__ (C:=cterm) "wave.mat" 50 [2; 2]%Z)) = Raise IndexError ∧
  value (MatlabSample.add_metadata (NdArray [2; 1; 1; 3] (Cimag <$> [1; 2; 3; 4; 5; 6]%Z))
           (fresh "wave.mat")) = Raise ValueError.
Proof.
  split; [|split].
  - apply (proj1 (add_metadata_bounds _ (fresh "wave.mat"))). left. vm_compute. lia.
  - apply (proj1 (add_metadata_bounds field _)). right. vm_compute. lia.
  - apply (proj1 (proj2 (add_metadata_bounds _ (fresh "wave.mat"))));
      vm_compute; lia.
Defined.

Lemma segment_regions_needs_file_path_witness :
  arrays (edge.attached (Some "mask.mat") None None None)
    = Some (loaded 50 wave_data 2 1 1 2 2%Z 2%Z 3%Z) ∧
  MatlabSample.segment_regions disk true (edge.attached (Some "mask.mat") None None None)
    = MkRun (Raise (AttributeError "file_path_mask"))
        (edge.attached (Some "mask.mat") None None None) [] ∧
  value (MatlabSample.segment_regions disk true
           (edge.attached None (Some "filled.mat") None None))
    = Raise (AttributeError "file_path_filled").
Proof.
  split; [vm_compute; reflexivity|]. split.
  - destruct (proj1 (segment_regions_needs_file_path disk true
                       (edge.attached (Some "mask.mat") None None None)
                       (loaded 50 wave_data 2 1 1 2 2%Z 2%Z 3%Z)
                       (attached_arrays _ _ _ _) sample_well_loaded))
      as (Hv & Hf & He); [by eexists | reflexivity |].
    destruct (MatlabSample.segment_regions disk true _) as [r o' t].
    simpl in Hv, Hf, He. by subst.
  - apply (proj2 (segment_regions_needs_file_path disk true
                    (edge.attached None (Some "filled.mat") None None)
                    (loaded 50 wave_data 2 1 1 2 2%Z 2%Z 3%Z)
                    (attached_arrays _ _ _ _) sample_well_loaded));
      [reflexivity | by eexists | reflexivity].
Defined.

Lemma segment_regions_mask_file_failure_witness :
  scipy_io_loadmat edge.files "mask73.mat" = Raise NotImplementedError ∧
  h5py_File edge.files "mask73.mat" = Ok (<["img_seg" := mask]> ∅) ∧
  value (MatlabSample.segment_regions edge.files true
           (edge.attached (Some "mask73.mat") None (Some "mask73.mat") None))
    = Raise NotImplementedError ∧
  events (MatlabSample.segment_regions edge.files true
            (edge.attached (Some "mask73.mat") None (Some "mask73.mat") None))
    = [Call_loadmat "mask73.mat"].
Proof.
  split; [vm_compute; reflexivity|]. split; [vm_compute; reflexivity|].
  destruct (proj1 (segment_regions_mask_file_failure edge.files true
                     (edge.attached (Some "mask73.mat") None (Some "mask73.mat") None)
                     (loaded 50 wave_data 2 1 1 2 2%Z 2%Z 3%Z) "mask73.mat" "mask73.mat"
                     (attached_arrays _ _ _ _) sample_well_loaded eq_refl eq_refl)
              NotImplementedError)
    as (Hv & _ & He); [vm_compute; reflexivity|].
  split; [exact Hv | exact He].
Defined.

Lemma segment_regions_binary_mask_alone_witness :
  scipy_io_loadmat edge.files "filled.mat" = Ok (<["img_seg_filled" := edge.filled]> ∅) ∧
  value (MatlabSample.segment_regions edge.files true
           (edge.attached None (Some "filled.mat") None (Some "filled.mat")))
    = Raise (AttributeError "spatial_region") ∧
  ∃ ds',
    arrays (final (MatlabSample.segment_regions edge.files true
                     (edge.attached None (Some "filled.mat") None (Some "filled.mat"))))
      = Some ds' ∧
    variables ds' !! "binary_region"
      = Some (MkVar ["timesteps"; "x"; "y"; "z"] (Float64 edge.filled)).
Proof.
  split; [vm_compute; reflexivity|].
  destruct (segment_regions_binary_mask_alone edge.files true
              (edge.attached None (Some "filled.mat") None (Some "filled.mat"))
              wave_data 50 2 1 1 2 2%Z 2%Z 3%Z "filled.mat" "filled.mat"
              (<["img_seg_filled" := edge.filled]> ∅) edge.filled)
    as (Hv & _ & ds' & Harr & Hbr & _); try (vm_compute; reflexivity).
  split; [exact Hv|]. exists ds'. split; [exact Harr | exact Hbr].
Defined.

Lemma segment_regions_both_masks_witness :
  value (MatlabSample.segment_regions edge.files true
           (edge.attached (Some "mask.mat") (Some "filled.mat")
                          (Some "mask.mat") (Some "filled.mat")))
    = Ok () ∧
  ∃ ds',
    arrays (final (MatlabSample.segment_regions edge.files true
                     (edge.attached (Some "mask.mat") (Some "filled.mat")
                                    (Some "mask.mat") (Some "filled.mat"))))
      = Some ds' ∧
    variables ds' !! "spatial_region"
      = Some (MkVar ["timesteps"; "x"; "y"; "z"] (Float64 mask)) ∧
    variables ds' !! "binary_region"
      = Some (MkVar ["timesteps"; "x"; "y"; "z"] (Float64 edge.filled)).
Proof.
  destruct (segment_regions_both_masks edge.files true
              (edge.attached (Some "mask.mat") (Some "filled.mat")
                             (Some "mask.mat") (Some "filled.mat"))
              wave_data 50 2 1 1 2 2%Z 2%Z 3%Z "mask.mat" "mask.mat"
              (<["img_seg" := mask]> ∅) mask "filled.mat" "filled.mat"
              (<["img_seg_filled" := edge.filled]> ∅) edge.filled)
    as (Hv & _ & ds' & Harr & Hsr & Hbr & _); try (vm_compute; reflexivity).
  split; [exact Hv|]. exists ds'. split; [exact Harr|]. split; [exact Hsr | exact Hbr].
Defined.

Lemma segment_regions_mask_on_wave_witness :
  ∃ wave ds' wave',
    xr.getitem (loaded 50 wave_data 2 1 1 2 2%Z 2%Z 3%Z) "wave" = Some wave ∧
    arrays (final (MatlabSample.segment_regions disk true (masked "mask.mat"))) = Some ds' ∧
    xr.getitem ds' "wave" = Some wave' ∧
    variable wave' = variable wave ∧
    coords wave' = <["spatial_region" := MkVar ["timesteps"; "x"; "y"; "z"] (Float64 mask)]>
                     (coords wave) ∧
    coords wave !! "spatial_region" = None.
Proof.
  apply (segment_regions_mask_on_wave disk true (masked "mask.mat")
           wave_data 50 2 1 1 2 2%Z 2%Z 3%Z "mask.mat" "mask.mat"
           (<["img_seg" := mask]> ∅) mask); vm_compute; reflexivity.
Defined.

Lemma methods_before_load_mat_witness :
  arrays (fresh "wave.mat") = None ∧
  MatlabSample.create_elastogram disk true (fresh "wave.mat")
    = MkRun (Raise (AttributeError "arrays")) (fresh "wave.mat") [] ∧
  value (MatlabSample.preprocess disk "storage.nii" "loss.nii" true (fresh "wave.mat"))
    = Raise (AttributeError "arrays").
Proof.
  split; [reflexivity|].
  destruct (methods_before_load_mat disk true "storage.nii" "loss.nii" (fresh "wave.mat"))
    as (_ & Hc & Hp); [reflexivity|].
  split; [exact Hc|]. by rewrite Hp.
Defined.

Lemma create_elastogram_before_preprocess_witness :
  arrays sample = Some (loaded 50 wave_data 2 1 1 2 2%Z 2%Z 3%Z) ∧
  storage_mod_file sample = None ∧
  MatlabSample.create_elastogram disk true sample
    = MkRun (Raise (AttributeError "storage_mod_file")) sample [].
Proof.
  split; [apply sample_arrays|]. split; [reflexivity|].
  apply (create_elastogram_before_preprocess disk true sample
           (loaded 50 wave_data 2 1 1 2 2%Z 2%Z 3%Z));
    [apply sample_arrays | apply sample_well_loaded | reflexivity].
Defined.

Lemma preprocess_reads_storage_then_loss_witness :
  reachable disk sample ∧
  nib_load_get_fdata disk "nothing.nii" = Raise FileNotFoundError ∧
  value (MatlabSample.preprocess disk "nothing.nii" "loss.nii" true sample)
    = Raise FileNotFoundError ∧
  events (MatlabSample.preprocess disk "nothing.nii" "loss.nii" true sample)
    = [Call_nib_load "nothing.nii"] ∧
  events (MatlabSample.preprocess disk "storage.nii" "nothing.nii" true sample)
    = [Call_nib_load "storage.nii"; Call_nib_load "nothing.nii"].
Proof.
  split; [apply sample_reachable|]. split; [vm_compute; reflexivity|].
  destruct (proj1 (preprocess_reads_storage_then_loss disk true "nothing.nii" "loss.nii"
                     sample _ sample_reachable sample_arrays) FileNotFoundError)
    as [Hv He]; [vm_compute; reflexivity|].
  split; [exact Hv|]. split; [exact He|].
  apply (proj2 (preprocess_reads_storage_then_loss disk true "storage.nii" "nothing.nii"
                  sample _ sample_reachable sample_arrays) storage).
  vm_compute. reflexivity.
Defined.

Lemma preprocess_incompatible_images_witness :
  reachable edge.files sample ∧
  nd.broadcast_shapes (shape edge.flat) (shape edge.triple) = None ∧
  MatlabSample.preprocess edge.files "flat.nii" "triple.nii" true sample
  = MkRun (Raise ValueError)
      (with_loss_mod_file "triple.nii" (with_storage_mod_file "flat.nii" sample))
      [Call_nib_load "flat.nii"; Call_nib_load "triple.nii"].
Proof.
  split; [apply sample_reachable_more|]. split; [vm_compute; reflexivity|].
  apply (preprocess_incompatible_images edge.files true "flat.nii" "triple.nii" sample
           _ edge.flat edge.triple sample_reachable_more sample_arrays);
    vm_compute; reflexivity.
Defined.

Lemma preprocess_failure_keeps_dataset_witness :
  reachable disk preprocessed ∧
  value (MatlabSample.preprocess disk "nothing.nii" "loss.nii" true preprocessed)
    = Raise FileNotFoundError ∧
  final (MatlabSample.preprocess disk "nothing.nii" "loss.nii" true preprocessed)
    = with_loss_mod_file "loss.nii" (with_storage_mod_file "nothing.nii" preprocessed) ∧
  arrays (final (MatlabSample.preprocess disk "nothing.nii" "loss.nii" true preprocessed))
    = arrays preprocessed.
Proof.
  split; [apply preprocessed_reachable|]. split; [vm_compute; reflexivity|].
  apply (preprocess_failure_keeps_dataset disk true "nothing.nii" "loss.nii" preprocessed
           FileNotFoundError preprocessed_reachable).
  vm_compute. reflexivity.
Defined.

Lemma preprocess_last_call_wins_witness :
  reachable edge.files sample ∧
  value (MatlabSample.preprocess edge.files "storage2.nii" "loss2.nii" true sample) = Ok () ∧
  final (MatlabSample.preprocess edge.files "storage2.nii" "loss2.nii" true
           (final (MatlabSample.preprocess edge.files "storage.nii" "loss.nii" true sample)))
  = final (MatlabSample.preprocess edge.files "storage2.nii" "loss2.nii" true sample).
Proof.
  split; [apply sample_reachable_more|]. split; [vm_compute; reflexivity|].
  apply (preprocess_last_call_wins edge.files true true true "storage.nii" "loss.nii"
           "storage2.nii" "loss2.nii" sample sample_reachable_more).
  vm_compute. reflexivity.
Defined.

Lemma preprocess_with_mask_witness :
  value (MatlabSample.preprocess disk "storage.nii" "loss.nii" true (masked "mask.mat"))
    = Ok () ∧
  events (MatlabSample.preprocess disk "storage.nii" "loss.nii" true (masked "mask.mat"))
    = [Call_loadmat "mask.mat"; Call_nib_load "storage.nii"; Call_nib_load "loss.nii"] ∧
  ∃ ds',
    arrays (final (MatlabSample.preprocess disk "storage.nii" "loss.nii" true
                     (masked "mask.mat"))) = Some ds' ∧
    variables ds' !! "spatial_region"
      = Some (MkVar ["timesteps"; "x"; "y"; "z"] (Float64 mask)) ∧
    is_Some (variables ds' !! "mu").
Proof.
  destruct (preprocess_with_mask disk true (masked "mask.mat")
              wave_data 50 2 1 1 2 2%Z 2%Z 3%Z "mask.mat" "mask.mat"
              (<["img_seg" := mask]> ∅) mask "storage.nii" "loss.nii" storage loss)
    as (Hv & He & ds' & c & Harr & _ & Hsr & Hmu & _); try (vm_compute; reflexivity).
  split; [exact Hv|]. split; [exact He|]. exists ds'.
  split; [exact Harr|]. split; [exact Hsr|]. rewrite Hmu. by eexists.
Defined.

Lemma print_mat_info_line_count_witness :
  arrays_typed h5.file = true ∧
  (_print_mat_info h5.file 1 default_tab).2 = Ok () ∧
  length (_print_mat_info h5.file 1 default_tab).1 = 5.
Proof.
  split; [reflexivity|].
  apply (print_mat_info_line_count h5.file 1 default_tab); [|reflexivity].
  by eexists _, _, _, _.
Defined.

Lemma print_mat_info_tab_witness :
  _print_mat_info h5.file 0 "--" = _print_mat_info h5.file 0 default_tab.
Proof. apply (proj2 (proj2 (print_mat_info_tab h5.file 0 "--" default_tab))). reflexivity. Defined.

(** What [_load_mat_file] prints for the example file when it calls
    [_print_mat_info(data, level=1)], and what a caller's own [tab]
    gives: the nested entries keep their four-space steps. *)
Example print_mat_info_h5 :
  _print_mat_info h5.file 1 default_tab
  = (["    magnitude: <class 'h5py._hl.dataset.Dataset'> (2, 1, 1, 2, 3, 1) float64";
      "    info: <class 'h5py._hl.group.Group'>";
      "        voxel: <class 'h5py._hl.dataset.Dataset'> (3,) float64";
      "        id: <class 'h5py._hl.dataset.Dataset'> () int64";
      "    phase: <class 'h5py._hl.dataset.Dataset'> (2, 1, 1, 2, 3, 1) float64"],
     Ok ()) ∧
  _print_mat_info h5.file 1 "--"
  = (["--magnitude: <class 'h5py._hl.dataset.Dataset'> (2, 1, 1, 2, 3, 1) float64";
      "--info: <class 'h5py._hl.group.Group'>";
      "        voxel: <class 'h5py._hl.dataset.Dataset'> (3,) float64";
      "        id: <class 'h5py._hl.dataset.Dataset'> () int64";
      "--phase: <class 'h5py._hl.dataset.Dataset'> (2, 1, 1, 2, 3, 1) float64"],
     Ok ()).
Proof. split; vm_compute; reflexivity. Qed.
